(** * Personal trainer agent: exercise reference, plan generator, progress tracker

  A shallow embedding of [scripts/exercise_library.py],
  [scripts/workout_generator.py] and [scripts/progress_tracker.py], and the
  properties of these modules.

  Conventions of the embedding.
  - Python [str] values are [string]s of ASCII characters; [str.lower] acts on
    the letters [A]-[Z] only.
  - Python [int] values are [Z]. Weights, repetitions and set counts are
    taken to be integers.
  - A [dict] with a fixed set of keys is a record; a key that may be absent
    is an [option] field, and [d.get(k, default)] is written with
    [default] on that field.
  - A [dict] that is iterated (the exercise table) is an association list in
    insertion order.
  - The objects of the plan generator are mutated in place and shared between
    calls, so they live in an explicit store addressed by locations. *)

From Stdlib Require Import ZArith QArith Ascii String List Lia Bool.
From Stdlib Require Import DecimalString Sorted.
From stdpp Require Import base option list strings.

Open Scope string_scope.
Open Scope Z_scope.

(** ** Python string primitives *)

Module PyStr.

Definition lower_ascii (c : ascii) : ascii :=
  let n := nat_of_ascii c in
  if (Nat.leb 65 n && Nat.leb n 90)%bool then ascii_of_nat (n + 32) else c.

(** [s.lower()] *)
Fixpoint lower (s : string) : string :=
  match s with
  | EmptyString => EmptyString
  | String c t => String (lower_ascii c) (lower t)
  end.

(** [s.replace(a, b)] for one-character [a] and [b]. *)
Fixpoint replace (a b : ascii) (s : string) : string :=
  match s with
  | EmptyString => EmptyString
  | String c t => String (if Ascii.eqb c a then b else c) (replace a b t)
  end.

(** [needle in hay] *)
Fixpoint contains (needle hay : string) : bool :=
  String.prefix needle hay
  || match hay with
     | EmptyString => false
     | String _ t => contains needle t
     end.

(** The character [chr(34)]. *)
Definition dquote : string := String "034"%char EmptyString.

(** [d.get(k)] on a dict with string keys, kept in insertion order. *)
Fixpoint dict_get {A} (k : string) (d : list (string * A)) : option A :=
  match d with
  | [] => None
  | (k', v) :: d' => if String.eqb k k' then Some v else dict_get k d'
  end.

(** [str(n)] for an [int]. *)
Definition str_of_Z (n : Z) : string := NilZero.string_of_int (Z.to_int n).

End PyStr.

(** ** exercise_library.py *)

Module ExerciseLibrary.
Import PyStr.

Record ExerciseRecord := {
  name : string;
  primary_muscles : list string;
  type : string;
  equipment : list string;
  instructions : list string;
  form_cues : list string;
  alternatives : list string
}.

(** The value returned by [get_exercise]: an exercise record, or the dict
    [{'error': ...}]. *)
Inductive exercise_result :=
| Found (r : ExerciseRecord)
| ErrorDict (error : string).

Definition _build_exercise_database : list (string * ExerciseRecord) :=
  [
 ("bench_press",
  {| name := "Bench Press";
     primary_muscles := ["chest"; "triceps"; "front_delts"];
     type := "compound";
     equipment := ["barbell"; "bench"];
     instructions :=
       ["Lie on bench with eyes under the bar";
        "Grip bar slightly wider than shoulder width";
        "Unrack and position bar over chest";
        "Lower bar to mid-chest with control";
        "Press bar up and slightly back";
        "Lock out arms at top"];
     form_cues :=
       ["Keep shoulder blades pinched together";
        "Maintain arch in lower back";
        "Keep feet flat on floor";
        "Elbows at 45-75 degree angle";
        "Touch chest, don't bounce"];
     alternatives :=
       ["Dumbbell Bench Press";
        "Push-ups";
        "Machine Chest Press";
        "Floor Press"] |});
 ("incline_dumbbell_press",
  {| name := "Incline Dumbbell Press";
     primary_muscles := ["upper_chest"; "front_delts"; "triceps"];
     type := "compound";
     equipment := ["dumbbells"; "incline_bench"];
     instructions :=
       ["Set bench to 30-45 degree incline";
        "Sit with dumbbells on thighs";
        "Kick dumbbells up as you lie back";
        "Press dumbbells up and together";
        "Lower with control to chest level";
        "Repeat for desired reps"];
     form_cues :=
       ["Keep back flat against bench";
        "Don't let dumbbells drift too far apart";
        "Control the negative portion";
        "Full range of motion"];
     alternatives :=
       ["Incline Barbell Press";
        "Low-to-High Cable Fly";
        "Incline Push-ups"] |});
 ("push_ups",
  {| name := "Push-ups";
     primary_muscles := ["chest"; "triceps"; "front_delts"];
     type := "compound";
     equipment := ["bodyweight"];
     instructions :=
       ["Start in plank position, hands shoulder-width apart";
        "Keep body in straight line from head to heels";
        "Lower chest toward floor";
        "Push back up to starting position";
        "Maintain core engagement throughout"];
     form_cues :=
       ["Don't let hips sag or pike up";
        "Elbows at 45 degree angle";
        "Full lockout at top";
        "Chest touches floor at bottom"];
     alternatives :=
       ["Knee Push-ups";
        "Incline Push-ups";
        "Diamond Push-ups";
        "Wide Push-ups"] |});
 ("barbell_row",
  {| name := "Barbell Row";
     primary_muscles := ["lats"; "rhomboids"; "rear_delts"; "biceps"];
     type := "compound";
     equipment := ["barbell"];
     instructions :=
       ["Stand with feet shoulder-width apart";
        "Hinge at hips, back flat, chest up";
        "Grip bar slightly wider than shoulder width";
        "Pull bar to lower chest/upper abs";
        "Squeeze shoulder blades at top";
        "Lower with control"];
     form_cues :=
       ["Keep back flat, don't round";
        "Lead with elbows";
        "Don't use momentum";
        "Torso angle ~45 degrees"];
     alternatives :=
       ["Dumbbell Row"; "Cable Row"; "T-Bar Row"; "Chest Supported Row"] |});
 ("pull_ups",
  {| name := "Pull-ups";
     primary_muscles := ["lats"; "biceps"; "rear_delts"];
     type := "compound";
     equipment := ["pull_up_bar"];
     instructions :=
       ["Grip bar slightly wider than shoulder width";
        "Hang with arms fully extended";
        "Pull yourself up until chin clears bar";
        "Lower with control to full extension";
        "Avoid swinging or kipping"];
     form_cues :=
       ["Initiate with lats, not arms";
        "Keep core engaged";
        "Shoulders down and back";
        "Full range of motion"];
     alternatives :=
       ["Lat Pulldown";
        "Assisted Pull-ups";
        "Negative Pull-ups";
        "Inverted Rows"] |});
 ("lat_pulldown",
  {| name := "Lat Pulldown";
     primary_muscles := ["lats"; "biceps"; "rear_delts"];
     type := "compound";
     equipment := ["cable_machine"];
     instructions :=
       ["Sit with thighs secured under pads";
        "Grip bar wider than shoulder width";
        "Pull bar down to upper chest";
        "Squeeze lats at bottom";
        "Control the weight back up"];
     form_cues :=
       ["Don't lean back excessively";
        "Pull elbows down and back";
        "Keep chest up";
        "Full stretch at top"];
     alternatives :=
       ["Pull-ups"; "Close Grip Pulldown"; "Straight Arm Pulldown"] |});
 ("squat",
  {| name := "Squat";
     primary_muscles := ["quads"; "glutes"; "hamstrings"; "core"];
     type := "compound";
     equipment := ["barbell"; "squat_rack"];
     instructions :=
       ["Position bar on upper back (high bar) or rear delts (low bar)";
        "Unrack and step back, feet shoulder-width apart";
        "Brace core and initiate by pushing hips back";
        "Descend until hip crease below knee";
        "Drive through feet to stand";
        "Lock out hips and knees at top"];
     form_cues :=
       ["Keep chest up and back flat";
        "Knees track over toes";
        "Weight in mid-foot/heels";
        "Don't let knees cave in";
        "Breathe and brace each rep"];
     alternatives :=
       ["Goblet Squat";
        "Front Squat";
        "Leg Press";
        "Bulgarian Split Squat";
        "Box Squat"] |});
 ("deadlift",
  {| name := "Deadlift";
     primary_muscles := ["hamstrings"; "glutes"; "lower_back"; "traps"];
     type := "compound";
     equipment := ["barbell"];
     instructions :=
       ["Stand with feet hip-width, bar over mid-foot";
        "Hinge and grip bar just outside legs";
        "Drop hips, chest up, back flat";
        "Drive through floor, keeping bar close";
        "Lock out hips and knees together";
        "Reverse the movement to lower"];
     form_cues :=
       ["Bar stays close to body entire lift";
        "Don't round lower back";
        "Push floor away with legs";
        "Lock out by squeezing glutes";
        "Don't hyperextend at top"];
     alternatives :=
       ["Romanian Deadlift";
        "Trap Bar Deadlift";
        "Sumo Deadlift";
        "Hip Thrust"] |});
 ("romanian_deadlift",
  {| name := "Romanian Deadlift";
     primary_muscles := ["hamstrings"; "glutes"; "lower_back"];
     type := "compound";
     equipment := ["barbell"; "dumbbells"];
     instructions :=
       ["Stand with feet hip-width, holding bar";
        "Push hips back while keeping knees slightly bent";
        "Lower bar along thighs until hamstring stretch";
        "Keep back flat throughout";
        "Drive hips forward to return to start"];
     form_cues :=
       ["Hinge at hips, not waist";
        "Bar stays close to legs";
        "Feel stretch in hamstrings";
        "Don't round back";
        "Squeeze glutes at top"];
     alternatives :=
       ["Stiff Leg Deadlift";
        "Single Leg RDL";
        "Good Morning";
        "Cable Pull Through"] |});
 ("leg_press",
  {| name := "Leg Press";
     primary_muscles := ["quads"; "glutes"; "hamstrings"];
     type := "compound";
     equipment := ["leg_press_machine"];
     instructions :=
       ["Sit in machine with back flat against pad";
        "Place feet shoulder-width on platform";
        "Release safety and lower weight";
        "Lower until knees at 90 degrees";
        "Press through feet to extend legs";
        "Don't lock knees completely"];
     form_cues :=
       ["Keep lower back pressed into pad";
        "Don't let knees cave in";
        "Control the negative";
        "Full range of motion"];
     alternatives :=
       ["Squat"; "Hack Squat"; "Bulgarian Split Squat"] |});
 ("overhead_press",
  {| name := "Overhead Press";
     primary_muscles := ["front_delts"; "side_delts"; "triceps"];
     type := "compound";
     equipment := ["barbell"];
     instructions :=
       ["Grip bar just outside shoulder width";
        "Start with bar at shoulder level";
        "Brace core and press bar overhead";
        "Lock out arms at top";
        "Lower bar with control to shoulders"];
     form_cues :=
       ["Keep core tight, don't lean back";
        "Press bar in straight line";
        "Move head back slightly as bar passes";
        "Full lockout at top"];
     alternatives :=
       ["Dumbbell Shoulder Press";
        "Arnold Press";
        "Machine Shoulder Press";
        "Landmine Press"] |});
 ("lateral_raise",
  {| name := "Lateral Raise";
     primary_muscles := ["side_delts"];
     type := "isolation";
     equipment := ["dumbbells"];
     instructions :=
       ["Stand with dumbbells at sides";
        "Slight bend in elbows";
        "Raise arms out to sides until shoulder height";
        "Pause briefly at top";
        "Lower with control"];
     form_cues :=
       ["Lead with elbows, not hands";
        "Don't swing or use momentum";
        "Slight forward lean okay";
        "Pinkies up at top optional"];
     alternatives :=
       ["Cable Lateral Raise";
        "Machine Lateral Raise";
        "Leaning Lateral Raise"] |});
 ("bicep_curl",
  {| name := "Bicep Curl";
     primary_muscles := ["biceps"];
     type := "isolation";
     equipment := ["dumbbells"; "barbell"];
     instructions :=
       ["Stand with arms at sides, palms forward";
        "Keep elbows at sides throughout";
        "Curl weight up toward shoulders";
        "Squeeze biceps at top";
        "Lower with control"];
     form_cues :=
       ["Don't swing body";
        "Keep elbows stationary";
        "Full range of motion";
        "Control the negative"];
     alternatives :=
       ["Hammer Curl"; "Preacher Curl"; "Cable Curl"; "Incline Curl"] |});
 ("tricep_pushdown",
  {| name := "Tricep Pushdown";
     primary_muscles := ["triceps"];
     type := "isolation";
     equipment := ["cable_machine"];
     instructions :=
       ["Stand facing cable machine";
        "Grip rope or bar attachment";
        "Keep elbows at sides";
        "Push down until arms fully extended";
        "Squeeze triceps at bottom";
        "Control the return"];
     form_cues :=
       ["Don't let elbows flare";
        "Keep torso upright";
        "Full extension at bottom";
        "Don't use momentum"];
     alternatives :=
       ["Skull Crushers";
        "Overhead Extension";
        "Dips";
        "Close Grip Bench"] |});
 ("plank",
  {| name := "Plank";
     primary_muscles := ["core"; "shoulders"];
     type := "core";
     equipment := ["bodyweight"];
     instructions :=
       ["Start in push-up position on forearms";
        "Keep body in straight line";
        "Engage core and glutes";
        "Hold position for prescribed time";
        "Breathe normally throughout"];
     form_cues :=
       ["Don't let hips sag or pike";
        "Keep neck neutral";
        "Squeeze everything tight";
        "Quality over duration"];
     alternatives :=
       ["Side Plank"; "Dead Bug"; "Bird Dog"; "Hollow Hold"] |});
 ("face_pulls",
  {| name := "Face Pulls";
     primary_muscles := ["rear_delts"; "rhomboids"; "external_rotators"];
     type := "isolation";
     equipment := ["cable_machine"; "rope"];
     instructions :=
       ["Set cable at face height";
        "Grip rope with thumbs pointing back";
        "Pull toward face, separating hands";
        "Externally rotate at end of movement";
        "Squeeze shoulder blades together";
        "Control return"];
     form_cues :=
       ["Lead with elbows high";
        "Pull apart, not just back";
        "Keep chest up";
        "Don't lean back excessively"];
     alternatives :=
       ["Reverse Fly"; "Band Pull Aparts"; "Rear Delt Fly Machine"] |});
 ("calf_raises",
  {| name := "Calf Raises";
     primary_muscles := ["calves"];
     type := "isolation";
     equipment := ["calf_machine"; "dumbbells"];
     instructions :=
       ["Position balls of feet on edge";
        "Lower heels for full stretch";
        "Push up onto toes as high as possible";
        "Pause and squeeze at top";
        "Lower with control"];
     form_cues :=
       ["Full range of motion";
        "Don't bounce at bottom";
        "Pause at top";
        "Straight knees for gastrocnemius"];
     alternatives :=
       ["Seated Calf Raise";
        "Donkey Calf Raise";
        "Single Leg Calf Raise"] |});
 ("leg_curl",
  {| name := "Leg Curl";
     primary_muscles := ["hamstrings"];
     type := "isolation";
     equipment := ["leg_curl_machine"];
     instructions :=
       ["Lie face down or sit in machine";
        "Position pad above heels";
        "Curl legs toward glutes";
        "Squeeze hamstrings at top";
        "Lower with control"];
     form_cues :=
       ["Don't lift hips off pad";
        "Full range of motion";
        "Control the negative";
        "Point toes for extra contraction"];
     alternatives :=
       ["Nordic Curl";
        "Swiss Ball Curl";
        "Slider Curl";
        "Romanian Deadlift"] |})
  ].

(** [self.exercises], in insertion order. *)
Definition exercises := _build_exercise_database.

Definition normalize (name : string) : string :=
  replace "-" "_" (replace " " "_" (lower name)).

(** The fuzzy-match loop: the first entry, in iteration order, whose key
    contains the input or is contained in it. *)
Fixpoint fuzzy_match (normalized : string) (d : list (string * ExerciseRecord))
  : option ExerciseRecord :=
  match d with
  | [] => None
  | (key, exercise) :: d' =>
      if contains normalized key || contains key normalized
      then Some exercise
      else fuzzy_match normalized d'
  end.

Definition not_found_message (name : string) : string :=
  "Exercise " ++ dquote ++ name ++ dquote ++ " not found in library".

Definition get_exercise_in (db : list (string * ExerciseRecord)) (name : string)
  : exercise_result :=
  let normalized := normalize name in
  match dict_get normalized db with
  | Some r => Found r
  | None =>
      match fuzzy_match normalized db with
      | Some r => Found r
      | None => ErrorDict (not_found_message name)
      end
  end.

Definition get_exercise (name : string) : exercise_result :=
  get_exercise_in exercises name.

Definition equipment_words : list string := ["dumbbell"; "bodyweight"; "band"].

(** [any(eq in alt.lower() for eq in ['dumbbell', 'bodyweight', 'band'])] *)
Definition equipment_friendly (alt : string) : bool :=
  existsb (fun eq => contains eq (lower alt)) equipment_words.

Definition get_alternatives (exercise_name reason : string) : list string :=
  match get_exercise exercise_name with
  | ErrorDict _ => []
  | Found exercise =>
      let alts := alternatives exercise in
      if String.eqb reason "equipment"
      then List.filter equipment_friendly alts
      else alts
  end.

(** One element of the result of [get_exercises_by_muscle]. *)
Record MuscleHit := { hit_name : string; hit_type : string }.

Definition get_exercises_by_muscle (muscle : string) : list MuscleHit :=
  flat_map
    (fun '(_, exercise) =>
       if existsb (String.eqb (lower muscle)) (map lower (primary_muscles exercise))
       then [ {| hit_name := name exercise; hit_type := type exercise |} ]
       else [])
    exercises.

End ExerciseLibrary.

(** ** workout_generator.py *)

Module WorkoutGenerator.
Import PyStr.

(** *** The object store

    Templates, sessions, exercise slots and the lists that hold them are
    Python objects that [generate_plan] reads and writes through
    references. A location is an index in the store; a fresh object is
    appended. *)

Abbreviation loc := nat.

(** An exercise slot [{'name', 'type', 'muscle'}]; the keys ['sets'],
    ['reps'] and ['rest'] are absent until a rep scheme is applied. *)
Record Exercise := {
  ex_name : string;
  ex_type : string;
  ex_muscle : string;
  ex_sets : option Z;
  ex_reps : option string;
  ex_rest : option string
}.

(** A session [{'name', 'exercises'}]; ['exercises'] refers to a list. *)
Record Session := { s_name : string; s_exercises : loc }.

(** A template [{'name', 'days_per_week', 'sessions'}]. *)
Record Template := { t_name : string; t_days_per_week : Z; t_sessions : loc }.

Inductive obj :=
| OExercise (e : Exercise)
| OSession (s : Session)
| OTemplate (t : Template)
| OList (items : list loc).

Abbreviation heap := (list obj).

(** Computations on the store; [None] is a raised exception. *)
Definition M (A : Type) : Type := heap -> option (A * heap).

#[export] Instance M_ret : MRet M := fun A a h => Some (a, h).
#[export] Instance M_bind : MBind M :=
  fun A B k m h => match m h with
                   | Some (a, h') => k a h'
                   | None => None
                   end.
Definition raise {A} : M A := fun _ => None.

Definition alloc (o : obj) : M loc := fun h => Some (length h, (h ++ [o])%list).

Definition read (l : loc) : M obj :=
  fun h => match h !! l with
           | Some o => Some (o, h)
           | None => None
           end.

Definition write (l : loc) (o : obj) : M unit :=
  fun h => if (l <? length h)%nat then Some (tt, <[l := o]> h) else None.

Definition read_exercise (l : loc) : M Exercise :=
  o ← read l; match o with OExercise e => mret e | _ => raise end.
Definition read_session (l : loc) : M Session :=
  o ← read l; match o with OSession s => mret s | _ => raise end.
Definition read_template (l : loc) : M Template :=
  o ← read l; match o with OTemplate t => mret t | _ => raise end.
Definition read_list (l : loc) : M (list loc) :=
  o ← read l; match o with OList xs => mret xs | _ => raise end.

(** [for x in xs: body(x)] *)
Fixpoint for_each {A} (xs : list A) (body : A -> M unit) : M unit :=
  match xs with
  | [] => mret tt
  | x :: xs' => body x ;; for_each xs' body
  end.

(** [[f(x) for x in xs]] *)
Fixpoint map_M {A B} (f : A -> M B) (xs : list A) : M (list B) :=
  match xs with
  | [] => mret []
  | x :: xs' => y ← f x; ys ← map_M f xs'; mret (y :: ys)
  end.

(** *** Template literals

    The [_get_*_template] methods evaluate a dict literal; every evaluation
    creates fresh objects. The literal is kept as data and [alloc_template]
    is its evaluation. *)

Definition slot_literal : Type := string * string * string.
Definition session_literal : Type := string * list slot_literal.
Definition template_literal : Type := string * Z * list session_literal.

Definition alloc_slot (s : slot_literal) : M loc :=
  let '(n, ty, mu) := s in
  alloc (OExercise {| ex_name := n; ex_type := ty; ex_muscle := mu;
                      ex_sets := None; ex_reps := None; ex_rest := None |}).

Definition alloc_session (s : session_literal) : M loc :=
  let '(n, slots) := s in
  es ← map_M alloc_slot slots;
  el ← alloc (OList es);
  alloc (OSession {| s_name := n; s_exercises := el |}).

Definition alloc_template (t : template_literal) : M loc :=
  let '(n, days, sess) := t in
  ss ← map_M alloc_session sess;
  sl ← alloc (OList ss);
  alloc (OTemplate {| t_name := n; t_days_per_week := days; t_sessions := sl |}).

Definition full_body_literal : template_literal :=
  ("Full Body", 3,
   [ ("Full Body A",
      [ ("Squat", "compound", "legs");
        ("Bench Press", "compound", "chest");
        ("Barbell Row", "compound", "back");
        ("Overhead Press", "compound", "shoulders");
        ("Plank", "core", "core") ]);
     ("Full Body B",
      [ ("Deadlift", "compound", "legs");
        ("Incline Press", "compound", "chest");
        ("Pull-ups", "compound", "back");
        ("Dumbbell Lunges", "compound", "legs");
        ("Face Pulls", "isolation", "shoulders") ]) ]).

Definition upper_lower_literal : template_literal :=
  ("Upper/Lower", 4,
   [ ("Upper A",
      [ ("Bench Press", "compound", "chest");
        ("Barbell Row", "compound", "back");
        ("Overhead Press", "compound", "shoulders");
        ("Pull-ups", "compound", "back");
        ("Face Pulls", "isolation", "shoulders");
        ("Tricep Pushdown", "isolation", "triceps");
        ("Bicep Curl", "isolation", "biceps") ]);
     ("Lower A",
      [ ("Squat", "compound", "quads");
        ("Romanian Deadlift", "compound", "hamstrings");
        ("Leg Press", "compound", "quads");
        ("Leg Curl", "isolation", "hamstrings");
        ("Calf Raises", "isolation", "calves") ]);
     ("Upper B",
      [ ("Incline Dumbbell Press", "compound", "chest");
        ("Cable Row", "compound", "back");
        ("Dumbbell Shoulder Press", "compound", "shoulders");
        ("Lat Pulldown", "compound", "back");
        ("Lateral Raises", "isolation", "shoulders");
        ("Skull Crushers", "isolation", "triceps");
        ("Hammer Curl", "isolation", "biceps") ]);
     ("Lower B",
      [ ("Deadlift", "compound", "posterior");
        ("Front Squat", "compound", "quads");
        ("Walking Lunges", "compound", "legs");
        ("Leg Extension", "isolation", "quads");
        ("Seated Calf Raise", "isolation", "calves") ]) ]).

Definition ppl_literal : template_literal :=
  ("Push/Pull/Legs", 6,
   [ ("Push",
      [ ("Bench Press", "compound", "chest");
        ("Incline Dumbbell Press", "compound", "chest");
        ("Overhead Press", "compound", "shoulders");
        ("Cable Fly", "isolation", "chest");
        ("Lateral Raises", "isolation", "shoulders");
        ("Tricep Pushdown", "isolation", "triceps");
        ("Overhead Tricep Extension", "isolation", "triceps") ]);
     ("Pull",
      [ ("Barbell Row", "compound", "back");
        ("Pull-ups", "compound", "back");
        ("Seated Cable Row", "compound", "back");
        ("Face Pulls", "isolation", "rear_delts");
        ("Barbell Curl", "isolation", "biceps");
        ("Hammer Curl", "isolation", "biceps") ]);
     ("Legs",
      [ ("Squat", "compound", "quads");
        ("Romanian Deadlift", "compound", "hamstrings");
        ("Leg Press", "compound", "quads");
        ("Leg Curl", "isolation", "hamstrings");
        ("Leg Extension", "isolation", "quads");
        ("Calf Raises", "isolation", "calves") ]) ]).

Definition _get_full_body_template : M loc := alloc_template full_body_literal.
Definition _get_upper_lower_template : M loc := alloc_template upper_lower_literal.
Definition _get_ppl_template : M loc := alloc_template ppl_literal.

(** [ul['sessions'][:2] + ppl['sessions']] is a new list that refers to the
    session objects of the two templates just built. *)
Definition _get_upper_lower_ppl_template : M loc :=
  ul ← _get_upper_lower_template;
  ppl ← _get_ppl_template;
  ult ← read_template ul;
  pplt ← read_template ppl;
  uls ← read_list (t_sessions ult);
  ppls ← read_list (t_sessions pplt);
  sl ← alloc (OList (take 2 uls ++ ppls)%list);
  alloc (OTemplate {| t_name := "Upper/Lower + PPL"; t_days_per_week := 5;
                      t_sessions := sl |}).

Record RepScheme := { sets : Z; reps : string; rest : string }.

(** The generator object: [self.splits] maps a split name to its template
    object, [self.rep_schemes] a goal to its scheme. *)
Record Generator := {
  splits : list (string * loc);
  rep_schemes : list (string * RepScheme)
}.

Definition __init__ : M Generator :=
  fb ← _get_full_body_template;
  ul ← _get_upper_lower_template;
  ppl ← _get_ppl_template;
  ulppl ← _get_upper_lower_ppl_template;
  mret {| splits := [ ("full_body", fb); ("upper_lower", ul); ("ppl", ppl);
                     ("upper_lower_ppl", ulppl) ];
         rep_schemes :=
           [ ("strength", {| sets := 4; reps := "4-6"; rest := "3-5 min" |});
             ("muscle_building", {| sets := 3; reps := "8-12"; rest := "60-90 sec" |});
             ("fat_loss", {| sets := 3; reps := "12-15"; rest := "30-60 sec" |});
             ("endurance", {| sets := 2; reps := "15-20"; rest := "30 sec" |}) ] |}.

(** *** Adjustments; each one works on the template object it is given and
    returns the same reference. *)

Definition _adjust_for_experience (template : loc) (level : string) : M loc :=
  (if String.eqb level "beginner" then
     t ← read_template template;
     ss ← read_list (t_sessions t);
     for_each ss (fun session =>
       s ← read_session session;
       es ← read_list (s_exercises s);
       (* session['exercises'][:5] is a new list object *)
       l ← alloc (OList (take 5 es));
       write session (OSession {| s_name := s_name s; s_exercises := l |}))
   else mret tt) ;;
  mret template.

Definition set_name (n : string) (e : Exercise) : Exercise :=
  {| ex_name := n; ex_type := ex_type e; ex_muscle := ex_muscle e;
     ex_sets := ex_sets e; ex_reps := ex_reps e; ex_rest := ex_rest e |}.

(** The loop shared by the equipment and the limitation adjustment:
<<
    for session in template['sessions']:
        for exercise in session['exercises']:
            if exercise['name'] in subs:
                exercise['name'] = subs[exercise['name']]
>> *)
Definition substitute_names (subs : list (string * string)) (template : loc)
  : M unit :=
  t ← read_template template;
  ss ← read_list (t_sessions t);
  for_each ss (fun session =>
    s ← read_session session;
    es ← read_list (s_exercises s);
    for_each es (fun exercise =>
      e ← read_exercise exercise;
      match dict_get (ex_name e) subs with
      | Some n => write exercise (OExercise (set_name n e))
      | None => mret tt
      end)).

Definition substitutions : list (string * list (string * string)) :=
  [ ("bodyweight",
     [ ("Bench Press", "Push-ups");
       ("Barbell Row", "Inverted Row");
       ("Squat", "Bodyweight Squat");
       ("Deadlift", "Single Leg RDL");
       ("Overhead Press", "Pike Push-ups");
       ("Leg Press", "Bulgarian Split Squat");
       ("Lat Pulldown", "Pull-ups");
       ("Cable Row", "Inverted Row");
       ("Leg Curl", "Nordic Curl");
       ("Leg Extension", "Sissy Squat") ]);
    ("home_gym",
     [ ("Leg Press", "Goblet Squat");
       ("Lat Pulldown", "Pull-ups");
       ("Cable Row", "Dumbbell Row");
       ("Cable Fly", "Dumbbell Fly");
       ("Leg Curl", "Dumbbell Leg Curl");
       ("Leg Extension", "Dumbbell Step-up") ]) ].

Definition _adjust_for_equipment (template : loc) (equipment : string) : M loc :=
  match dict_get equipment substitutions with
  | Some subs => substitute_names subs template
  | None => mret tt
  end ;;
  mret template.

Definition limitation_subs : list (string * list (string * string)) :=
  [ ("lower_back",
     [ ("Deadlift", "Hip Thrust");
       ("Barbell Row", "Chest Supported Row");
       ("Squat", "Leg Press") ]);
    ("knee",
     [ ("Squat", "Box Squat");
       ("Lunges", "Step-ups");
       ("Leg Extension", "Terminal Knee Extension") ]);
    ("shoulder",
     [ ("Overhead Press", "Landmine Press");
       ("Bench Press", "Floor Press");
       ("Lateral Raises", "Cable Lateral Raise") ]) ].

Definition _adjust_for_limitations (template : loc) (limitations : list string)
  : M loc :=
  for_each limitations (fun limitation =>
    match dict_get limitation limitation_subs with
    | Some subs => substitute_names subs template
    | None => mret tt
    end) ;;
  mret template.

(** The three assignments [exercise['sets'] = ...], [exercise['reps'] = ...],
    [exercise['rest'] = ...] of one branch. *)
Definition set_scheme (s : Z) (r rs : string) (e : Exercise) : Exercise :=
  {| ex_name := ex_name e; ex_type := ex_type e; ex_muscle := ex_muscle e;
     ex_sets := Some s; ex_reps := Some r; ex_rest := Some rs |}.

Definition _apply_rep_scheme (template : loc) (rep_scheme : RepScheme) : M loc :=
  t ← read_template template;
  ss ← read_list (t_sessions t);
  for_each ss (fun session =>
    s ← read_session session;
    es ← read_list (s_exercises s);
    for_each es (fun exercise =>
      e ← read_exercise exercise;
      if String.eqb (ex_type e) "compound"
      then write exercise
             (OExercise (set_scheme (sets rep_scheme) (reps rep_scheme)
                                    (rest rep_scheme) e))
      else write exercise
             (OExercise (set_scheme (sets rep_scheme) "10-15" "60 sec" e)))) ;;
  mret template.

Definition _get_week_notes (week_num total_weeks : Z) : string :=
  if week_num =? 1 then
    "Focus on form. Use moderate weights to learn movements."
  else if week_num =? total_weeks then
    "Final week! Push hard but consider a deload after this."
  else if week_num mod 4 =? 0 then
    "Deload week if needed. Reduce volume by 40%."
  else
    "Progressive overload. Try to beat last week's numbers.".

(** A week [{'week_number', 'sessions', 'notes'}] of a plan. The week dict is
    a new object, but its ['sessions'] entry is the reference
    [template['sessions']], not a copy. *)
Record Week := { week_number : Z; sessions : loc; notes : string }.

Record Plan := {
  split_type : string;
  goal : string;
  experience_level : string;
  weeks : list Week
}.

(** [d[k]]: a missing key raises [KeyError]. *)
Definition dict_index {A} (k : string) (d : list (string * A)) : M A :=
  match dict_get k d with
  | Some v => mret v
  | None => raise
  end.

Definition generate_plan (self : Generator)
    (split_type experience_level goal equipment : string)
    (weeks : Z) (limitations : option (list string)) : M Plan :=
  let limitations := default [] limitations in
  (* self.splits.get(split_type, self.splits['full_body']) *)
  fallback ← dict_index "full_body" (splits self);
  let template := default fallback (dict_get split_type (splits self)) in
  template ← _adjust_for_experience template experience_level;
  template ← _adjust_for_equipment template equipment;
  template ← _adjust_for_limitations template limitations;
  fallback_scheme ← dict_index "muscle_building" (rep_schemes self);
  let rep_scheme := default fallback_scheme (dict_get goal (rep_schemes self)) in
  template ← _apply_rep_scheme template rep_scheme;
  ws ← map_M (fun week_num =>
                 t ← read_template template;
                 mret {| week_number := week_num;
                        sessions := t_sessions t;
                        notes := _get_week_notes week_num weeks |})
              (seqZ 1 weeks);
  mret {| split_type := split_type; goal := goal;
         experience_level := experience_level; weeks := ws |}.

(** *** Reading a structure out of the store

    The value of a template or of a plan's session list: names and slots,
    without the locations. Two references denote structurally equal
    objects when their values are equal. *)

Definition session_value : Type := string * list Exercise.
Definition template_value : Type := string * Z * list session_value.

Definition value_of_session (session : loc) : M session_value :=
  s ← read_session session;
  es ← read_list (s_exercises s);
  vs ← map_M read_exercise es;
  mret (s_name s, vs).

Definition value_of_sessions (sl : loc) : M (list session_value) :=
  ss ← read_list sl;
  map_M value_of_session ss.

Definition value_of_template (template : loc) : M template_value :=
  t ← read_template template;
  vs ← value_of_sessions (t_sessions t);
  mret (t_name t, t_days_per_week t, vs).

(** Run a computation for its result only. *)
Definition eval {A} (m : M A) (h : heap) : option A := fst <$> m h.

(** The stored template of a split, as a value. *)
Definition stored_template (self : Generator) (split : string) (h : heap)
  : option template_value :=
  match dict_get split (splits self) with
  | Some tl => eval (value_of_template tl) h
  | None => None
  end.

End WorkoutGenerator.

(** ** The [datetime] values used by the progress tracker

  Timestamps are written by [datetime.now().isoformat()] and read back by
  [datetime.fromisoformat]; the embedding keeps the [datetime] value that the
  string denotes. The calendar arithmetic follows the pure-Python
  [datetime] module of the standard library. *)

Module Datetime.

Record datetime := {
  year : Z; month : Z; day : Z;
  hour : Z; minute : Z; second : Z; microsecond : Z
}.

Definition _is_leap (y : Z) : bool :=
  (y mod 4 =? 0) && (negb (y mod 100 =? 0) || (y mod 400 =? 0)).

Definition _days_before_year (y : Z) : Z :=
  let y0 := y - 1 in
  y0 * 365 + y0 / 4 - y0 / 100 + y0 / 400.

Definition _DAYS_IN_MONTH : list Z :=
  [-1; 31; 28; 31; 30; 31; 30; 31; 31; 30; 31; 30; 31].

Definition _DAYS_BEFORE_MONTH : list Z :=
  [-1; 0; 31; 59; 90; 120; 151; 181; 212; 243; 273; 304; 334].

Definition table (t : list Z) (i : Z) : Z := nth (Z.to_nat i) t 0.

Definition _days_before_month (y m : Z) : Z :=
  table _DAYS_BEFORE_MONTH m + (if (m >? 2) && _is_leap y then 1 else 0).

Definition _ymd2ord (y m d : Z) : Z :=
  _days_before_year y + _days_before_month y m + d.

Definition _DI400Y : Z := 146097.
Definition _DI100Y : Z := 36524.
Definition _DI4Y : Z := 1461.

Definition _ord2ymd (n : Z) : Z * Z * Z :=
  let n := n - 1 in
  let n400 := n / _DI400Y in
  let n := n mod _DI400Y in
  let year := n400 * 400 + 1 in
  let n100 := n / _DI100Y in
  let n := n mod _DI100Y in
  let n4 := n / _DI4Y in
  let n := n mod _DI4Y in
  let n1 := n / 365 in
  let n := n mod 365 in
  let year := year + n100 * 100 + n4 * 4 + n1 in
  if (n1 =? 4) || (n100 =? 4) then (year - 1, 12, 31)
  else
    let leapyear := (n1 =? 3) && (negb (n4 =? 24) || (n100 =? 3)) in
    let month := Z.shiftr (n + 50) 5 in
    let preceding :=
      table _DAYS_BEFORE_MONTH month
      + (if (month >? 2) && leapyear then 1 else 0) in
    if preceding >? n then
      let month := month - 1 in
      let preceding :=
        preceding
        - (table _DAYS_IN_MONTH month
           + (if (month =? 2) && leapyear then 1 else 0)) in
      (year, month, n - preceding + 1)
    else (year, month, n - preceding + 1).

Definition toordinal (d : datetime) : Z := _ymd2ord (year d) (month d) (day d).

Definition _isoweek1monday (y : Z) : Z :=
  let firstday := _ymd2ord y 1 1 in
  let firstweekday := (firstday + 6) mod 7 in
  let week1monday := firstday - firstweekday in
  if firstweekday >? 3 then week1monday + 7 else week1monday.

(** [d.isocalendar()]: ISO year, ISO week number, ISO weekday. *)
Definition isocalendar (d : datetime) : Z * Z * Z :=
  let y := year d in
  let week1monday := _isoweek1monday y in
  let today := toordinal d in
  let week := (today - week1monday) / 7 in
  let wday := (today - week1monday) mod 7 in
  if week <? 0 then
    let y := y - 1 in
    let week1monday := _isoweek1monday y in
    ((y, (today - week1monday) / 7 + 1), (today - week1monday) mod 7 + 1)
  else if (week >=? 52) && (today >=? _isoweek1monday (y + 1)) then
    ((y + 1, 1), wday + 1)
  else ((y, week + 1), wday + 1).

Definition _MAXORDINAL : Z := 3652059.

(** [d - timedelta(days=n)]; [None] is [OverflowError]. *)
Definition sub_days (d : datetime) (n : Z) : option datetime :=
  let o := toordinal d - n in
  if (0 <? o) && (o <=? _MAXORDINAL) then
    let '(y, m, dd) := _ord2ymd o in
    Some {| year := y; month := m; day := dd; hour := hour d;
            minute := minute d; second := second d;
            microsecond := microsecond d |}
  else None.

(** Lexicographic comparison of integer tuples. *)
Fixpoint lex_compare (a b : list Z) : comparison :=
  match a, b with
  | [], [] => Eq
  | [], _ :: _ => Lt
  | _ :: _, [] => Gt
  | x :: a', y :: b' =>
      match x ?= y with
      | Eq => lex_compare a' b'
      | c => c
      end
  end.

Definition fields (d : datetime) : list Z :=
  [year d; month d; day d; hour d; minute d; second d; microsecond d].

(** [a >= b] *)
Definition ge (a b : datetime) : bool :=
  match lex_compare (fields a) (fields b) with
  | Lt => false
  | _ => true
  end.

(** [d.date()] *)
Definition date : Type := Z * Z * Z.
Definition date_of (d : datetime) : date := (year d, month d, day d).
Definition date_leb (a b : date) : bool :=
  let '(ay, am, ad) := a in
  let '(by_, bm, bd) := b in
  match lex_compare [ay; am; ad] [by_; bm; bd] with
  | Gt => false
  | _ => true
  end.
(** [(a - b).days] *)
Definition date_diff_days (a b : date) : Z :=
  let '(ay, am, ad) := a in
  let '(by_, bm, bd) := b in
  _ymd2ord ay am ad - _ymd2ord by_ bm bd.

End Datetime.

(** ** progress_tracker.py *)

Module ProgressTracker.
Import PyStr.
Import Datetime.

(** One logged exercise, a dict with the optional keys ['exercise'],
    ['name'], ['sets'], ['reps'] and ['weight']. *)
Record ExerciseEntry := {
  exercise : option string;
  name : option string;
  sets : option Z;
  reps : option Z;
  weight : option Z
}.

(** A workout [{'date', 'exercises', 'notes'}]. *)
Record Workout := {
  date : datetime;
  exercises : option (list ExerciseEntry);
  notes : option string
}.

(** The tracker object: the in-memory log [self.workouts] and the content of
    the file [workouts.json] ([None] while the file does not exist). *)
Record Tracker := {
  workouts : list Workout;
  workouts_file : option (list Workout)
}.

(** Methods of the tracker: a result ([None] for a raised exception) and the
    tracker after the call. *)
Definition T (A : Type) : Type := Tracker -> option A * Tracker.

#[export] Instance T_ret : MRet T := fun A a s => (Some a, s).
#[export] Instance T_bind : MBind T :=
  fun A B k m s => match m s with
                   | (Some a, s') => k a s'
                   | (None, s') => (None, s')
                   end.

(** [self.workouts] *)
Definition self_workouts : T (list Workout) := fun s => (Some (workouts s), s).

(** An optional value whose absence raises. *)
Definition or_raise {A} (o : option A) : T A := fun s => (o, s).

Definition _load_workouts (file : option (list Workout)) : list Workout :=
  match file with
  | Some ws => ws
  | None => []
  end.

Definition __init__ (file : option (list Workout)) : Tracker :=
  {| workouts := _load_workouts file; workouts_file := file |}.

Definition _save_workouts : T unit :=
  fun s => (Some tt, {| workouts := workouts s; workouts_file := Some (workouts s) |}).

(** [self.workouts.append(workout)] *)
Definition append_workout (w : Workout) : T unit :=
  fun s => (Some tt, {| workouts := (workouts s ++ [w])%list;
                        workouts_file := workouts_file s |}).

(** [exercise.get('exercise', exercise.get('name', ''))] *)
Definition entry_name (e : ExerciseEntry) : string :=
  default (default EmptyString (name e)) (exercise e).

Definition get_weight (e : ExerciseEntry) : Z := default 0 (weight e).
Definition get_reps (e : ExerciseEntry) : Z := default 0 (reps e).

(** An element of an exercise history: a copy of the logged exercise with
    the key ['date'] set to the date of its workout. *)
Record HistoryEntry := { h_entry : ExerciseEntry; h_date : datetime }.

Definition _get_exercise_history (exercise_name : string) : T (list HistoryEntry) :=
  ws ← self_workouts;
  mret
    (fold_left
       (fun history workout =>
          fold_left
            (fun history ex =>
               if String.eqb (lower (entry_name ex)) (lower exercise_name)
               then (history ++ [ {| h_entry := ex; h_date := date workout |} ])%list
               else history)
            (default [] (exercises workout)) history)
       ws []).

(** [xs[-k]] for [k >= 1] *)
Definition from_end {A} (k : nat) (xs : list A) : option A :=
  rev xs !! (k - 1)%nat.

Definition pr_message (exercise_name : string) (prev_weight curr_weight : Z) : string :=
  "PR on " ++ exercise_name ++ "! " ++ str_of_Z prev_weight ++ " -> "
    ++ str_of_Z curr_weight.

Definition rep_pr_message (exercise_name : string) (prev_reps curr_reps : Z) : string :=
  "Rep PR on " ++ exercise_name ++ "! " ++ str_of_Z prev_reps ++ " -> "
    ++ str_of_Z curr_reps ++ " reps".

(** The body of the loop of [_generate_workout_insights] for one exercise,
    given its history: the insights it appends. *)
Definition exercise_insights (curr : ExerciseEntry) (history : list HistoryEntry)
  : list string :=
  let exercise_name := entry_name curr in
  if (2 <=? length history)%nat then
    match from_end 2 history with
    | Some prev =>
        let prev_weight := get_weight (h_entry prev) in
        let curr_weight := get_weight curr in
        (if curr_weight >? prev_weight
         then [pr_message exercise_name prev_weight curr_weight] else [])
        ++
        (if curr_weight =? prev_weight then
           let prev_reps := get_reps (h_entry prev) in
           let curr_reps := get_reps curr in
           if curr_reps >? prev_reps
           then [rep_pr_message exercise_name prev_reps curr_reps] else []
         else [])
    | None => []
    end%list
  else [].

Fixpoint insights_loop (exs : list ExerciseEntry) (insights : list string)
  : T (list string) :=
  match exs with
  | [] => mret insights
  | ex :: exs' =>
      history ← _get_exercise_history (entry_name ex);
      insights_loop exs' (insights ++ exercise_insights ex history)%list
  end.

Definition _generate_workout_insights (exs : list ExerciseEntry) : T (list string) :=
  insights ← insights_loop exs [];
  mret (match insights with
        | [] => ["Solid workout! Keep pushing."]
        | _ => insights
        end).

Record LogResult := {
  status : string;
  workout_number : Z;
  exercises_logged : Z;
  insights : list string
}.

(** [log_workout(exercises, notes)]; [now] is the value of
    [datetime.now()]. *)
Definition log_workout (now : datetime) (exs : list ExerciseEntry)
    (notes : option string) : T LogResult :=
  let workout := {| date := now; exercises := Some exs; notes := notes |} in
  append_workout workout;;
  _save_workouts;;
  ins ← _generate_workout_insights exs;
  ws ← self_workouts;
  mret {| status := "logged";
          workout_number := Z.of_nat (length ws);
          exercises_logged := Z.of_nat (length exs);
          insights := ins |}.

(** *** Reports *)

(** An element of the ['history'] of an exercise report. *)
Record ReportEntry := {
  r_date : datetime;
  r_weight : Z;
  r_reps : Z;
  r_sets : Z
}.

Record ExerciseData := {
  total_sessions : Z;
  starting_weight : Z;
  current_weight : Z;
  max_weight : Z;
  weight_gain : Z;
  trend : string;
  history : list ReportEntry
}.

Inductive ExerciseReport :=
| ReportError (error : string)
| ReportData (d : ExerciseData).

(** [max(xs)] and [min(xs)] of a non-empty list. *)
Definition py_max (x : Z) (xs : list Z) : Z :=
  fold_left (fun m y => if y >? m then y else m) xs x.
Definition py_min (x : Z) (xs : list Z) : Z :=
  fold_left (fun m y => if y <? m then y else m) xs x.

Definition _get_exercise_report (exercise_name : string) (ws : list Workout)
  : ExerciseReport :=
  let entries :=
    fold_left
      (fun entries workout =>
         fold_left
           (fun entries ex =>
              if String.eqb (lower (entry_name ex)) (lower exercise_name)
              then (entries ++ [ {| r_date := date workout;
                                    r_weight := default 0 (weight ex);
                                    r_reps := default 0 (reps ex);
                                    r_sets := default 0 (sets ex) |} ])%list
              else entries)
           (default [] (exercises workout)) entries)
      ws [] in
  match entries with
  | [] => ReportError "No data for this exercise"
  | _ =>
      (* [e['weight'] for e in entries if e['weight']] *)
      let weights :=
        List.filter (fun w => negb (w =? 0)) (map r_weight entries) in
      ReportData
        {| total_sessions := Z.of_nat (length entries);
           starting_weight := match weights with [] => 0 | w :: _ => w end;
           current_weight := List.last weights 0;
           max_weight := match weights with [] => 0 | w :: ws' => py_max w ws' end;
           weight_gain :=
             if (2 <=? length weights)%nat
             then List.last weights 0 - hd 0 weights else 0;
           trend :=
             if (2 <=? length weights)%nat && (List.last weights 0 >? hd 0 weights)
             then "improving" else "stable";
           history := entries |}
  end.

(** Stable sort, as [sorted]; [leb a b] says that [a] may stay before
    [b]. *)
Fixpoint insert_sorted {A} (leb : A -> A -> bool) (x : A) (l : list A) : list A :=
  match l with
  | [] => [x]
  | y :: l' => if leb x y then x :: l else y :: insert_sorted leb x l'
  end.
Definition sorted {A} (leb : A -> A -> bool) (l : list A) : list A :=
  fold_right (insert_sorted leb) [] l.

Definition _calculate_consistency (ws : list Workout) : Q :=
  match ws with
  | [] => 0%Q
  | [_] => 100%Q
  | _ =>
      let dates := sorted date_leb (map (fun w => date_of (date w)) ws) in
      let gaps :=
        map (fun i => date_diff_days (nth i dates (0, 0, 0))
                                     (nth (i - 1)%nat dates (0, 0, 0)))
            (seq 1 (length dates - 1)%nat) in
      let total := fold_left Z.add gaps 0 in
      let avg_gap := (inject_Z total / inject_Z (Z.of_nat (length gaps)))%Q in
      if Qle_bool avg_gap 3 then 100%Q
      else if Qle_bool avg_gap 5 then 80%Q
      else if Qle_bool avg_gap 7 then 60%Q
      else
        let v := (100 - avg_gap * 5)%Q in
        if Qle_bool v 0 then 0%Q else v
  end.

(** [exercise_counts[name] += 1] on a [defaultdict(int)] *)
Fixpoint count_up (n : string) (counts : list (string * Z)) : list (string * Z) :=
  match counts with
  | [] => [(n, 1)]
  | (k, c) :: counts' =>
      if String.eqb n k then (k, c + 1) :: counts' else (k, c) :: count_up n counts'
  end.

Record SummaryData := {
  workouts_completed : Z;
  unique_exercises : Z;
  most_frequent : list (string * Z);
  consistency_score : Q
}.

Inductive Summary :=
| SummaryMessage (message : string)
| SummaryOf (d : SummaryData).

Definition _get_overall_summary (ws : list Workout) : Summary :=
  match ws with
  | [] => SummaryMessage "No workouts in this period"
  | _ =>
      let exercise_counts :=
        fold_left
          (fun counts workout =>
             fold_left (fun counts ex => count_up (entry_name ex) counts)
                       (default [] (exercises workout)) counts)
          ws [] in
      SummaryOf
        {| workouts_completed := Z.of_nat (length ws);
           unique_exercises := Z.of_nat (length exercise_counts);
           most_frequent :=
             take 5 (sorted (fun a b => snd b <=? snd a) exercise_counts);
           consistency_score := _calculate_consistency ws |}
  end.

Record Report := {
  period : string;
  total_workouts : Z;
  start_date : datetime;
  end_date : datetime;
  report_exercise : option string;
  exercise_data : option ExerciseReport;
  summary : option Summary
}.

Definition period_days : list (string * Z) :=
  [("week", 7); ("month", 30); ("quarter", 90); ("year", 365)].

(** [get_report(exercise, period)]; [now] is the value of
    [datetime.now()]. *)
Definition get_report (now : datetime) (exercise : option string)
    (period : string) : T Report :=
  let days := default 30 (dict_get period period_days) in
  start_date ← or_raise (sub_days now days);
  ws ← self_workouts;
  let period_workouts := List.filter (fun w => ge (date w) start_date) ws in
  mret
    (match exercise with
     | Some (String _ _ as ex) =>
         {| period := period;
            total_workouts := Z.of_nat (length period_workouts);
            start_date := start_date; end_date := now;
            report_exercise := Some ex;
            exercise_data := Some (_get_exercise_report ex period_workouts);
            summary := None |}
     | _ =>
         {| period := period;
            total_workouts := Z.of_nat (length period_workouts);
            start_date := start_date; end_date := now;
            report_exercise := None;
            exercise_data := None;
            summary := Some (_get_overall_summary period_workouts) |}
     end).

(** *** Plateau detection *)

(** The dict returned by [detect_plateau]; the keys that only one branch
    sets are optional. *)
Record PlateauResult := {
  plateau_detected : bool;
  sessions_analyzed : option Z;
  weight_range : option Z;
  recent_weights : option (list Z);
  recommendations : option (list string);
  message : option string
}.

(** [xs[-k:]] *)
Definition last_n {A} (k : nat) (xs : list A) : list A :=
  drop (length xs - k)%nat xs.

Definition detect_plateau (exercise_name : string) : T PlateauResult :=
  history ← _get_exercise_history exercise_name;
  if (length history <? 4)%nat then
    mret {| plateau_detected := false;
            sessions_analyzed := None; weight_range := None;
            recent_weights := None; recommendations := None;
            message :=
              Some "Not enough data to detect plateau (need 4+ sessions)" |}
  else
    let recent := last_n 4 history in
    let weights := map (fun h => get_weight (h_entry h)) recent in
    match weights with
    | [] => or_raise None (* max() of an empty sequence *)
    | w :: ws' =>
        let weight_range := py_max w ws' - py_min w ws' in
        let is_plateau := weight_range <=? 5 in
        mret {| plateau_detected := is_plateau;
                sessions_analyzed := Some (Z.of_nat (length recent));
                weight_range := Some weight_range;
                recent_weights := Some weights;
                recommendations :=
                  if is_plateau then
                    Some [ "Consider a deload week (reduce weight by 40%)";
                           "Try changing rep range (if doing 8-12, try 4-6)";
                           "Add a variation of this exercise";
                           "Increase training frequency for this muscle";
                           "Check your nutrition and sleep";
                           "Try different tempo (slow negatives)" ]
                  else None;
                message :=
                  if is_plateau then None
                  else Some "No plateau detected. Keep progressing!" |}
    end.

(** *** Consecutive weeks *)

(** [weeks.add(w)] on a set kept as a duplicate-free list. *)
Definition pair_eqb (a b : Z * Z) : bool :=
  (fst a =? fst b) && (snd a =? snd b).
Definition set_add (w : Z * Z) (weeks : list (Z * Z)) : list (Z * Z) :=
  if existsb (pair_eqb w) weeks then weeks else (weeks ++ [w])%list.

(** Tuple order, for [sorted(weeks, reverse=True)]: [a] may stay before [b]
    when [a >= b]. *)
Definition pair_geb (a b : Z * Z) : bool :=
  match lex_compare [fst a; snd a] [fst b; snd b] with
  | Lt => false
  | _ => true
  end.

(** The counting loop, at [sorted_weeks[i-1] = prev] with the remaining
    elements [rest]; leaving the recursion is the [break]. *)
Fixpoint count_consecutive (prev : Z * Z) (rest : list (Z * Z)) (consecutive : Z) : Z :=
  match rest with
  | [] => consecutive
  | curr :: rest' =>
      let '(prev_year, prev_week) := prev in
      let '(curr_year, curr_week) := curr in
      if (prev_year =? curr_year) && (prev_week - curr_week =? 1) then
        count_consecutive curr rest' (consecutive + 1)
      else if (prev_year - curr_year =? 1) && (prev_week =? 1) && (curr_week >=? 51) then
        count_consecutive curr rest' (consecutive + 1)
      else consecutive
  end.

(** The pair that the source stores for a workout date:
    [(date.year, date.isocalendar()[1])]. *)
Definition week_key (d : datetime) : Z * Z :=
  (year d, snd (fst (isocalendar d))).

Definition get_consecutive_weeks : T Z :=
  ws ← self_workouts;
  match ws with
  | [] => mret 0
  | _ =>
      let weeks := fold_left (fun weeks workout => set_add (week_key (date workout)) weeks)
                             ws [] in
      let sorted_weeks := sorted pair_geb weeks in
      match sorted_weeks with
      | [] => mret 1
      | first :: rest => mret (count_consecutive first rest 1)
      end
  end.

(** *** Fatigue estimate

    The source computes with floats; the embedding computes the same
    expressions on rationals and rounds the exact sum to one decimal
    (half to even). *)

Definition q_min (a b : Q) : Q := if Qle_bool a b then a else b.

Definition round1 (q : Q) : Q :=
  let t := (q * 10)%Q in
  let n := Qnum t in
  let d := Zpos (Qden t) in
  let f := n / d in
  let r := n mod d in
  let up :=
    if 2 * r <? d then false
    else if 2 * r >? d then true
    else Z.odd f in
  Qmake (if up then f + 1 else f) 10.

Definition estimate_fatigue (now : datetime) : T Q :=
  ws ← self_workouts;
  match ws with
  | [] => mret 1%Q
  | _ =>
      two_weeks_ago ← or_raise (sub_days now 14);
      let recent := List.filter (fun w => ge (date w) two_weeks_ago) ws in
      match recent with
      | [] => mret 1%Q
      | _ =>
          let workout_count := Z.of_nat (length recent) in
          let total_sets :=
            fold_left
              (fun acc w =>
                 acc + fold_left (fun acc ex => acc + default 3 (sets ex))
                                 (default [] (exercises w)) 0)
              recent 0 in
          let workout_fatigue := q_min (inject_Z workout_count / 2)%Q 5%Q in
          let volume_fatigue := q_min (inject_Z total_sets / 50)%Q 5%Q in
          mret (round1 (workout_fatigue + volume_fatigue)%Q)
      end
  end.

(** *** Personal records *)

Record PersonalRecord := {
  pr_weight : Z;
  pr_reps : Z;
  pr_date : datetime
}.

(** [records[name] = r]: an existing key keeps its position. *)
Fixpoint dict_set {A} (k : string) (v : A) (d : list (string * A)) : list (string * A) :=
  match d with
  | [] => [(k, v)]
  | (k', v') :: d' =>
      if String.eqb k k' then (k', v) :: d' else (k', v') :: dict_set k v d'
  end.

Definition get_personal_records : T (list (string * PersonalRecord)) :=
  ws ← self_workouts;
  mret
    (fold_left
       (fun records workout =>
          fold_left
            (fun records ex =>
               let n := entry_name ex in
               let w := get_weight ex in
               let better :=
                 match dict_get n records with
                 | None => true
                 | Some r => w >? pr_weight r
                 end in
               if better
               then dict_set n {| pr_weight := w; pr_reps := get_reps ex;
                                  pr_date := date workout |} records
               else records)
            (default [] (exercises workout)) records)
       ws []).

End ProgressTracker.

(** ** Definitions used to state the properties *)

Module Statements.
Import PyStr.

(** *** Exercise lookup *)

Definition is_separator (c : ascii) : bool :=
  Ascii.eqb c " " || Ascii.eqb c "-".

(** Normalization as the specification words it: lowercase, and every run
    of spaces and hyphens collapsed to a single separator. *)
Fixpoint collapse_runs (in_run : bool) (s : string) : string :=
  match s with
  | EmptyString => EmptyString
  | String c t =>
      if is_separator c
      then if in_run then collapse_runs true t
           else String "_" (collapse_runs true t)
      else String c (collapse_runs false t)
  end.

Definition normalize_collapsing (name : string) : string :=
  collapse_runs false (lower name).

(** The normalized name equals no key and is in a substring relation with
    no key. *)
Definition matches_no_key (normalized : string)
    (db : list (string * ExerciseLibrary.ExerciseRecord)) : bool :=
  forallb
    (fun '(key, _) =>
       negb (String.eqb normalized key)
       && negb (contains normalized key)
       && negb (contains key normalized))
    db.

(** The display name contains dumbbell, bodyweight or band,
    case-insensitively. *)
Definition mentions_equipment (alt : string) : bool :=
  contains "dumbbell" (lower alt)
  || contains "bodyweight" (lower alt)
  || contains "band" (lower alt).

(** *** Plan generator *)

Import WorkoutGenerator.

(** The generator object and the store right after [WorkoutGenerator()]. *)
Definition initial : Generator * heap :=
  match __init__ [] with
  | Some p => p
  | None => ({| splits := []; rep_schemes := [] |}, [])
  end.
Definition the_generator : Generator := fst initial.
Definition initial_heap : heap := snd initial.

(** Well-formed stores: every reference of a template leads to an object of
    the expected kind. *)
Definition is_exercise (h : heap) (l : loc) : bool :=
  match h !! l with Some (OExercise _) => true | _ => false end.
Definition wf_exercises (h : heap) (l : loc) : bool :=
  match h !! l with Some (OList es) => forallb (is_exercise h) es | _ => false end.
Definition wf_session (h : heap) (l : loc) : bool :=
  match h !! l with Some (OSession s) => wf_exercises h (s_exercises s) | _ => false end.
Definition wf_sessions (h : heap) (l : loc) : bool :=
  match h !! l with Some (OList ss) => forallb (wf_session h) ss | _ => false end.
Definition wf_template (h : heap) (l : loc) : bool :=
  match h !! l with Some (OTemplate t) => wf_sessions h (t_sessions t) | _ => false end.
Definition wf_store (self : Generator) (h : heap) : bool :=
  forallb (fun '(_, tl) => wf_template h tl) (splits self).

(** The scheme used for a goal: its entry in the table, the entry of
    [muscle_building] for a goal that has none. *)
Definition scheme_for (goal : string) : RepScheme :=
  default {| sets := 3; reps := "8-12"; rest := "60-90 sec" |}
          (dict_get goal (rep_schemes the_generator)).

(** What a slot carries once a scheme has been applied. *)
Definition follows_scheme (sc : RepScheme) (e : Exercise) : Prop :=
  ex_sets e = Some (sets sc)
  /\ ex_reps e = Some (if String.eqb (ex_type e) "compound" then reps sc else "10-15")
  /\ ex_rest e = Some (if String.eqb (ex_type e) "compound" then rest sc else "60 sec").

(** How the store may change during [generate_plan]: lists and templates
    stay as they are, exercise slots stay exercise slots, and well-formed
    sessions stay well-formed. *)
Definition evolves (h h' : heap) : Prop :=
  (forall l xs, h !! l = Some (OList xs) -> h' !! l = Some (OList xs))
  /\ (forall l t, h !! l = Some (OTemplate t) -> h' !! l = Some (OTemplate t))
  /\ (forall l, is_exercise h l = true -> is_exercise h' l = true)
  /\ (forall l, wf_session h l = true -> wf_session h' l = true).

(** The slot after the assignments of [_apply_rep_scheme]. *)
Definition rescheme_slot (sc : RepScheme) (e : Exercise) : Exercise :=
  if String.eqb (ex_type e) "compound"
  then set_scheme (sets sc) (reps sc) (rest sc) e
  else set_scheme (sets sc) "10-15" "60 sec" e.

(** The store after some slots were given the scheme [sc]. *)
Definition rescheme (sc : RepScheme) (h h' : heap) : Prop :=
  forall l, h' !! l = h !! l
            \/ exists e, h !! l = Some (OExercise e)
                         /\ h' !! l = Some (OExercise (rescheme_slot sc e)).

Definition scheme_at (sc : RepScheme) (l : loc) (h : heap) : Prop :=
  exists e, h !! l = Some (OExercise e) /\ follows_scheme sc e.

Definition session_done (sc : RepScheme) (l : loc) (h : heap) : Prop :=
  exists s es, h !! l = Some (OSession s)
               /\ h !! s_exercises s = Some (OList es)
               /\ Forall (fun e => scheme_at sc e h) es.

(** The number of slots of each session of a template value. *)
Definition session_sizes (t : template_value) : list nat :=
  map (fun s : session_value => length (snd s)) (snd t).

(** *** Progress tracker *)

Import Datetime ProgressTracker.

(** The data points of an exercise in a log: the logged exercises whose name
    matches case-insensitively, oldest first, each with the date of its
    workout. *)
Definition same_exercise (exercise_name : string) (ex : ExerciseEntry) : bool :=
  String.eqb (lower (entry_name ex)) (lower exercise_name).

Definition data_points (log : list Workout) (exercise_name : string)
  : list HistoryEntry :=
  flat_map
    (fun w =>
       map (fun ex => {| h_entry := ex; h_date := date w |})
           (List.filter (same_exercise exercise_name) (default [] (exercises w))))
    log.

(** The data point before the most recent one. *)
Definition previous_point (points : list HistoryEntry) : option HistoryEntry :=
  match rev points with
  | _ :: p :: _ => Some p
  | _ => None
  end.

Definition is_max (m : Z) (xs : list Z) : Prop :=
  In m xs /\ forall x, In x xs -> x <= m.
Definition is_min (m : Z) (xs : list Z) : Prop :=
  In m xs /\ forall x, In x xs -> m <= x.

(** The entries of an exercise report: one per matching logged exercise, with
    absent numbers read as 0. *)
Definition report_entries (log : list Workout) (exercise_name : string)
  : list ReportEntry :=
  flat_map
    (fun w =>
       map (fun ex => {| r_date := date w;
                         r_weight := default 0 (weight ex);
                         r_reps := default 0 (reps ex);
                         r_sets := default 0 (sets ex) |})
           (List.filter (same_exercise exercise_name) (default [] (exercises w))))
    log.

(** The weight series of a report: the weights of the entries, without the
    entries of weight 0. *)
Definition weight_series (entries : list ReportEntry) : list Z :=
  map r_weight (List.filter (fun e => negb (r_weight e =? 0)) entries).

(** The recommendations of a flagged plateau, in order. *)
Definition plateau_recommendations : list string :=
  [ "Consider a deload week (reduce weight by 40%)";
    "Try changing rep range (if doing 8-12, try 4-6)";
    "Add a variation of this exercise";
    "Increase training frequency for this muscle";
    "Check your nutrition and sleep";
    "Try different tempo (slow negatives)" ].

(** The week of a date as the specification words it: the pair of ISO year
    and ISO week number. *)
Definition iso_week (d : datetime) : Z * Z := fst (isocalendar d).

(** [consecutive_weeks] as the specification words it: the ISO pairs of the
    workout dates, without duplicates, in descending order, counted from the
    most recent one while each next pair is one week earlier. *)
Definition consecutive_weeks_iso (log : list Workout) : Z :=
  match sorted pair_geb
          (fold_left (fun weeks w => set_add (iso_week (date w)) weeks) log [])
  with
  | [] => 0
  | first :: rest => count_consecutive first rest 1
  end.

(** Sample data for the examples: a timestamp at six in the evening, a
    logged exercise with three sets, a workout without note. *)
Definition evening (y m d : Z) : datetime :=
  {| year := y; month := m; day := d; hour := 18; minute := 0; second := 0;
     microsecond := 0 |}.
Definition lift (n : string) (w r : Z) : ExerciseEntry :=
  {| exercise := Some n; name := None; sets := Some 3; reps := Some r;
     weight := Some w |}.
Definition session_on (d : datetime) (exs : list ExerciseEntry) : Workout :=
  {| date := d; exercises := Some exs; notes := None |}.

(** A tracker method that leaves the tracker as it found it. *)
Definition read_only {A} (m : T A) : Prop := forall s, snd (m s) = s.

End Statements.

(** ** main.py

    The orchestrator [PersonalTrainerAgent]: the user profile, its file and
    the file of the current plan, the plan generator with its store, and the
    progress tracker. Methods return [None] when an exception is raised. *)

Module PersonalTrainerAgent.
Import PyStr Datetime WorkoutGenerator.

(** The profile dict written by [assess_user]. The keys ['limitations'] and
    ['recommended_split'] are read with [.get] and so may be absent in a
    profile loaded from the file. *)
Record UserProfile := {
  goal : string;
  experience_level : string;
  equipment : string;
  days_per_week : Z;
  session_duration : Z;
  limitations : option (list string);
  created_at : datetime;
  updated_at : datetime;
  recommended_split : option string
}.

(** A week and a plan as [json.dump] writes them: the sessions by value. *)
Record WeekJson := {
  j_week_number : Z;
  j_sessions : list WorkoutGenerator.session_value;
  j_notes : string
}.

Record PlanJson := {
  j_split_type : string;
  j_goal : string;
  j_experience_level : string;
  j_weeks : list WeekJson
}.

(** [user_profile = None] is the empty dict; the two files are [None] while
    they do not exist. *)
Record Agent := {
  user_profile : option UserProfile;
  profile_file : option UserProfile;
  plan_file : option PlanJson;
  workout_generator : WorkoutGenerator.Generator;
  store : list WorkoutGenerator.obj;
  progress_tracker : ProgressTracker.Tracker
}.

Definition _load_user_profile (file : option UserProfile) : option UserProfile := file.

Definition __init__ (profile_json : option UserProfile) (plan_json : option PlanJson)
    (workouts_json : option (list ProgressTracker.Workout)) : option Agent :=
  match WorkoutGenerator.__init__ [] with
  | Some (g, h) =>
      Some {| user_profile := _load_user_profile profile_json;
              profile_file := profile_json;
              plan_file := plan_json;
              workout_generator := g;
              store := h;
              progress_tracker := ProgressTracker.__init__ workouts_json |}
  | None => None
  end.

Definition _save_user_profile (self : Agent) : Agent :=
  {| user_profile := user_profile self;
     profile_file := user_profile self;
     plan_file := plan_file self;
     workout_generator := workout_generator self;
     store := store self;
     progress_tracker := progress_tracker self |}.

Definition split_recommendations : list (Z * string) :=
  [ (2, "full_body"); (3, "full_body"); (4, "upper_lower");
    (5, "upper_lower_ppl"); (6, "ppl") ].

(** [d.get(k, default)] on a dict with integer keys. *)
Fixpoint int_dict_get (k : Z) (d : list (Z * string)) (default : string) : string :=
  match d with
  | [] => default
  | (k', v) :: d' => if k =? k' then v else int_dict_get k d' default
  end.

Record Assessment := {
  a_profile : UserProfile;
  a_recommended_split : string;
  a_message : string
}.

(** [assess_user]; [now1] and [now2] are the two values of
    [datetime.now()]. *)
Definition assess_user (now1 now2 : datetime)
    (goal experience_level equipment : string)
    (days_per_week session_duration : Z) (limitations : option (list string))
    (self : Agent) : option (Assessment * Agent) :=
  let recommended_split := int_dict_get days_per_week split_recommendations "full_body" in
  let profile :=
    {| goal := goal;
       experience_level := experience_level;
       equipment := equipment;
       days_per_week := days_per_week;
       session_duration := session_duration;
       limitations := Some (match limitations with
                            | Some ((_ :: _) as l) => l
                            | _ => []
                            end);
       created_at := now1;
       updated_at := now2;
       recommended_split := Some recommended_split |} in
  let self :=
    _save_user_profile
      {| user_profile := Some profile;
         profile_file := profile_file self;
         plan_file := plan_file self;
         workout_generator := workout_generator self;
         store := store self;
         progress_tracker := progress_tracker self |} in
  Some ({| a_profile := profile;
           a_recommended_split := recommended_split;
           a_message :=
             "Assessment complete. Recommended: " ++ recommended_split
               ++ " split, " ++ str_of_Z days_per_week ++ "x/week for "
               ++ replace "_" " " goal ++ "." |},
        self).

(** The value of a plan that [json.dump] writes: every week with the
    sessions read from the store. *)
Definition plan_to_json (plan : WorkoutGenerator.Plan)
  : WorkoutGenerator.M PlanJson :=
  ws ← WorkoutGenerator.map_M
         (fun week =>
            ss ← WorkoutGenerator.value_of_sessions (WorkoutGenerator.sessions week);
            mret {| j_week_number := WorkoutGenerator.week_number week;
                    j_sessions := ss;
                    j_notes := WorkoutGenerator.notes week |})
         (WorkoutGenerator.weeks plan);
  mret {| j_split_type := WorkoutGenerator.split_type plan;
          j_goal := WorkoutGenerator.goal plan;
          j_experience_level := WorkoutGenerator.experience_level plan;
          j_weeks := ws |}.

(** The result of [generate_workout_plan]: the error dict or the plan. *)
Inductive PlanResult :=
| PlanError (error : string)
| PlanOk (plan : WorkoutGenerator.Plan).

Definition generate_workout_plan (weeks : Z) (split_type : option string)
    (self : Agent) : option (PlanResult * Agent) :=
  match user_profile self with
  | None => Some (PlanError "Please complete assessment first", self)
  | Some profile =>
      let split :=
        match split_type with
        | Some (String _ _ as s) => s
        | _ => default "full_body" (recommended_split profile)
        end in
      match WorkoutGenerator.generate_plan (workout_generator self) split
              (experience_level profile) (goal profile) (equipment profile)
              weeks (Some (default [] (limitations profile))) (store self) with
      | None => None
      | Some (plan, h) =>
          match plan_to_json plan h with
          | None => None
          | Some (json, h') =>
              Some (PlanOk plan,
                    {| user_profile := user_profile self;
                       profile_file := profile_file self;
                       plan_file := Some json;
                       workout_generator := workout_generator self;
                       store := h';
                       progress_tracker := progress_tracker self |})
          end
      end
  end.

End PersonalTrainerAgent.

(** ** Further definitions used to state properties *)

Module MoreStatements.
Import PyStr Datetime.

(** *** Exercise lookup *)

(** The fuzzy test of [get_exercise]: one of the two strings contains the
    other. *)
Definition related (normalized key : string) : bool :=
  contains normalized key || contains key normalized.

(** *** Plan generator *)

Import WorkoutGenerator Statements.

(** The names that the equipment and limitation tables can give to a
    slot. *)
Definition replacement_names : list string :=
  flat_map (fun t : string * list (string * string) => map snd (snd t))
           (substitutions ++ limitation_subs).

(** The slot [e'] is the slot [e] after adjustments: same type and muscle,
    and the same name or a replacement name. *)
Definition same_kind (e e' : Exercise) : Prop :=
  ex_type e' = ex_type e
  /\ ex_muscle e' = ex_muscle e
  /\ (ex_name e' = ex_name e \/ In (ex_name e') replacement_names).

(** What a call of [generate_plan] can do to the objects of the store: lists
    and templates stay as they are, a slot keeps its kind, and a session
    keeps its name and refers to a list that is a prefix of the list it
    referred to, of five slots at least. *)
Definition plan_step (h h' : heap) : Prop :=
  (forall l xs, h !! l = Some (OList xs) -> h' !! l = Some (OList xs))
  /\ (forall l t, h !! l = Some (OTemplate t) -> h' !! l = Some (OTemplate t))
  /\ (forall l e, h !! l = Some (OExercise e) ->
        exists e', h' !! l = Some (OExercise e') /\ same_kind e e')
  /\ (forall l s es,
        h !! l = Some (OSession s) -> h !! s_exercises s = Some (OList es) ->
        exists s' k, h' !! l = Some (OSession s') /\ s_name s' = s_name s
                     /\ (5 <= k)%nat
                     /\ h' !! s_exercises s' = Some (OList (take k es))).

(** The steps that only write slots: every other object stays as it is. *)
Definition slots_only (h h' : heap) : Prop :=
  (forall l o, h !! l = Some o -> (forall e, o <> OExercise e) -> h' !! l = Some o)
  /\ (forall l e, h !! l = Some (OExercise e) ->
        exists e', h' !! l = Some (OExercise e') /\ same_kind e e').

(** A name that a substitution table has dealt with: the table has no entry
    for it, or it is a replacement of the table. *)
Definition name_done (subs : list (string * string)) (n : string) : Prop :=
  dict_get n subs = None \/ In n (map snd subs).

(** The store after some slots were renamed by the table [subs]. *)
Definition renamed (subs : list (string * string)) (h h' : heap) : Prop :=
  (forall l o, h !! l = Some o -> (forall e, o <> OExercise e) -> h' !! l = Some o)
  /\ (forall l e, h !! l = Some (OExercise e) ->
        exists e', h' !! l = Some (OExercise e')
                   /\ ex_type e' = ex_type e /\ ex_muscle e' = ex_muscle e
                   /\ ex_sets e' = ex_sets e /\ ex_reps e' = ex_reps e
                   /\ ex_rest e' = ex_rest e
                   /\ (ex_name e' = ex_name e \/ In (ex_name e') (map snd subs))).

(** No replacement of the table is itself a name the table replaces. *)
Definition values_not_keys (subs : list (string * string)) : bool :=
  forallb (fun p => match dict_get (snd p) subs with None => true | Some _ => false end)
          subs.

(** The session object at [l] has the value [sv]: its name, and the slots
    its exercise list refers to. *)
Definition session_reads (h : heap) (l : loc) (sv : session_value) : Prop :=
  exists s es,
    h !! l = Some (OSession s)
    /\ h !! s_exercises s = Some (OList es)
    /\ fst sv = s_name s
    /\ Forall2 (fun e x => h !! e = Some (OExercise x)) es (snd sv).

(** The session at [l] has at most five slots. *)
Definition session_short (l : loc) (h : heap) : Prop :=
  exists s es,
    h !! l = Some (OSession s)
    /\ h !! s_exercises s = Some (OList es)
    /\ (length es <= 5)%nat.

(** Every slot of the session at [l] has a name the table has dealt
    with. *)
Definition session_renamed (subs : list (string * string)) (l : loc) (h : heap)
  : Prop :=
  exists s es,
    h !! l = Some (OSession s)
    /\ h !! s_exercises s = Some (OList es)
    /\ Forall (fun e => exists x, h !! e = Some (OExercise x)
                                  /\ name_done subs (ex_name x)) es.

(** A session value relates to its value [sv] before a call: same name, and
    its slots are the first ones of before (five at least, or all of them),
    each of the same kind. *)
Definition session_kept (sv sv' : session_value) : Prop :=
  fst sv' = fst sv
  /\ exists k, (5 <= k)%nat /\ Forall2 same_kind (take k (snd sv)) (snd sv').

Definition template_kept (v v' : template_value) : Prop :=
  fst v' = fst v /\ Forall2 session_kept (snd v) (snd v').

(** The session list at [sl] has the values [vs]. *)
Definition sessions_read (h : heap) (sl : loc) (vs : list session_value) : Prop :=
  exists ss, h !! sl = Some (OList ss) /\ Forall2 (session_reads h) ss vs.

(** Every slot of the session at [l] satisfies [φ]. *)
Definition session_all (φ : Exercise -> Prop) (l : loc) (h : heap) : Prop :=
  exists s es,
    h !! l = Some (OSession s)
    /\ h !! s_exercises s = Some (OList es)
    /\ Forall (fun e => exists x, h !! e = Some (OExercise x) /\ φ x) es.

(** The slot bears a name that the table does not replace. *)
Definition not_replaced (subs : list (string * string)) (x : Exercise) : Prop :=
  dict_get (ex_name x) subs = None.

(** The substitution table of an equipment and of a limitation; the empty
    table for one that has none. *)
Definition equipment_table (equipment : string) : list (string * string) :=
  default [] (dict_get equipment substitutions).

Definition limitation_table (limitation : string) : list (string * string) :=
  default [] (dict_get limitation limitation_subs).

(** No replacement of the table [subs'] is a name that [subs] replaces. *)
Definition compatible (subs' subs : list (string * string)) : bool :=
  forallb (fun p => match dict_get (snd p) subs with None => true | Some _ => false end)
          subs'.

(** The steps that only write slots and bring back no name that a table of
    the family [F] replaces. *)
Definition keeps (F : list (list (string * string))) (h h' : heap) : Prop :=
  (forall l o, h !! l = Some o -> (forall e, o <> OExercise e) -> h' !! l = Some o)
  /\ (forall l e, h !! l = Some (OExercise e) ->
        exists e', h' !! l = Some (OExercise e')
                   /\ forall subs, In subs F ->
                        not_replaced subs e -> not_replaced subs e').

(** The split and the goal that [generate_plan] works with: the ones asked
    for when the tables have them, [full_body] and [muscle_building]
    otherwise. *)
Definition effective_split (split_type : string) : string :=
  match dict_get split_type (splits the_generator) with
  | Some _ => split_type
  | None => "full_body"
  end.

Definition effective_goal (goal : string) : string :=
  match dict_get goal (rep_schemes the_generator) with
  | Some _ => goal
  | None => "muscle_building"
  end.

(** The plan [r] under the labels [split_type] and [goal]. *)
Definition relabel (split_type goal : string) (r : Plan * heap) : Plan * heap :=
  ({| WorkoutGenerator.split_type := split_type;
      WorkoutGenerator.goal := goal;
      WorkoutGenerator.experience_level := WorkoutGenerator.experience_level (fst r);
      WorkoutGenerator.weeks := WorkoutGenerator.weeks (fst r) |}, snd r).

(** The slots of a session value after a scheme was applied. *)
Definition reschemed (sc : RepScheme) (sv : session_value) : session_value :=
  (fst sv, map (rescheme_slot sc) (snd sv)).

(** *** Progress tracker *)

Import ProgressTracker.

(** The logged exercises of a log, oldest first, each with the date of its
    workout. *)
Definition logged (log : list Workout) : list (ExerciseEntry * datetime) :=
  flat_map (fun w => map (fun ex => (ex, date w)) (default [] (exercises w))) log.

(** The number of logged exercises that bear exactly the name [n]. *)
Definition times_logged (n : string) (log : list Workout) : Z :=
  Z.of_nat (length (List.filter (fun p => String.eqb (entry_name (fst p)) n)
                                (logged log))).

(** The counting loop of [_get_overall_summary] over the logged exercises. *)
Definition count_names (l : list (ExerciseEntry * datetime)) : list (string * Z) :=
  fold_left (fun counts p => count_up (entry_name (fst p)) counts) l [].

(** One iteration of the inner loop of [get_personal_records], on a logged
    exercise and the date of its workout. *)
Definition record_step (records : list (string * PersonalRecord))
    (p : ExerciseEntry * datetime) : list (string * PersonalRecord) :=
  let n := entry_name (fst p) in
  let w := get_weight (fst p) in
  let better :=
    match dict_get n records with
    | None => true
    | Some r => w >? pr_weight r
    end in
  if better
  then dict_set n {| pr_weight := w; pr_reps := get_reps (fst p);
                     pr_date := snd p |} records
  else records.

(** [o] is the personal record of the name [n] among the logged exercises
    [l]: nothing when the name was never logged, otherwise the figures of the
    first logged exercise of that name whose weight no other one of that name
    exceeds. *)
Definition is_record (n : string) (l : list (ExerciseEntry * datetime))
    (o : option PersonalRecord) : Prop :=
  match o with
  | None => forall p, In p l -> entry_name (fst p) <> n
  | Some r =>
      exists before ex d after,
        l = (before ++ (ex, d) :: after)%list
        /\ entry_name ex = n
        /\ r = {| pr_weight := get_weight ex; pr_reps := get_reps ex; pr_date := d |}
        /\ (forall p, In p before -> entry_name (fst p) = n ->
                      get_weight (fst p) < get_weight ex)
        /\ (forall p, In p after -> entry_name (fst p) = n ->
                      get_weight (fst p) <= get_weight ex)
  end.

(** *** Orchestrator *)

(** The agent right after [PersonalTrainerAgent()] on an empty data
    directory. *)
Definition fresh_agent : PersonalTrainerAgent.Agent :=
  match PersonalTrainerAgent.__init__ None None None with
  | Some a => a
  | None =>
      {| PersonalTrainerAgent.user_profile := None;
         PersonalTrainerAgent.profile_file := None;
         PersonalTrainerAgent.plan_file := None;
         PersonalTrainerAgent.workout_generator :=
           {| WorkoutGenerator.splits := []; WorkoutGenerator.rep_schemes := [] |};
         PersonalTrainerAgent.store := [];
         PersonalTrainerAgent.progress_tracker := ProgressTracker.__init__ None |}
  end.

(** The fresh agent after an assessment for four days a week. *)
Definition assessed_agent : PersonalTrainerAgent.Agent :=
  match PersonalTrainerAgent.assess_user
          (Statements.evening 2024 3 1) (Statements.evening 2024 3 1)
          "muscle_building" "intermediate" "full_gym" 4 60 None fresh_agent with
  | Some (_, a) => a
  | None => fresh_agent
  end.

(** The split that [generate_workout_plan] asks the generator for: the
    override when it is a non-empty string, else the recommended split of the
    profile, else [full_body]. *)
Definition requested_split (split_type : option string)
    (profile : PersonalTrainerAgent.UserProfile) : string :=
  match split_type with
  | Some (String _ _ as s) => s
  | _ => default "full_body" (PersonalTrainerAgent.recommended_split profile)
  end.

End MoreStatements.

(** * Properties *)

(** ** Exercise reference *)

Module LibraryProps.
Import PyStr ExerciseLibrary Statements.

Lemma dict_get_In {A} (k : string) (d : list (string * A)) (v : A) :
  dict_get k d = Some v -> In (k, v) d.
Proof.
  induction d as [|[k' v'] d IH]; simpl; [discriminate|].
  destruct (String.eqb_spec k k') as [->|Hne].
  - intros [= ->]. now left.
  - intros H. right. auto.
Qed.

Lemma matches_no_key_spec normalized db :
  matches_no_key normalized db = true ->
  dict_get normalized db = None /\ fuzzy_match normalized db = None.
Proof.
  induction db as [|[key r] db IH]; simpl; [easy|].
  rewrite !andb_true_iff, !negb_true_iff.
  intros [[[Hk Hc1] Hc2] Hrest].
  rewrite Hk, Hc1, Hc2. simpl. auto.
Qed.

Lemma keys_are_normalized :
  forallb (fun '(key, _) => String.eqb (normalize key) key) exercises = true.
Proof. vm_compute. reflexivity. Qed.

Lemma key_normalized key r :
  dict_get key exercises = Some r -> normalize key = key.
Proof.
  intros H%dict_get_In.
  pose proof keys_are_normalized as Hall.
  rewrite forallb_forall in Hall.
  specialize (Hall _ H). simpl in Hall.
  now apply String.eqb_eq.
Qed.

Lemma length_lower s : String.length (lower s) = String.length s.
Proof. induction s as [|c s IH]; simpl; [reflexivity|]. now rewrite IH. Qed.

Lemma length_replace a b s : String.length (replace a b s) = String.length s.
Proof. induction s as [|c s IH]; simpl; [reflexivity|]. now rewrite IH. Qed.

(** C2 (counterexample). Extra separators are not collapsed: the name
    [bench  press], written with two spaces, collapses to the key
    [bench_press] in the specification's sense, but the lookup does not find
    the record of that key. *)
Lemma get_exercise_double_space :
  normalize_collapsing "bench  press" = "bench_press"
  /\ (exists r, get_exercise "bench_press" = Found r)
  /\ get_exercise "bench  press"
     = ErrorDict (not_found_message "bench  press").
Proof.
  split; [reflexivity|]. split; [eexists|]; vm_compute; reflexivity.
Qed.

(** C2 (as amended). Every space and every hyphen of the lowercased name
    becomes one underscore, so the normalized name is as long as the name.
    A name whose normalized form is a key of the
    table gets the record of that key, the same record as the key itself; a
    name whose normalized form matches no key, exactly or as a substring in
    either direction, gets the error dict carrying the name. The lookup always
    returns. *)
Theorem get_exercise_normalized (name : string) :
  String.length (normalize name) = String.length name
  /\ (forall key r,
        dict_get key exercises = Some r ->
        normalize name = key ->
        get_exercise name = Found r /\ get_exercise key = Found r)
  /\ (matches_no_key (normalize name) exercises = true ->
      get_exercise name = ErrorDict (not_found_message name)).
Proof.
  split; [unfold normalize; now rewrite !length_replace, length_lower|]. split.
  - intros key r Hget Hnorm.
    unfold get_exercise, get_exercise_in.
    rewrite Hnorm, (key_normalized _ _ Hget), Hget. auto.
  - intros [Hd Hf]%matches_no_key_spec.
    unfold get_exercise, get_exercise_in. now rewrite Hd, Hf.
Qed.

Lemma get_exercise_normalized_witness :
  get_exercise "Bench-Press" = get_exercise "bench_press"
  /\ get_exercise "zumba" = ErrorDict (not_found_message "zumba").
Proof.
  destruct (get_exercise_normalized "Bench-Press") as (_ & Hfound & _).
  destruct (get_exercise_normalized "zumba") as (_ & _ & Hmissing).
  split.
  - destruct (get_exercise "bench_press") as [r|] eqn:E; [|vm_compute in E; discriminate].
    assert (Hget : dict_get "bench_press" exercises = Some r).
    { vm_compute in E. injection E as <-. vm_compute. reflexivity. }
    destruct (Hfound "bench_press" r Hget eq_refl) as [-> _]. reflexivity.
  - apply Hmissing. vm_compute. reflexivity.
Defined.

Lemma filter_sublist {A} (f : A -> bool) (l : list A) :
  sublist (List.filter f l) l.
Proof.
  induction l as [|a l IH]; simpl; [constructor|].
  destruct (f a); now constructor.
Qed.

Lemma filter_all_false {A} (f : A -> bool) (l : list A) :
  Forall (fun a => f a = false) l -> List.filter f l = [].
Proof.
  induction 1 as [|a l Ha _ IH]; simpl; [reflexivity|]. now rewrite Ha.
Qed.

Lemma equipment_friendly_spec alt :
  equipment_friendly alt = mentions_equipment alt.
Proof.
  unfold equipment_friendly, mentions_equipment. simpl.
  now rewrite orb_false_r, orb_assoc.
Qed.

(** C6. The alternatives for the reason [equipment] are a sublist, in order,
    of the alternatives for the reason [general]; each of them contains
    dumbbell, bodyweight or band once lowercased; and when no alternative
    does, the result is empty. *)
Theorem equipment_alternatives (x : string) :
  sublist (get_alternatives x "equipment") (get_alternatives x "general")
  /\ Forall (fun alt => mentions_equipment alt = true)
            (get_alternatives x "equipment")
  /\ (forallb (fun alt => negb (mentions_equipment alt))
              (get_alternatives x "general") = true ->
      get_alternatives x "equipment" = []).
Proof.
  unfold get_alternatives.
  destruct (get_exercise x) as [r|msg]; simpl.
  2:{ repeat split; constructor. }
  split; [apply filter_sublist|]. split.
  - apply Forall_forall. intros alt [_ Hf]%list_elem_of_In%filter_In.
    now rewrite <- equipment_friendly_spec.
  - intros Hnone. apply filter_all_false.
    apply Forall_forall. intros alt Hin%list_elem_of_In.
    rewrite forallb_forall in Hnone. specialize (Hnone alt Hin).
    rewrite equipment_friendly_spec. now apply negb_true_iff.
Qed.

Lemma equipment_alternatives_witness :
  get_alternatives "squat" "general"
  = ["Goblet Squat"; "Front Squat"; "Leg Press"; "Bulgarian Split Squat"; "Box Squat"]
  /\ get_alternatives "squat" "equipment" = [].
Proof.
  split; [vm_compute; reflexivity|].
  apply (equipment_alternatives "squat").
  vm_compute. reflexivity.
Defined.

End LibraryProps.

(** ** Plan generator *)

Module GeneratorProps.
Import PyStr WorkoutGenerator Statements.

(** C8. The note of a week is chosen by the first condition that holds:
    week 1, then the final week, then a week number divisible by 4, and the
    progressive-overload note otherwise. *)
Theorem week_notes_precedence (week_num total_weeks : Z) :
  (week_num = 1 ->
   _get_week_notes week_num total_weeks
   = "Focus on form. Use moderate weights to learn movements.")
  /\ (week_num <> 1 -> week_num = total_weeks ->
      _get_week_notes week_num total_weeks
      = "Final week! Push hard but consider a deload after this.")
  /\ (week_num <> 1 -> week_num <> total_weeks -> (4 | week_num) ->
      _get_week_notes week_num total_weeks
      = "Deload week if needed. Reduce volume by 40%.")
  /\ (week_num <> 1 -> week_num <> total_weeks -> ~ (4 | week_num) ->
      _get_week_notes week_num total_weeks
      = "Progressive overload. Try to beat last week's numbers.").
Proof.
  unfold _get_week_notes.
  split; [|split; [|split]].
  - intros ->. reflexivity.
  - intros H1 H2.
    destruct (Z.eqb_spec week_num 1); [contradiction|].
    destruct (Z.eqb_spec week_num total_weeks); [reflexivity|contradiction].
  - intros H1 H2 H4.
    destruct (Z.eqb_spec week_num 1); [contradiction|].
    destruct (Z.eqb_spec week_num total_weeks); [contradiction|].
    apply Z.mod_divide in H4; [|lia]. rewrite H4. reflexivity.
  - intros H1 H2 H4.
    destruct (Z.eqb_spec week_num 1); [contradiction|].
    destruct (Z.eqb_spec week_num total_weeks); [contradiction|].
    destruct (Z.eqb_spec (week_num mod 4) 0) as [E|E]; [|reflexivity].
    exfalso. apply H4. apply Z.mod_divide; [lia|exact E].
Qed.

Lemma week_notes_precedence_witness :
  _get_week_notes 1 1 = "Focus on form. Use moderate weights to learn movements."
  /\ _get_week_notes 4 4 = "Final week! Push hard but consider a deload after this."
  /\ _get_week_notes 4 8 = "Deload week if needed. Reduce volume by 40%."
  /\ _get_week_notes 3 8 = "Progressive overload. Try to beat last week's numbers.".
Proof.
  pose proof (week_notes_precedence 1 1) as (H1 & _).
  pose proof (week_notes_precedence 4 4) as (_ & H2 & _).
  pose proof (week_notes_precedence 4 8) as (_ & _ & H3 & _).
  pose proof (week_notes_precedence 3 8) as (_ & _ & _ & H4).
  split; [|split; [|split]].
  - apply H1. reflexivity.
  - apply H2; [discriminate|reflexivity].
  - apply H3; [discriminate|discriminate|]. exists 1. reflexivity.
  - apply H4; [discriminate|discriminate|].
    intros [k Hk]. lia.
Defined.

(** C1 (the source at a failing input). A beginner bodyweight plan for the
    split [upper_lower], followed by an advanced full-gym plan for the same
    split on the same generator. The first call rewrites the stored
    template: its sessions are cut to five slots and its slots renamed. The
    two plans refer to one and the same session list, and the second plan,
    asked for an advanced trainee in a full gym, comes out with the five-slot
    sessions and the bodyweight names of the first. *)
Theorem generate_plan_rewrites_stored_template :
  exists plan1 h1 plan2 h2,
    generate_plan the_generator "upper_lower" "beginner" "muscle_building"
                  "bodyweight" 1 None initial_heap = Some (plan1, h1)
    /\ generate_plan the_generator "upper_lower" "advanced" "muscle_building"
                     "full_gym" 1 None h1 = Some (plan2, h2)
    /\ stored_template the_generator "upper_lower" h1
       <> stored_template the_generator "upper_lower" initial_heap
    /\ session_sizes <$> stored_template the_generator "upper_lower" initial_heap
       = Some [7; 5; 7; 5]%nat
    /\ session_sizes <$> stored_template the_generator "upper_lower" h1
       = Some [5; 5; 5; 5]%nat
    /\ map sessions (weeks plan1) = map sessions (weeks plan2)
    /\ (exists sl, map sessions (weeks plan2) = [sl]
         /\ (map (fun s : session_value => map ex_name (snd s))
               <$> eval (value_of_sessions sl) h2)
            = Some [ ["Push-ups"; "Inverted Row"; "Pike Push-ups"; "Pull-ups";
                      "Face Pulls"];
                     ["Bodyweight Squat"; "Romanian Deadlift";
                      "Bulgarian Split Squat"; "Nordic Curl"; "Calf Raises"];
                     ["Incline Dumbbell Press"; "Inverted Row";
                      "Dumbbell Shoulder Press"; "Pull-ups"; "Lateral Raises"];
                     ["Single Leg RDL"; "Front Squat"; "Walking Lunges";
                      "Sissy Squat"; "Seated Calf Raise"] ]).
Proof.
  destruct (generate_plan the_generator "upper_lower" "beginner" "muscle_building"
              "bodyweight" 1 None initial_heap) as [[plan1 h1]|] eqn:E1;
    [|vm_compute in E1; discriminate].
  destruct (generate_plan the_generator "upper_lower" "advanced" "muscle_building"
              "full_gym" 1 None h1) as [[plan2 h2]|] eqn:E2.
  2:{ vm_compute in E1. injection E1 as <- <-. vm_compute in E2. discriminate. }
  exists plan1, h1, plan2, h2.
  vm_compute in E1. injection E1 as <- <-.
  vm_compute in E2. injection E2 as <- <-.
  split; [reflexivity|]. split; [reflexivity|].
  split; [vm_compute; intros [=]|].
  split; [vm_compute; reflexivity|].
  split; [vm_compute; reflexivity|].
  split; [vm_compute; reflexivity|].
  eexists. split; vm_compute; reflexivity.
Qed.

(** *** Reasoning about the store *)

Lemma forallb_Forall {A} (f : A -> bool) (l : list A) :
  forallb f l = true <-> Forall (fun x => f x = true) l.
Proof.
  induction l as [|a l IH]; simpl.
  - split; [constructor|reflexivity].
  - rewrite andb_true_iff, IH. split.
    + intros [Ha Hl]. now constructor.
    + intros H. inversion H; subst. auto.
Qed.

Lemma is_exercise_spec h l :
  is_exercise h l = true <-> exists e, h !! l = Some (OExercise e).
Proof.
  unfold is_exercise. destruct (h !! l) as [[e|s|t|xs]|]; split;
    try discriminate; try solve [intros [? [=]]]; eauto.
Qed.

Lemma wf_exercises_spec h l :
  wf_exercises h l = true <->
  exists es, h !! l = Some (OList es) /\ Forall (fun e => is_exercise h e = true) es.
Proof.
  unfold wf_exercises. destruct (h !! l) as [[e|s|t|xs]|]; split;
    try discriminate; try solve [intros (? & [=] & _)].
  - intros H%forallb_Forall. eauto.
  - intros (es & [= <-] & H). now apply forallb_Forall.
Qed.

Lemma wf_session_spec h l :
  wf_session h l = true <->
  exists s, h !! l = Some (OSession s) /\ wf_exercises h (s_exercises s) = true.
Proof.
  unfold wf_session. destruct (h !! l) as [[e|s|t|xs]|]; split;
    try discriminate; try solve [intros (? & [=] & _)].
  - eauto.
  - intros (s' & [= <-] & H). exact H.
Qed.

Lemma wf_sessions_spec h l :
  wf_sessions h l = true <->
  exists ss, h !! l = Some (OList ss) /\ Forall (fun s => wf_session h s = true) ss.
Proof.
  unfold wf_sessions. destruct (h !! l) as [[e|s|t|xs]|]; split;
    try discriminate; try solve [intros (? & [=] & _)].
  - intros H%forallb_Forall. eauto.
  - intros (es & [= <-] & H). now apply forallb_Forall.
Qed.

Lemma wf_template_spec h l :
  wf_template h l = true <->
  exists t, h !! l = Some (OTemplate t) /\ wf_sessions h (t_sessions t) = true.
Proof.
  unfold wf_template. destruct (h !! l) as [[e|s|t|xs]|]; split;
    try discriminate; try solve [intros (? & [=] & _)].
  - eauto.
  - intros (s' & [= <-] & H). exact H.
Qed.

#[local] Instance evolves_preorder : PreOrder evolves.
Proof.
  split.
  - intros h. unfold evolves. auto.
  - intros h1 h2 h3 (L1 & T1 & E1 & S1) (L2 & T2 & E2 & S2).
    unfold evolves. repeat split; auto.
Qed.

Lemma wf_exercises_mono h h' l :
  (forall l xs, h !! l = Some (OList xs) -> h' !! l = Some (OList xs)) ->
  (forall l, is_exercise h l = true -> is_exercise h' l = true) ->
  wf_exercises h l = true -> wf_exercises h' l = true.
Proof.
  intros HL HE (es & Hl & Hes)%wf_exercises_spec.
  apply wf_exercises_spec. exists es. split; [auto|].
  eapply Forall_impl; [exact Hes|]. auto.
Qed.

Lemma evolves_wf_sessions h h' l :
  evolves h h' -> wf_sessions h l = true -> wf_sessions h' l = true.
Proof.
  intros (HL & _ & _ & HS) (ss & Hl & Hss)%wf_sessions_spec.
  apply wf_sessions_spec. exists ss. split; [auto|].
  eapply Forall_impl; [exact Hss|]. auto.
Qed.

Lemma evolves_wf_template h h' l :
  evolves h h' -> wf_template h l = true -> wf_template h' l = true.
Proof.
  intros Hev (t & Hl & Ht)%wf_template_spec.
  apply wf_template_spec. exists t. split.
  - destruct Hev as (_ & HT & _). auto.
  - eauto using evolves_wf_sessions.
Qed.

Lemma evolves_wf_store self h h' :
  evolves h h' -> wf_store self h = true -> wf_store self h' = true.
Proof.
  unfold wf_store. intros Hev H.
  rewrite forallb_forall in *. intros [k tl] Hin.
  specialize (H _ Hin). simpl in *. eauto using evolves_wf_template.
Qed.

(** A change that keeps every list, template and session, and keeps
    exercise slots exercise slots. *)
Lemma frame_evolves h h' :
  (forall l xs, h !! l = Some (OList xs) -> h' !! l = Some (OList xs)) ->
  (forall l t, h !! l = Some (OTemplate t) -> h' !! l = Some (OTemplate t)) ->
  (forall l s, h !! l = Some (OSession s) -> h' !! l = Some (OSession s)) ->
  (forall l, is_exercise h l = true -> is_exercise h' l = true) ->
  evolves h h'.
Proof.
  intros HL HT HS HE. repeat split; auto.
  intros l (s & Hl & Hs)%wf_session_spec.
  apply wf_session_spec. exists s. split; [auto|].
  eauto using wf_exercises_mono.
Qed.

Lemma alloc_evolves h o : evolves h (h ++ [o])%list.
Proof.
  apply frame_evolves.
  - intros l xs H. now apply lookup_app_l_Some.
  - intros l t H. now apply lookup_app_l_Some.
  - intros l s H. now apply lookup_app_l_Some.
  - intros l (e & H)%is_exercise_spec. apply is_exercise_spec.
    exists e. now apply lookup_app_l_Some.
Qed.

Lemma write_exercise_evolves h l e e' :
  h !! l = Some (OExercise e) -> evolves h (<[l := OExercise e']> h).
Proof.
  intros Hl.
  assert (Hne : forall l' o, h !! l' = Some o ->
                (forall x, o <> OExercise x) -> (<[l := OExercise e']> h) !! l' = Some o).
  { intros l' o Hl' Hkind.
    rewrite list_lookup_insert_ne; [exact Hl'|].
    intros ->. rewrite Hl in Hl'. injection Hl' as <-. now apply (Hkind e). }
  apply frame_evolves.
  - intros l' xs H. apply Hne; [exact H|discriminate].
  - intros l' t H. apply Hne; [exact H|discriminate].
  - intros l' s H. apply Hne; [exact H|discriminate].
  - intros l' (x & H)%is_exercise_spec. apply is_exercise_spec.
    destruct (decide (l = l')) as [<-|Hd].
    + exists e'. apply list_lookup_insert_eq. eauto using lookup_lt_Some.
    + exists x. now rewrite list_lookup_insert_ne.
Qed.

Lemma write_session_evolves h l s s' :
  h !! l = Some (OSession s) ->
  wf_exercises h (s_exercises s') = true ->
  evolves h (<[l := OSession s']> h).
Proof.
  intros Hl Hwf.
  assert (Hne : forall l' o, h !! l' = Some o ->
                (forall x, o <> OSession x) -> (<[l := OSession s']> h) !! l' = Some o).
  { intros l' o Hl' Hkind.
    rewrite list_lookup_insert_ne; [exact Hl'|].
    intros ->. rewrite Hl in Hl'. injection Hl' as <-. now apply (Hkind s). }
  assert (HL : forall l' xs, h !! l' = Some (OList xs) ->
               (<[l := OSession s']> h) !! l' = Some (OList xs)).
  { intros l' xs H. apply Hne; [exact H|discriminate]. }
  assert (HE : forall l', is_exercise h l' = true ->
               is_exercise (<[l := OSession s']> h) l' = true).
  { intros l' (x & H)%is_exercise_spec. apply is_exercise_spec.
    exists x. apply Hne; [exact H|discriminate]. }
  split; [exact HL|]. split; [|split; [exact HE|]].
  - intros l' t H. apply Hne; [exact H|discriminate].
  - intros l' (x & Hx & Hwx)%wf_session_spec. apply wf_session_spec.
    destruct (decide (l = l')) as [<-|Hd].
    + exists s'. split.
      * apply list_lookup_insert_eq. eauto using lookup_lt_Some.
      * eauto using wf_exercises_mono.
    + exists x. split.
      * now rewrite list_lookup_insert_ne.
      * eauto using wf_exercises_mono.
Qed.

(** *** Running computations on the store *)

Lemma bind_Some {A B} (m : M A) (k : A -> M B) h a h1 :
  m h = Some (a, h1) -> (m ≫= k) h = k a h1.
Proof. unfold mbind, M_bind. now intros ->. Qed.

Lemma read_exercise_Some h l e :
  h !! l = Some (OExercise e) -> read_exercise l h = Some (e, h).
Proof. intros H. unfold read_exercise, read, mbind, M_bind. now rewrite H. Qed.

Lemma read_session_Some h l s :
  h !! l = Some (OSession s) -> read_session l h = Some (s, h).
Proof. intros H. unfold read_session, read, mbind, M_bind. now rewrite H. Qed.

Lemma read_template_Some h l t :
  h !! l = Some (OTemplate t) -> read_template l h = Some (t, h).
Proof. intros H. unfold read_template, read, mbind, M_bind. now rewrite H. Qed.

Lemma read_list_Some h l xs :
  h !! l = Some (OList xs) -> read_list l h = Some (xs, h).
Proof. intros H. unfold read_list, read, mbind, M_bind. now rewrite H. Qed.

Lemma write_Some h l o o' :
  h !! l = Some o -> write l o' h = Some (tt, <[l := o']> h).
Proof.
  intros H%lookup_lt_Some. unfold write.
  destruct (Nat.ltb_spec l (length h)); [reflexivity|lia].
Qed.

(** The rule for [for] loops: [R] relates the store before and after each
    iteration, [P x] is what iteration [x] needs and [Q x] what it
    establishes; both survive the other iterations. *)
Section Loop.
Context {A : Type} (R : heap -> heap -> Prop) `{!PreOrder R}.
Context (P Q : A -> heap -> Prop) (body : A -> M unit).
Hypothesis P_stable : forall x h h', P x h -> R h h' -> P x h'.
Hypothesis Q_stable : forall x h h', Q x h -> R h h' -> Q x h'.
Hypothesis body_ok :
  forall x h, P x h -> exists h', body x h = Some (tt, h') /\ R h h' /\ Q x h'.

Lemma for_each_ok (xs : list A) (h : heap) :
  Forall (fun x => P x h) xs ->
  exists h', for_each xs body h = Some (tt, h') /\ R h h'
             /\ Forall (fun x => Q x h') xs.
Proof.
  revert h. induction xs as [|x xs IH]; intros h Hall.
  - exists h. repeat split; [reflexivity|constructor].
  - inversion Hall as [|? ? Hx Hxs]; subst.
    destruct (body_ok x h Hx) as (h1 & Hb & HR1 & HQ1).
    destruct (IH h1) as (h2 & Hf & HR2 & HQ2).
    { eapply Forall_impl; [exact Hxs|]. intros y Hy. simpl in *.
      eapply P_stable; eassumption. }
    exists h2. split; [|split].
    + simpl. erewrite bind_Some by exact Hb. exact Hf.
    + etransitivity; eassumption.
    + constructor; [eapply Q_stable; eassumption|exact HQ2].
Qed.
End Loop.

(** *** The adjustments keep the store well-formed and always return *)

Lemma take_Forall {A} (P : A -> Prop) n (l : list A) :
  Forall P l -> Forall P (take n l).
Proof. intros H. revert n. induction H; intros [|n]; simpl; constructor; auto. Qed.

Lemma adjust_for_experience_ok template level h :
  wf_template h template = true ->
  exists h', _adjust_for_experience template level h = Some (template, h')
             /\ evolves h h'.
Proof.
  intros (t & Ht & (ss & Hss & Hall)%wf_sessions_spec)%wf_template_spec.
  unfold _adjust_for_experience.
  destruct (String.eqb level "beginner").
  2:{ exists h. split; [reflexivity|reflexivity]. }
  destruct (for_each_ok evolves (fun sl h => wf_session h sl = true)
              (fun _ _ => True)
              (fun session =>
                 s ← read_session session;
                 es ← read_list (s_exercises s);
                 l ← alloc (OList (take 5 es));
                 write session (OSession {| s_name := s_name s; s_exercises := l |}))
              ) with (xs := ss) (h := h) as (h' & Hloop & Hev & _).
  - intros x h1 h2 Hx (_ & _ & _ & HS). auto.
  - auto.
  - intros sl h1 (s & Hs & (es & Hes & Hex)%wf_exercises_spec)%wf_session_spec.
    eexists. split; [|split; [|exact I]].
    + erewrite bind_Some by (apply read_session_Some; exact Hs).
      erewrite bind_Some by (apply read_list_Some; exact Hes).
      erewrite bind_Some by reflexivity.
      eapply write_Some. apply lookup_app_l_Some. exact Hs.
    + etransitivity; [apply alloc_evolves|].
      eapply write_session_evolves.
      * apply lookup_app_l_Some. exact Hs.
      * simpl. apply wf_exercises_spec. exists (take 5 es). split.
        -- apply list_lookup_middle. reflexivity.
        -- apply take_Forall. eapply Forall_impl; [exact Hex|].
           intros e He. destruct (alloc_evolves h1 (OList (take 5 es)))
             as (_ & _ & HE & _). auto.
  - exact Hall.
  - exists h'. split; [|exact Hev].
    erewrite bind_Some.
    2:{ erewrite bind_Some by (apply read_template_Some; exact Ht).
        erewrite bind_Some by (apply read_list_Some; exact Hss).
        exact Hloop. }
    reflexivity.
Qed.

Lemma substitute_names_ok subs template h :
  wf_template h template = true ->
  exists h', substitute_names subs template h = Some (tt, h') /\ evolves h h'.
Proof.
  intros (t & Ht & (ss & Hss & Hall)%wf_sessions_spec)%wf_template_spec.
  unfold substitute_names.
  set (rename := fun exercise : loc =>
         e ← read_exercise exercise;
         match dict_get (ex_name e) subs with
         | Some n => write exercise (OExercise (set_name n e))
         | None => mret tt
         end).
  set (inner := fun session : loc =>
         s ← read_session session;
         es ← read_list (s_exercises s);
         for_each es rename).
  assert (Hrename : forall l h1, is_exercise h1 l = true ->
            exists h2, rename l h1 = Some (tt, h2) /\ evolves h1 h2 /\ True).
  { intros l h1 (e & He)%is_exercise_spec. unfold rename.
    erewrite bind_Some by (apply read_exercise_Some; exact He).
    destruct (dict_get (ex_name e) subs) as [n|].
    - eexists. split; [eapply write_Some; exact He|].
      split; [|exact I]. eapply write_exercise_evolves. exact He.
    - exists h1. split; [reflexivity|]. split; [reflexivity|exact I]. }
  assert (Hinner : forall sl h1, wf_session h1 sl = true ->
            exists h2, inner sl h1 = Some (tt, h2) /\ evolves h1 h2 /\ True).
  { intros sl h1 (s & Hs & (es & Hes & Hex)%wf_exercises_spec)%wf_session_spec.
    destruct (for_each_ok evolves (fun l h => is_exercise h l = true)
                (fun _ _ => True) rename) with (xs := es) (h := h1)
      as (h2 & Hloop & Hev & _); auto.
    { intros x ha hb Hx (_ & _ & HE & _). auto. }
    exists h2. split; [|split; [exact Hev|exact I]].
    unfold inner.
    erewrite bind_Some by (apply read_session_Some; exact Hs).
    erewrite bind_Some by (apply read_list_Some; exact Hes).
    exact Hloop. }
  destruct (for_each_ok evolves (fun sl h => wf_session h sl = true)
              (fun _ _ => True) inner) with (xs := ss) (h := h)
    as (h' & Hloop & Hev & _); auto.
  { intros x ha hb Hx (_ & _ & _ & HS). auto. }
  exists h'. split; [|exact Hev].
  erewrite bind_Some by (apply read_template_Some; exact Ht).
  erewrite bind_Some by (apply read_list_Some; exact Hss).
  exact Hloop.
Qed.

Lemma adjust_for_equipment_ok template equipment h :
  wf_template h template = true ->
  exists h', _adjust_for_equipment template equipment h = Some (template, h')
             /\ evolves h h'.
Proof.
  intros Hwf. unfold _adjust_for_equipment.
  destruct (dict_get equipment substitutions) as [subs|].
  - destruct (substitute_names_ok subs template h Hwf) as (h' & Hs & Hev).
    exists h'. split; [|exact Hev]. erewrite bind_Some by exact Hs. reflexivity.
  - exists h. split; reflexivity.
Qed.

Lemma adjust_for_limitations_ok template limitations h :
  wf_template h template = true ->
  exists h', _adjust_for_limitations template limitations h = Some (template, h')
             /\ evolves h h'.
Proof.
  intros Hwf. unfold _adjust_for_limitations.
  destruct (for_each_ok evolves (fun _ h => wf_template h template = true)
              (fun _ _ => True)
              (fun limitation : string =>
                 match dict_get limitation limitation_subs with
                 | Some subs => substitute_names subs template
                 | None => mret tt
                 end)) with (xs := limitations) (h := h)
    as (h' & Hloop & Hev & _).
  - intros x ha hb Hx Hev. eauto using evolves_wf_template.
  - auto.
  - intros limitation h1 Hwf1.
    destruct (dict_get limitation limitation_subs) as [subs|].
    + destruct (substitute_names_ok subs template h1 Hwf1) as (h2 & Hs & Hev).
      eauto.
    + exists h1. split; [reflexivity|]. split; [reflexivity|exact I].
  - apply Forall_forall. auto.
  - exists h'. split; [|exact Hev]. erewrite bind_Some by exact Hloop. reflexivity.
Qed.

(** *** Applying the rep scheme *)

Lemma rescheme_slot_follows sc e : follows_scheme sc (rescheme_slot sc e).
Proof.
  unfold rescheme_slot, follows_scheme.
  destruct (String.eqb (ex_type e) "compound") eqn:E; simpl; rewrite E; auto.
Qed.

Lemma rescheme_slot_idem sc e :
  rescheme_slot sc (rescheme_slot sc e) = rescheme_slot sc e.
Proof.
  unfold rescheme_slot.
  destruct (String.eqb (ex_type e) "compound") eqn:E; simpl; rewrite E; reflexivity.
Qed.

Lemma follows_scheme_rescheme sc e :
  follows_scheme sc e -> rescheme_slot sc e = e.
Proof.
  unfold follows_scheme, rescheme_slot, set_scheme.
  destruct e as [n ty mu s r rs]; simpl.
  intros (-> & -> & ->). destruct (String.eqb ty "compound"); reflexivity.
Qed.

#[local] Instance rescheme_preorder sc : PreOrder (rescheme sc).
Proof.
  split.
  - intros h l. now left.
  - intros h1 h2 h3 H12 H23 l.
    destruct (H23 l) as [E2|(e2 & E2 & E3)], (H12 l) as [E1|(e1 & E1 & E1')].
    + left. congruence.
    + right. exists e1. split; congruence.
    + right. exists e2. split; congruence.
    + right. exists e1. split; [exact E1|].
      rewrite E3. rewrite E1' in E2. injection E2 as <-.
      now rewrite rescheme_slot_idem.
Qed.

Lemma rescheme_other sc h h' l o :
  rescheme sc h h' -> h !! l = Some o -> (forall e, o <> OExercise e) ->
  h' !! l = Some o.
Proof.
  intros HR Hl Hkind. destruct (HR l) as [E|(e & E & _)]; [congruence|].
  rewrite Hl in E. injection E as ->. now destruct (Hkind e).
Qed.

Lemma rescheme_scheme_at sc h h' l :
  scheme_at sc l h -> rescheme sc h h' -> scheme_at sc l h'.
Proof.
  intros (e & Hl & Hf) HR. destruct (HR l) as [E|(e' & E & E')].
  - exists e. split; [congruence|exact Hf].
  - exists (rescheme_slot sc e'). split; [exact E'|apply rescheme_slot_follows].
Qed.

Lemma rescheme_is_exercise sc h h' l :
  rescheme sc h h' -> is_exercise h l = true -> is_exercise h' l = true.
Proof.
  intros HR (e & Hl)%is_exercise_spec. apply is_exercise_spec.
  destruct (HR l) as [E|(e' & E & E')]; [exists e; congruence|eauto].
Qed.

Lemma rescheme_evolves sc h h' : rescheme sc h h' -> evolves h h'.
Proof.
  intros HR. apply frame_evolves.
  - intros l xs H. eapply rescheme_other; eauto; discriminate.
  - intros l t H. eapply rescheme_other; eauto; discriminate.
  - intros l s H. eapply rescheme_other; eauto; discriminate.
  - intros l. eapply rescheme_is_exercise. exact HR.
Qed.

Lemma rescheme_session_done sc h h' l :
  session_done sc l h -> rescheme sc h h' -> session_done sc l h'.
Proof.
  intros (s & es & Hs & Hes & Hall) HR.
  exists s, es. split; [|split].
  - eapply rescheme_other; eauto; discriminate.
  - eapply rescheme_other; eauto; discriminate.
  - eapply Forall_impl; [exact Hall|]. intros e He. simpl in *.
    eauto using rescheme_scheme_at.
Qed.

Lemma write_rescheme sc h l e :
  h !! l = Some (OExercise e) ->
  rescheme sc h (<[l := OExercise (rescheme_slot sc e)]> h).
Proof.
  intros Hl l'. destruct (decide (l = l')) as [<-|Hne].
  - right. exists e. split; [exact Hl|].
    apply list_lookup_insert_eq. eauto using lookup_lt_Some.
  - left. now apply list_lookup_insert_ne.
Qed.

Lemma apply_rep_scheme_ok template sc h :
  wf_template h template = true ->
  exists h' t ss,
    _apply_rep_scheme template sc h = Some (template, h')
    /\ rescheme sc h h'
    /\ h' !! template = Some (OTemplate t)
    /\ h' !! t_sessions t = Some (OList ss)
    /\ Forall (fun sl => session_done sc sl h') ss.
Proof.
  intros (t & Ht & (ss & Hss & Hall)%wf_sessions_spec)%wf_template_spec.
  unfold _apply_rep_scheme.
  set (assign := fun exercise : loc =>
         e ← read_exercise exercise;
         if String.eqb (ex_type e) "compound"
         then write exercise
                (OExercise (set_scheme (sets sc) (reps sc) (rest sc) e))
         else write exercise
                (OExercise (set_scheme (sets sc) "10-15" "60 sec" e))).
  set (inner := fun session : loc =>
         s ← read_session session;
         es ← read_list (s_exercises s);
         for_each es assign).
  assert (Hassign : forall l h1, is_exercise h1 l = true ->
            exists h2, assign l h1 = Some (tt, h2) /\ rescheme sc h1 h2
                       /\ scheme_at sc l h2).
  { intros l h1 (e & He)%is_exercise_spec.
    exists (<[l := OExercise (rescheme_slot sc e)]> h1). split; [|split].
    - unfold assign. erewrite bind_Some by (apply read_exercise_Some; exact He).
      unfold rescheme_slot.
      destruct (String.eqb (ex_type e) "compound"); eapply write_Some; exact He.
    - now apply write_rescheme.
    - exists (rescheme_slot sc e). split; [|apply rescheme_slot_follows].
      apply list_lookup_insert_eq. eauto using lookup_lt_Some. }
  assert (Hinner : forall sl h1, wf_session h1 sl = true ->
            exists h2, inner sl h1 = Some (tt, h2) /\ rescheme sc h1 h2
                       /\ session_done sc sl h2).
  { intros sl h1 (s & Hs & (es & Hes & Hex)%wf_exercises_spec)%wf_session_spec.
    destruct (for_each_ok (rescheme sc) (fun l h => is_exercise h l = true)
                (fun l h => scheme_at sc l h) assign) with (xs := es) (h := h1)
      as (h2 & Hloop & HR & Hdone); auto.
    { intros x ha hb Hx Hab. eauto using rescheme_is_exercise. }
    { intros x ha hb Hx Hab. eauto using rescheme_scheme_at. }
    exists h2. split; [|split; [exact HR|]].
    - unfold inner.
      erewrite bind_Some by (apply read_session_Some; exact Hs).
      erewrite bind_Some by (apply read_list_Some; exact Hes).
      exact Hloop.
    - exists s, es. split; [|split; [|exact Hdone]].
      + eapply rescheme_other; eauto; discriminate.
      + eapply rescheme_other; eauto; discriminate. }
  destruct (for_each_ok (rescheme sc) (fun sl h => wf_session h sl = true)
              (fun sl h => session_done sc sl h) inner) with (xs := ss) (h := h)
    as (h' & Hloop & HR & Hdone); auto.
  { intros x ha hb Hx Hab.
    destruct (rescheme_evolves _ _ _ Hab) as (_ & _ & _ & HS). auto. }
  { intros x ha hb Hx Hab. eauto using rescheme_session_done. }
  exists h', t, ss. split; [|split; [exact HR|split; [|split; [|exact Hdone]]]].
  - erewrite bind_Some by (apply read_template_Some; exact Ht).
    erewrite bind_Some by (apply read_list_Some; exact Hss).
    erewrite bind_Some by exact Hloop. reflexivity.
  - eapply rescheme_other; eauto; discriminate.
  - eapply rescheme_other; eauto; discriminate.
Qed.

(** *** Reading the result *)

Lemma map_M_read_exercise sc h es :
  Forall (fun e => scheme_at sc e h) es ->
  exists vs, map_M read_exercise es h = Some (vs, h)
             /\ Forall (follows_scheme sc) vs.
Proof.
  induction 1 as [|l es (e & Hl & Hf) _ (vs & Hvs & Hall)].
  - exists []. split; [reflexivity|constructor].
  - exists (e :: vs). split; [|now constructor].
    simpl. erewrite bind_Some by (apply read_exercise_Some; exact Hl).
    erewrite bind_Some by exact Hvs. reflexivity.
Qed.

Lemma value_of_sessions_done sc h l ss :
  h !! l = Some (OList ss) ->
  Forall (fun sl => session_done sc sl h) ss ->
  exists svals, value_of_sessions l h = Some (svals, h)
                /\ Forall (fun sv : session_value =>
                             Forall (follows_scheme sc) (snd sv)) svals.
Proof.
  intros Hl Hall. unfold value_of_sessions.
  erewrite bind_Some by (apply read_list_Some; exact Hl).
  clear Hl. induction Hall as [|sl ss (s & es & Hs & Hes & Hdone) _ (svs & Hsvs & IH)].
  - exists []. split; [reflexivity|constructor].
  - destruct (map_M_read_exercise sc h es Hdone) as (vs & Hvs & Hfol).
    exists ((s_name s, vs) :: svs). split; [|now constructor].
    simpl. erewrite bind_Some.
    2:{ unfold value_of_session.
        erewrite bind_Some by (apply read_session_Some; exact Hs).
        erewrite bind_Some by (apply read_list_Some; exact Hes).
        erewrite bind_Some by exact Hvs. reflexivity. }
    erewrite bind_Some by exact Hsvs. reflexivity.
Qed.

Lemma weeks_loop h template t total (nums : list Z) :
  h !! template = Some (OTemplate t) ->
  map_M (fun week_num =>
           t ← read_template template;
           mret {| week_number := week_num;
                   sessions := t_sessions t;
                   notes := _get_week_notes week_num total |}) nums h
  = Some (map (fun week_num =>
                 {| week_number := week_num;
                    sessions := t_sessions t;
                    notes := _get_week_notes week_num total |}) nums, h).
Proof.
  intros Ht. induction nums as [|n nums IH]; [reflexivity|].
  simpl. erewrite bind_Some.
  2:{ erewrite bind_Some by (apply read_template_Some; exact Ht). reflexivity. }
  erewrite bind_Some by exact IH. reflexivity.
Qed.

Lemma chosen_template_wf h split_type fallback :
  wf_store the_generator h = true ->
  dict_get "full_body" (splits the_generator) = Some fallback ->
  wf_template h (default fallback (dict_get split_type (splits the_generator))) = true.
Proof.
  unfold wf_store. intros Hwf Hfb. rewrite forallb_forall in Hwf.
  destruct (dict_get split_type (splits the_generator)) as [tl|] eqn:E; simpl.
  - apply LibraryProps.dict_get_In in E. exact (Hwf _ E).
  - apply LibraryProps.dict_get_In in Hfb. exact (Hwf _ Hfb).
Qed.

(** *** The generated plan *)

Lemma initial_store_wf : wf_store the_generator initial_heap = true.
Proof. vm_compute. reflexivity. Qed.

Lemma dict_index_Some {A} k (d : list (string * A)) v h :
  dict_get k d = Some v -> dict_index k d h = Some (v, h).
Proof. unfold dict_index. now intros ->. Qed.

(** The run of [generate_plan] on a well-formed store: it returns; the
    template object [t] it worked on is the stored one, before and after; the
    weeks of the plan all hold the reference [t_sessions t]; and every session
    of that list has had the scheme of the goal applied. *)
Lemma generate_plan_run (h : heap)
    (split_type experience_level goal equipment : string)
    (weeks : Z) (limitations : option (list string)) :
  wf_store the_generator h = true ->
  exists fb h' t ss,
    dict_get "full_body" (splits the_generator) = Some fb
    /\ generate_plan the_generator split_type experience_level goal equipment
                     weeks limitations h
       = Some ({| split_type := split_type; goal := goal;
                  experience_level := experience_level;
                  weeks := map (fun week_num =>
                                  {| week_number := week_num;
                                     sessions := t_sessions t;
                                     notes := _get_week_notes week_num weeks |})
                               (seqZ 1 weeks) |}, h')
    /\ evolves h h'
    /\ h !! default fb (dict_get split_type (splits the_generator))
       = Some (OTemplate t)
    /\ h' !! default fb (dict_get split_type (splits the_generator))
       = Some (OTemplate t)
    /\ h' !! t_sessions t = Some (OList ss)
    /\ Forall (fun sl => session_done (scheme_for goal) sl h') ss.
Proof.
  intros Hwf. unfold generate_plan.
  assert (Hfb : exists fb, dict_get "full_body" (splits the_generator) = Some fb)
    by (eexists; vm_compute; reflexivity).
  destruct Hfb as (fb & Hfb).
  set (template := default fb (dict_get split_type (splits the_generator))).
  pose proof (chosen_template_wf h split_type _ Hwf Hfb) as Hwf0.
  fold template in Hwf0.
  destruct (adjust_for_experience_ok template experience_level h Hwf0)
    as (h1 & E1 & Hev1).
  pose proof (evolves_wf_template _ _ _ Hev1 Hwf0) as Hwf1.
  destruct (adjust_for_equipment_ok template equipment h1 Hwf1)
    as (h2 & E2 & Hev2).
  pose proof (evolves_wf_template _ _ _ Hev2 Hwf1) as Hwf2.
  destruct (adjust_for_limitations_ok template (default [] limitations) h2 Hwf2)
    as (h3 & E3 & Hev3).
  pose proof (evolves_wf_template _ _ _ Hev3 Hwf2) as Hwf3.
  assert (Hmb : exists fallback,
            dict_get "muscle_building" (rep_schemes the_generator) = Some fallback
            /\ default fallback (dict_get goal (rep_schemes the_generator))
               = scheme_for goal)
    by (eexists; split; vm_compute; reflexivity).
  destruct Hmb as (fallback & Hmb & Hsc).
  destruct (apply_rep_scheme_ok template (scheme_for goal) h3 Hwf3)
    as (h4 & t & ss & E4 & HR & Ht & Hss & Hdone).
  pose proof (rescheme_evolves _ _ _ HR) as Hev4.
  assert (Hev : evolves h h4)
    by (repeat (etransitivity; [eassumption|]); reflexivity).
  exists fb, h4, t, ss.
  split; [exact Hfb|]. split; [|split; [exact Hev|split; [|auto]]].
  - erewrite bind_Some by (apply dict_index_Some; exact Hfb).
    erewrite bind_Some by exact E1.
    erewrite bind_Some by exact E2.
    erewrite bind_Some by exact E3.
    erewrite bind_Some by (apply dict_index_Some; exact Hmb).
    rewrite Hsc.
    erewrite bind_Some by exact E4.
    erewrite bind_Some by (apply weeks_loop; exact Ht).
    reflexivity.
  - pose proof Hwf0 as (t0 & Ht0 & _)%wf_template_spec.
    destruct Hev as (_ & HT & _). pose proof (HT _ _ Ht0) as Ht0'.
    rewrite Ht in Ht0'. injection Ht0' as ->. exact Ht0.
Qed.

(** The plan does not own its sessions: every week of every plan holds the
    reference to the session list of the stored template of the split (of
    [full_body] for an unknown split). *)
Lemma plan_refers_to_stored_sessions (h : heap)
    (split_type experience_level goal equipment : string)
    (weeks : Z) (limitations : option (list string)) :
  wf_store the_generator h = true ->
  exists plan h' fb t,
    generate_plan the_generator split_type experience_level goal equipment
                  weeks limitations h = Some (plan, h')
    /\ dict_get "full_body" (splits the_generator) = Some fb
    /\ h' !! default fb (dict_get split_type (splits the_generator))
       = Some (OTemplate t)
    /\ Forall (fun week => sessions week = t_sessions t)
              (WorkoutGenerator.weeks plan).
Proof.
  intros Hwf.
  destruct (generate_plan_run h split_type experience_level goal equipment
              weeks limitations Hwf)
    as (fb & h' & t & ss & Hfb & Hrun & _ & _ & Ht & _).
  eexists _, h', fb, t. split; [exact Hrun|]. split; [exact Hfb|].
  split; [exact Ht|]. simpl.
  apply Forall_forall. intros week (n & <- & _)%list_elem_of_In%in_map_iff.
  reflexivity.
Qed.

(** C4. On every well-formed store, and so after any number of earlier
    calls, [generate_plan] returns a plan, and every slot of every session of
    every week carries the set count of the scheme of the goal (the scheme of
    [muscle_building], 3 sets of 8-12 with 60-90 sec rest, for a goal without
    an entry), with the repetitions and rest of the scheme when the slot is
    tagged compound and with 10-15 and 60 sec otherwise. *)
Theorem rep_scheme_applied (h : heap)
    (split_type experience_level goal equipment : string)
    (weeks : Z) (limitations : option (list string)) :
  wf_store the_generator h = true ->
  exists plan h',
    generate_plan the_generator split_type experience_level goal equipment
                  weeks limitations h = Some (plan, h')
    /\ wf_store the_generator h' = true
    /\ length (WorkoutGenerator.weeks plan) = Z.to_nat weeks
    /\ forall week, In week (WorkoutGenerator.weeks plan) ->
         exists svals,
           eval (value_of_sessions (sessions week)) h' = Some svals
           /\ forall sv e, In sv svals -> In e (snd sv) ->
                follows_scheme (scheme_for goal) e.
Proof.
  intros Hwf.
  destruct (generate_plan_run h split_type experience_level goal equipment
              weeks limitations Hwf)
    as (fb & h' & t & ss & _ & Hrun & Hev & _ & _ & Hss & Hdone).
  eexists _, h'. split; [exact Hrun|]. split; [|split].
  - exact (evolves_wf_store _ _ _ Hev Hwf).
  - simpl. rewrite length_map. apply length_seqZ.
  - simpl. intros week (n & <- & _)%in_map_iff. simpl.
    destruct (value_of_sessions_done _ _ _ _ Hss Hdone) as (svals & Hv & Hall).
    exists svals. split.
    + unfold eval. rewrite Hv. reflexivity.
    + intros sv e Hsv He.
      rewrite Forall_forall in Hall. apply list_elem_of_In in Hsv.
      specialize (Hall sv Hsv). rewrite Forall_forall in Hall.
      apply Hall. now apply list_elem_of_In.
Qed.

Lemma rep_scheme_applied_witness :
  exists plan h',
    generate_plan the_generator "ppl" "beginner" "strength" "home_gym" 8
                  (Some ["knee"]) initial_heap = Some (plan, h')
    /\ wf_store the_generator h' = true
    /\ length (WorkoutGenerator.weeks plan) = Z.to_nat 8
    /\ forall week, In week (WorkoutGenerator.weeks plan) ->
         exists svals,
           eval (value_of_sessions (sessions week)) h' = Some svals
           /\ forall sv e, In sv svals -> In e (snd sv) ->
                follows_scheme (scheme_for "strength") e.
Proof.
  apply (rep_scheme_applied initial_heap "ppl" "beginner" "strength" "home_gym" 8
           (Some ["knee"])).
  vm_compute. reflexivity.
Defined.

End GeneratorProps.

(** ** Progress tracker *)

Module TrackerProps.
Import PyStr Datetime ProgressTracker Statements.

(** *** Read-only methods *)

Lemma read_only_ret {A} (a : A) : read_only (mret a).
Proof. intros s. reflexivity. Qed.

Lemma read_only_self_workouts : read_only self_workouts.
Proof. intros s. reflexivity. Qed.

Lemma read_only_or_raise {A} (o : option A) : read_only (or_raise o).
Proof. intros s. reflexivity. Qed.

Lemma read_only_bind {A B} (m : T A) (k : A -> T B) :
  read_only m -> (forall a, read_only (k a)) -> read_only (m ≫= k).
Proof.
  intros Hm Hk s. unfold mbind, T_bind.
  specialize (Hm s). destruct (m s) as [[a|] s1]; simpl in *; subst.
  - apply Hk.
  - reflexivity.
Qed.

Ltac read_only_steps :=
  repeat first
    [ apply read_only_ret | apply read_only_self_workouts | apply read_only_or_raise
    | apply read_only_bind; [|intros ?]
    | match goal with
      | |- read_only (match ?x with _ => _ end) => destruct x
      | |- read_only (if ?x then _ else _) => destruct x
      end ].

Lemma read_only_history n : read_only (_get_exercise_history n).
Proof. unfold _get_exercise_history. read_only_steps. Qed.

Lemma read_only_insights_loop exs acc : read_only (insights_loop exs acc).
Proof.
  revert acc. induction exs as [|ex exs IH]; intros acc; simpl.
  - apply read_only_ret.
  - apply read_only_bind; [apply read_only_history|]. intros h. apply IH.
Qed.

Lemma read_only_report now exercise period : read_only (get_report now exercise period).
Proof. unfold get_report. read_only_steps. Qed.

Lemma read_only_plateau n : read_only (detect_plateau n).
Proof.
  unfold detect_plateau.
  apply read_only_bind; [apply read_only_history|]. intros h. read_only_steps.
Qed.

Lemma read_only_weeks : read_only get_consecutive_weeks.
Proof. unfold get_consecutive_weeks. read_only_steps. Qed.

Lemma read_only_fatigue now : read_only (estimate_fatigue now).
Proof. unfold estimate_fatigue. read_only_steps. Qed.

Lemma read_only_records : read_only get_personal_records.
Proof. unfold get_personal_records. read_only_steps. Qed.

(** *** Histories *)

Lemma fold_left_append {A B} (f : A -> list B) (l : list A) (acc : list B) :
  fold_left (fun acc x => acc ++ f x)%list l acc = (acc ++ flat_map f l)%list.
Proof.
  revert acc. induction l as [|a l IH]; intros acc; simpl.
  - now rewrite app_nil_r.
  - rewrite IH. now rewrite <- app_assoc.
Qed.

Lemma fold_left_ext {A B} (f g : B -> A -> B) (l : list A) (b : B) :
  (forall b a, f b a = g b a) -> fold_left f l b = fold_left g l b.
Proof.
  intros H. revert b. induction l as [|a l IH]; intros b; simpl; [reflexivity|].
  now rewrite H, IH.
Qed.

(** The loop that collects the matching exercises of one workout. *)
Lemma collect_matching {B} (keep : ExerciseEntry -> bool) (mk : ExerciseEntry -> B)
    (exs : list ExerciseEntry) (acc : list B) :
  fold_left (fun acc ex => if keep ex then (acc ++ [mk ex])%list else acc) exs acc
  = (acc ++ map mk (List.filter keep exs))%list.
Proof.
  revert acc. induction exs as [|ex exs IH]; intros acc; simpl.
  - now rewrite app_nil_r.
  - rewrite IH. destruct (keep ex); simpl; [now rewrite <- app_assoc|reflexivity].
Qed.

Lemma history_data_points n s :
  _get_exercise_history n s = (Some (data_points (workouts s) n), s).
Proof.
  unfold _get_exercise_history, mbind, T_bind, self_workouts, mret, T_ret.
  f_equal. f_equal. unfold data_points.
  rewrite <- (app_nil_l (flat_map _ _)), <- fold_left_append.
  apply fold_left_ext. intros acc w. apply collect_matching.
Qed.

(** *** Logging *)

Lemma insights_loop_flat_map exs acc s :
  insights_loop exs acc s
  = (Some (acc ++ flat_map
                    (fun ex => exercise_insights ex
                                 (data_points (workouts s) (entry_name ex)))
                    exs)%list, s).
Proof.
  revert acc. induction exs as [|ex exs IH]; intros acc; simpl.
  - now rewrite app_nil_r.
  - unfold mbind, T_bind. rewrite history_data_points.
    rewrite IH. now rewrite <- app_assoc.
Qed.

Lemma flat_map_concat_map {A B} (f : A -> list B) (l : list A) :
  flat_map f l = concat (map f l).
Proof. induction l as [|a l IH]; simpl; [reflexivity|]. now rewrite IH. Qed.

Lemma from_end_previous (points : list HistoryEntry) :
  from_end 2 points = previous_point points.
Proof.
  unfold from_end, previous_point. destruct (rev points) as [|a [|b l]]; reflexivity.
Qed.

Lemma previous_point_length (points : list HistoryEntry) :
  (2 <=? length points)%nat = true <-> exists p, previous_point points = Some p.
Proof.
  unfold previous_point. rewrite <- length_rev.
  destruct (rev points) as [|a [|b l]]; simpl; split;
    try discriminate; try solve [intros [? [=]]]; eauto.
Qed.

Lemma pr_message_not_rep n a b m c d :
  pr_message n a b <> rep_pr_message m c d.
Proof. unfold pr_message, rep_pr_message. simpl. discriminate. Qed.

(** What one exercise of the new entry contributes, against the data points
    of its name in the log. *)
Lemma exercise_insights_spec (ex : ExerciseEntry) (points : list HistoryEntry) :
  match previous_point points with
  | None => exercise_insights ex points = []
  | Some prev =>
      let n := entry_name ex in
      let pw := get_weight (h_entry prev) in
      let pr := get_reps (h_entry prev) in
      (In (pr_message n pw (get_weight ex)) (exercise_insights ex points)
       <-> get_weight ex > pw)
      /\ (In (rep_pr_message n pr (get_reps ex)) (exercise_insights ex points)
          <-> get_weight ex = pw /\ get_reps ex > pr)
      /\ (forall m, In m (exercise_insights ex points) ->
            m = pr_message n pw (get_weight ex)
            \/ m = rep_pr_message n pr (get_reps ex))
      /\ (length (exercise_insights ex points) <= 1)%nat
  end.
Proof.
  unfold exercise_insights. rewrite from_end_previous.
  destruct (previous_point points) as [prev|] eqn:E.
  - assert (Hlen : (2 <=? length points)%nat = true)
      by (apply previous_point_length; eauto).
    rewrite Hlen. cbv zeta.
    destruct (Z.gtb_spec (get_weight ex) (get_weight (h_entry prev))) as [Hgt|Hle];
      destruct (Z.eqb_spec (get_weight ex) (get_weight (h_entry prev))) as [Heq|Hne];
      try lia; simpl.
    + (* heavier *)
      split; [|split; [|split]].
      * split; [lia|]. intros _. now left.
      * split; [|lia]. intros [Hm|[]]. now apply pr_message_not_rep in Hm.
      * intros m [<-|[]]. now left.
      * lia.
    + (* same weight *)
      destruct (Z.gtb_spec (get_reps ex) (get_reps (h_entry prev))) as [Hr|Hr]; simpl.
      * split; [|split; [|split]].
        -- split; [|lia]. intros [Hm|[]].
           now apply eq_sym, pr_message_not_rep in Hm.
        -- split; [lia|]. intros _. now left.
        -- intros m [<-|[]]. now right.
        -- lia.
      * split; [|split; [|split]].
        -- split; [intros []|lia].
        -- split; [intros []|lia].
        -- intros m [].
        -- lia.
    + (* lighter *)
      split; [|split; [|split]].
      * split; [intros []|lia].
      * split; [intros []|lia].
      * intros m [].
      * lia.
  - destruct (2 <=? length points)%nat; reflexivity.
Qed.

(** The run of [log_workout]: the new workout is appended, the file
    rewritten, and the insights collected exercise by exercise against the
    log that already contains the new workout. *)
Lemma log_workout_run (now : datetime) (exs : list ExerciseEntry)
    (notes : option string) (s : Tracker) :
  let log := (workouts s
              ++ [ {| date := now; exercises := Some exs; notes := notes |} ])%list in
  let per := map (fun ex => exercise_insights ex (data_points log (entry_name ex)))
                 exs in
  log_workout now exs notes s
  = (Some {| status := "logged";
             workout_number := Z.of_nat (length log);
             exercises_logged := Z.of_nat (length exs);
             insights := match concat per with
                         | [] => ["Solid workout! Keep pushing."]
                         | msgs => msgs
                         end |},
     {| workouts := log; workouts_file := Some log |}).
Proof.
  intros log per.
  unfold log_workout, _generate_workout_insights, mbind, T_bind,
    append_workout, _save_workouts. simpl.
  rewrite insights_loop_flat_map. simpl.
  fold log. unfold per. rewrite flat_map_concat_map.
  destruct (concat _); reflexivity.
Qed.

(** What the method computes, for any entry: logging returns, and the
    insights are made of the contributions of the exercises of the new entry,
    in input order. An exercise whose data points in the log read after the
    append (the new entry included, names compared case-insensitively) are
    fewer than two contributes nothing. Otherwise it is compared with the
    data point before the most recent one of that log, which is a point of
    the new entry itself when the name occurs there more than once: it
    contributes the PR message exactly when its weight is strictly greater,
    the rep-PR message exactly when the weights are equal and its repetitions
    strictly greater, and nothing else. When nothing is contributed the
    result is the single encouragement message. *)
Lemma log_workout_insights (now : datetime) (exs : list ExerciseEntry)
    (notes : option string) (s : Tracker) :
  let log := (workouts s
              ++ [ {| date := now; exercises := Some exs; notes := notes |} ])%list in
  exists r s' (per : list (list string)),
    log_workout now exs notes s = (Some r, s')
    /\ Forall2
         (fun ex msgs =>
            match previous_point (data_points log (entry_name ex)) with
            | None => msgs = []
            | Some prev =>
                let n := entry_name ex in
                let pw := get_weight (h_entry prev) in
                let pr := get_reps (h_entry prev) in
                (In (pr_message n pw (get_weight ex)) msgs <-> get_weight ex > pw)
                /\ (In (rep_pr_message n pr (get_reps ex)) msgs
                    <-> get_weight ex = pw /\ get_reps ex > pr)
                /\ (forall m, In m msgs ->
                      m = pr_message n pw (get_weight ex)
                      \/ m = rep_pr_message n pr (get_reps ex))
                /\ (length msgs <= 1)%nat
            end)
         exs per
    /\ insights r = match concat per with
                    | [] => ["Solid workout! Keep pushing."]
                    | msgs => msgs
                    end.
Proof.
  intros log.
  eexists _, _, (map (fun ex => exercise_insights ex
                                  (data_points log (entry_name ex))) exs).
  split; [apply log_workout_run|]. split; [|reflexivity].
  clearbody log.
  induction exs as [|ex exs IH]; simpl; constructor; [|exact IH].
  apply exercise_insights_spec.
Qed.

(** C9. Logging appends exactly one entry, the new workout, at the end of the
    log and rewrites the file with the whole log; the earlier entries stay
    as they were and in order. The report, plateau detection, consecutive
    weeks, fatigue estimate and personal records leave the tracker as it
    is. *)
Theorem log_is_append_only (now : datetime) (exs : list ExerciseEntry)
    (notes : option string) (exercise : option string) (period n : string)
    (s : Tracker) :
  (exists r,
     log_workout now exs notes s
     = (Some r,
        {| workouts := (workouts s
                        ++ [ {| date := now; exercises := Some exs;
                                notes := notes |} ])%list;
           workouts_file := Some (workouts s
                                  ++ [ {| date := now; exercises := Some exs;
                                          notes := notes |} ])%list |}))
  /\ snd (get_report now exercise period s) = s
  /\ snd (detect_plateau n s) = s
  /\ snd (get_consecutive_weeks s) = s
  /\ snd (estimate_fatigue now s) = s
  /\ snd (get_personal_records s) = s.
Proof.
  split; [|split; [|split; [|split; [|split]]]].
  - eexists. apply log_workout_run.
  - apply read_only_report.
  - apply read_only_plateau.
  - apply read_only_weeks.
  - apply read_only_fatigue.
  - apply read_only_records.
Qed.

Lemma data_points_app log1 log2 n :
  data_points (log1 ++ log2) n = (data_points log1 n ++ data_points log2 n)%list.
Proof. unfold data_points. apply flat_map_app. Qed.

(** When exactly one exercise of the new entry bears the name, the data
    point before the most recent one is the last data point that was in the
    log before the call. *)
Lemma previous_is_last_logged (log : list Workout) (now : datetime)
    (exs : list ExerciseEntry) (notes : option string) (ex : ExerciseEntry) :
  List.filter (same_exercise (entry_name ex)) exs = [ex] ->
  previous_point
    (data_points (log ++ [ {| date := now; exercises := Some exs; notes := notes |} ])
                 (entry_name ex))
  = last (data_points log (entry_name ex)).
Proof.
  intros Hone. rewrite data_points_app. unfold data_points at 2. simpl.
  rewrite Hone. simpl. unfold previous_point.
  rewrite rev_app_distr. simpl.
  rewrite <- (rev_involutive (data_points log (entry_name ex))) at 2.
  destruct (rev (data_points log (entry_name ex))) as [|p l]; simpl.
  - reflexivity.
  - now rewrite last_snoc.
Qed.

(** The examples of the specification: 185 after 180 is a PR, and ten
    repetitions after eight at the same weight a rep PR. *)
Example insights_examples :
  let s := __init__ (Some [session_on (evening 2024 3 4) [lift "Squat" 180 8]]) in
  (insights <$> fst (log_workout (evening 2024 3 6) [lift "Squat" 185 8] None s))
  = Some ["PR on Squat! 180 -> 185"]
  /\ (insights <$> fst (log_workout (evening 2024 3 6) [lift "squat" 180 10] None s))
     = Some ["Rep PR on squat! 8 -> 10 reps"]
  /\ (insights <$> fst (log_workout (evening 2024 3 6) [lift "Squat" 175 8] None s))
     = Some ["Solid workout! Keep pushing."].
Proof. vm_compute. repeat split. Qed.

(** With the same name twice in the new entry, the first of the two is its
    own data point before the most recent one: it is compared with itself
    and not with the 150 logged before. *)
Example insights_same_name_twice :
  let s := __init__ (Some [session_on (evening 2024 3 4) [lift "Squat" 150 5]]) in
  (insights <$> fst (log_workout (evening 2024 3 6)
                       [lift "Squat" 200 5; lift "Squat" 300 5] None s))
  = Some ["PR on Squat! 200 -> 300"].
Proof. vm_compute. reflexivity. Qed.

(** C7 (the source at a failing input). The log holds one workout with Squat
    at 100 for 5 repetitions; the new workout logs Squat at 110 for 5 twice,
    two sets entered as two exercises. The last data point of Squat logged
    before the call is at 100 and each new weight, 110, is strictly greater,
    so the PR message [PR on Squat! 100 -> 110] is due. The method returns
    the encouragement message alone: it reads the history after the whole
    workout was appended, where the data point before the most recent one is
    the first of the two new exercises, and compares both with 110. *)
Theorem insights_repeated_name :
  let s := __init__ (Some [session_on (evening 2024 3 4) [lift "Squat" 100 5]]) in
  let exs := [lift "Squat" 110 5; lift "Squat" 110 5] in
  let log := (workouts s ++ [session_on (evening 2024 3 6) exs])%list in
  (get_weight <$> (h_entry <$> last (data_points (workouts s) "Squat"))) = Some 100
  /\ Forall (fun ex => entry_name ex = "Squat" /\ get_weight ex > 100) exs
  /\ pr_message "Squat" 100 110 = "PR on Squat! 100 -> 110"
  /\ (insights <$> fst (log_workout (evening 2024 3 6) exs None s))
     = Some ["Solid workout! Keep pushing."]
  /\ (get_weight <$> (h_entry <$> previous_point (data_points log "Squat")))
     = Some 110.
Proof.
  vm_compute. split; [reflexivity|]. split; [repeat constructor|].
  repeat split.
Qed.


(** *** Plateau detection *)

Lemma py_max_is_max x xs : is_max (py_max x xs) (x :: xs).
Proof.
  unfold py_max. revert x. induction xs as [|y xs IH]; intros x; simpl.
  - split; [now left|]. intros z [<-|[]]. lia.
  - destruct (IH (if y >? x then y else x)) as [Hin Hle].
    split.
    + destruct Hin as [Hin|Hin]; [|now right; right].
      rewrite <- Hin. destruct (y >? x); [right; now left|now left].
    + intros z Hz.
      assert (Hm : (if y >? x then y else x)
                   <= fold_left (fun m y0 => if y0 >? m then y0 else m) xs
                                (if y >? x then y else x))
        by (apply Hle; now left).
      destruct Hz as [<-|[<-|Hz]].
      * destruct (Z.gtb_spec y x); lia.
      * destruct (Z.gtb_spec y x); lia.
      * apply Hle. now right.
Qed.

Lemma py_min_is_min x xs : is_min (py_min x xs) (x :: xs).
Proof.
  unfold py_min. revert x. induction xs as [|y xs IH]; intros x; simpl.
  - split; [now left|]. intros z [<-|[]]. lia.
  - destruct (IH (if y <? x then y else x)) as [Hin Hle].
    split.
    + destruct Hin as [Hin|Hin]; [|now right; right].
      rewrite <- Hin. destruct (y <? x); [right; now left|now left].
    + intros z Hz.
      assert (Hm : fold_left (fun m y0 => if y0 <? m then y0 else m) xs
                             (if y <? x then y else x)
                   <= (if y <? x then y else x))
        by (apply Hle; now left).
      destruct Hz as [<-|[<-|Hz]].
      * destruct (Z.ltb_spec y x); lia.
      * destruct (Z.ltb_spec y x); lia.
      * apply Hle. now right.
Qed.

(** C5. With fewer than four data points for the exercise the result only
    says that data is missing. With four or more, the weights analysed are
    those of the four most recent data points, the range is their maximum
    minus their minimum, the plateau is flagged exactly when the range is at
    most 5, and the result carries the six recommendations when flagged and
    the positive message otherwise. The tracker is left as it is. *)
Theorem detect_plateau_spec (exercise_name : string) (s : Tracker) :
  let points := data_points (workouts s) exercise_name in
  ((length points < 4)%nat ->
   detect_plateau exercise_name s
   = (Some {| plateau_detected := false;
              sessions_analyzed := None; weight_range := None;
              recent_weights := None; recommendations := None;
              message :=
                Some "Not enough data to detect plateau (need 4+ sessions)" |}, s))
  /\ ((4 <= length points)%nat ->
      exists r older recent hi lo,
        detect_plateau exercise_name s = (Some r, s)
        /\ points = (older ++ recent)%list /\ length recent = 4%nat
        /\ recent_weights r = Some (map (fun p => get_weight (h_entry p)) recent)
        /\ sessions_analyzed r = Some 4
        /\ is_max hi (map (fun p => get_weight (h_entry p)) recent)
        /\ is_min lo (map (fun p => get_weight (h_entry p)) recent)
        /\ weight_range r = Some (hi - lo)
        /\ (plateau_detected r = true <-> hi - lo <= 5)
        /\ (plateau_detected r = true ->
            recommendations r = Some plateau_recommendations /\ message r = None)
        /\ (plateau_detected r = false ->
            recommendations r = None
            /\ message r = Some "No plateau detected. Keep progressing!")).
Proof.
  intros points. split.
  - intros Hlt. unfold detect_plateau, mbind, T_bind.
    rewrite history_data_points. fold points.
    destruct (Nat.ltb_spec (length points) 4); [reflexivity|lia].
  - intros Hge. unfold detect_plateau, mbind, T_bind.
    rewrite history_data_points. fold points.
    destruct (Nat.ltb_spec (length points) 4); [lia|].
    set (recent := last_n 4 points).
    assert (Hlen : length recent = 4%nat).
    { unfold recent, last_n. rewrite length_drop. lia. }
    assert (Hsplit : points = (take (length points - 4) points ++ recent)%list).
    { unfold recent, last_n. now rewrite take_drop. }
    destruct (map (fun h0 => get_weight (h_entry h0)) recent) as [|w ws'] eqn:Ew.
    { apply (f_equal (@length Z)) in Ew. rewrite length_map, Hlen in Ew.
      discriminate. }
    eexists _, (take (length points - 4) points), recent, (py_max w ws'), (py_min w ws').
    split; [reflexivity|]. simpl.
    split; [exact Hsplit|]. split; [exact Hlen|].
    rewrite Ew. rewrite Hlen.
    split; [reflexivity|]. split; [reflexivity|].
    split; [apply py_max_is_max|]. split; [apply py_min_is_min|].
    split; [reflexivity|].
    split; [apply Z.leb_le|].
    split; intros ->; split; reflexivity.
Qed.

Lemma detect_plateau_spec_witness :
  (plateau_detected
     <$> fst (detect_plateau "squat"
                (__init__ (Some [session_on (evening 2024 3 1) [lift "Squat" 200 5]]))))
  = Some false
  /\ exists r,
       fst (detect_plateau "squat"
              (__init__ (Some [session_on (evening 2024 3 1) [lift "Squat" 200 5];
                               session_on (evening 2024 3 3) [lift "Squat" 202 5];
                               session_on (evening 2024 3 5) [lift "Squat" 198 5];
                               session_on (evening 2024 3 8) [lift "Squat" 201 5]])))
       = Some r
       /\ plateau_detected r = true
       /\ recommendations r = Some plateau_recommendations.
Proof.
  split.
  - destruct (detect_plateau_spec "squat"
                (__init__ (Some [session_on (evening 2024 3 1) [lift "Squat" 200 5]])))
      as [Hfew _].
    rewrite Hfew; [reflexivity|]. vm_compute. lia.
  - destruct (detect_plateau_spec "squat"
                (__init__ (Some [session_on (evening 2024 3 1) [lift "Squat" 200 5];
                                 session_on (evening 2024 3 3) [lift "Squat" 202 5];
                                 session_on (evening 2024 3 5) [lift "Squat" 198 5];
                                 session_on (evening 2024 3 8) [lift "Squat" 201 5]])))
      as [_ Hmany].
    destruct Hmany as (r & older & recent & hi & lo & Hrun & _ & _ & Hw & _ & _ & _
                       & Hrange & Hflag & Hrec & _).
    { vm_compute. lia. }
    exists r. split; [now rewrite Hrun|].
    assert (Hp : plateau_detected r = true).
    { apply (f_equal fst) in Hrun. vm_compute in Hrun.
      injection Hrun as <-. reflexivity. }
    split; [exact Hp|]. now apply Hrec.
Defined.

(** *** The exercise report *)

Lemma report_entries_loop exercise_name (log : list Workout) :
  fold_left
    (fun entries workout =>
       fold_left
         (fun entries ex =>
            if String.eqb (lower (entry_name ex)) (lower exercise_name)
            then (entries ++ [ {| r_date := date workout;
                                  r_weight := default 0 (weight ex);
                                  r_reps := default 0 (reps ex);
                                  r_sets := default 0 (sets ex) |} ])%list
            else entries)
         (default [] (exercises workout)) entries)
    log []
  = report_entries log exercise_name.
Proof.
  unfold report_entries.
  rewrite <- (app_nil_l (flat_map _ _)), <- fold_left_append.
  apply fold_left_ext. intros acc w.
  apply (collect_matching (same_exercise exercise_name)).
Qed.

Lemma filter_map_weights (entries : list ReportEntry) :
  List.filter (fun w => negb (w =? 0)) (map r_weight entries) = weight_series entries.
Proof.
  unfold weight_series. induction entries as [|e entries IH]; simpl; [reflexivity|].
  destruct (r_weight e =? 0); simpl; now rewrite IH.
Qed.

Lemma weight_series_no_zero entries : ~ In 0 (weight_series entries).
Proof.
  unfold weight_series. intros (e & He & [_ Hf]%filter_In)%in_map_iff.
  rewrite He in Hf. discriminate.
Qed.

(** C10. The report counts every matching entry in [total_sessions] and
    returns every one of them in [history], the entries of weight 0 (or
    without weight) included; starting, current and maximal weight, the
    weight gain and the trend are those of the weight series, from which the
    entries of weight 0 are left out. So an exercise logged only at weight 0
    reports 0 for the three weights and for the gain, with the trend
    [stable]. *)
Theorem exercise_report_skips_zero_weights (exercise_name : string)
    (log : list Workout) :
  let entries := report_entries log exercise_name in
  let series := weight_series entries in
  (entries = [] ->
   _get_exercise_report exercise_name log = ReportError "No data for this exercise")
  /\ (entries <> [] ->
      exists d,
        _get_exercise_report exercise_name log = ReportData d
        /\ total_sessions d = Z.of_nat (length entries)
        /\ history d = entries
        /\ ~ In 0 series
        /\ (forall w, In w series <->
                      exists e, In e entries /\ r_weight e = w /\ w <> 0)
        /\ (series = [] ->
            starting_weight d = 0 /\ current_weight d = 0 /\ max_weight d = 0
            /\ weight_gain d = 0 /\ trend d = "stable")
        /\ (series <> [] ->
            Some (starting_weight d) = head series
            /\ Some (current_weight d) = last series
            /\ is_max (max_weight d) series
            /\ weight_gain d
               = (if (2 <=? length series)%nat
                  then current_weight d - starting_weight d else 0)
            /\ trend d
               = (if (2 <=? length series)%nat
                     && (current_weight d >? starting_weight d)
                  then "improving" else "stable"))).
Proof.
  intros entries series. unfold _get_exercise_report.
  rewrite report_entries_loop, filter_map_weights. fold entries. fold series.
  assert (Hser : series = weight_series entries) by reflexivity.
  clearbody series. clearbody entries.
  split.
  - intros ->. reflexivity.
  - intros Hne. destruct entries as [|e0 entries0] eqn:Ee; [contradiction|].
    rewrite <- Ee in *. clear Ee e0 entries0.
    eexists. split; [reflexivity|]. simpl.
    split; [reflexivity|]. split; [reflexivity|].
    split; [rewrite Hser; apply weight_series_no_zero|]. split.
    { intros w. rewrite Hser. unfold weight_series. rewrite in_map_iff. split.
      - intros (e & <- & [Hin Hnz]%filter_In). exists e.
        split; [exact Hin|]. split; [reflexivity|].
        apply negb_true_iff, Z.eqb_neq in Hnz. exact Hnz.
      - intros (e & Hin & <- & Hnz). exists e. split; [reflexivity|].
        apply filter_In. split; [exact Hin|].
        now apply negb_true_iff, Z.eqb_neq. }
    clear Hser. split.
    + intros ->. simpl. repeat split.
    + intros Hs. destruct series as [|w ws']; [contradiction|].
      assert (Hlast : List.last (w :: ws') 0 = default 0 (last (w :: ws'))).
      { clear. revert w. induction ws' as [|x ws' IH]; intros w; [reflexivity|].
        change (List.last (w :: x :: ws') 0) with (List.last (x :: ws') 0).
        rewrite IH. reflexivity. }
      assert (Hsome : exists z, last (w :: ws') = Some z).
      { clear. revert w. induction ws' as [|x ws' IH]; intros w; [eauto|].
        destruct (IH x) as [z Hz]. exists z. exact Hz. }
      destruct Hsome as [z Hz].
      rewrite Hlast, Hz. simpl.
      split; [reflexivity|]. split; [reflexivity|].
      split; [apply py_max_is_max|]. split; reflexivity.
Qed.

Lemma exercise_report_skips_zero_weights_witness :
  exists d,
    _get_exercise_report "plank"
      [session_on (evening 2024 3 1) [lift "Plank" 0 60];
       session_on (evening 2024 3 3)
         [ {| exercise := None; name := Some "plank"; sets := None;
              reps := None; weight := None |} ]]
    = ReportData d
    /\ total_sessions d = 2
    /\ length (history d) = 2%nat
    /\ starting_weight d = 0 /\ current_weight d = 0 /\ max_weight d = 0
    /\ weight_gain d = 0 /\ trend d = "stable".
Proof.
  destruct (exercise_report_skips_zero_weights "plank"
              [session_on (evening 2024 3 1) [lift "Plank" 0 60];
               session_on (evening 2024 3 3)
                 [ {| exercise := None; name := Some "plank"; sets := None;
                      reps := None; weight := None |} ]])
    as [_ Hsome].
  destruct Hsome as (d & Hd & Htotal & Hhist & _ & _ & Hzero & _).
  { vm_compute. discriminate. }
  exists d. split; [exact Hd|]. split; [exact Htotal|].
  split; [rewrite Hhist; reflexivity|].
  apply Hzero. vm_compute. reflexivity.
Defined.

(** *** Consecutive weeks *)

(** C3 (the source at a failing input). Workouts on Monday 23 December 2024
    and Monday 30 December 2024 lie in the ISO weeks 2024-W52 and 2025-W01,
    two consecutive weeks. The source pairs the ISO week number with the
    calendar year of the date, so the second date becomes (2024, 1) and not
    (2025, 1), the pairs sort as (2024, 52), (2024, 1), and the streak
    stops at 1. With ISO years, as the specification words it, the count
    is 2. *)
Theorem consecutive_weeks_at_year_end :
  let log := [session_on (evening 2024 12 23) [lift "Squat" 200 5];
              session_on (evening 2024 12 30) [lift "Squat" 205 5]] in
  map (fun w => iso_week (date w)) log = [(2024, 52); (2025, 1)]
  /\ map (fun w => week_key (date w)) log = [(2024, 52); (2024, 1)]
  /\ fst (get_consecutive_weeks (__init__ (Some log))) = Some 1
  /\ consecutive_weeks_iso log = 2.
Proof. vm_compute. repeat split. Qed.

(** The examples of the specification, and the empty log. *)
Example consecutive_weeks_examples :
  fst (get_consecutive_weeks (__init__ None)) = Some 0
  /\ fst (get_consecutive_weeks
            (__init__ (Some [session_on (evening 2024 1 3) [];
                             session_on (evening 2024 1 10) []]))) = Some 2
  /\ fst (get_consecutive_weeks
            (__init__ (Some [session_on (evening 2023 12 28) [];
                             session_on (evening 2024 1 3) []]))) = Some 2
  /\ fst (get_consecutive_weeks
            (__init__ (Some [session_on (evening 2024 1 17) [];
                             session_on (evening 2024 1 31) []]))) = Some 1.
Proof. vm_compute. repeat split. Qed.

Lemma week_key_iso d : fst (iso_week d) = year d -> week_key d = iso_week d.
Proof.
  unfold week_key, iso_week.
  destruct (isocalendar d) as [[iy w] wd]; simpl. now intros ->.
Qed.

Lemma set_add_nonempty w weeks : set_add w weeks <> [].
Proof.
  unfold set_add. destruct weeks as [|x weeks]; simpl; [discriminate|].
  destruct (pair_eqb w x || existsb (pair_eqb w) weeks); discriminate.
Qed.

Lemma fold_set_add_nonempty (key : Workout -> Z * Z) log acc :
  acc <> [] -> fold_left (fun weeks w => set_add (key w) weeks) log acc <> [].
Proof.
  revert acc. induction log as [|w log IH]; intros acc Hacc; simpl; [exact Hacc|].
  apply IH, set_add_nonempty.
Qed.

Lemma sorted_nonempty {A} (leb : A -> A -> bool) (l : list A) :
  l <> [] -> sorted leb l <> [].
Proof.
  destruct l as [|x l]; [contradiction|]. intros _. simpl.
  destruct (sorted leb l) as [|y l']; simpl; [discriminate|].
  destruct (leb x y); discriminate.
Qed.

(** On a log whose dates all have their ISO year equal to their calendar
    year, the method computes the count the specification describes. *)
Lemma consecutive_weeks_within_iso_years (s : Tracker) :
  Forall (fun w => fst (iso_week (date w)) = year (date w)) (workouts s) ->
  get_consecutive_weeks s = (Some (consecutive_weeks_iso (workouts s)), s).
Proof.
  intros Hall. unfold get_consecutive_weeks, consecutive_weeks_iso,
    mbind, T_bind, self_workouts.
  assert (Hfold : forall acc,
            fold_left (fun weeks w => set_add (week_key (date w)) weeks)
                      (workouts s) acc
            = fold_left (fun weeks w => set_add (iso_week (date w)) weeks)
                        (workouts s) acc).
  { induction Hall as [|w log Hw _ IH]; intros acc; simpl; [reflexivity|].
    now rewrite week_key_iso, IH. }
  rewrite Hfold.
  destruct (workouts s) as [|w log] eqn:E; [reflexivity|].
  destruct (sorted pair_geb _) as [|first rest] eqn:Es; [|reflexivity].
  exfalso. revert Es. apply sorted_nonempty. simpl.
  apply fold_set_add_nonempty, set_add_nonempty.
Qed.

End TrackerProps.

(** * Further properties *)

(** ** Exercise reference *)

Module LibraryMore.
Import PyStr ExerciseLibrary Statements MoreStatements.

Lemma fuzzy_match_first normalized db r :
  fuzzy_match normalized db = Some r ->
  exists before key after,
    db = (before ++ (key, r) :: after)%list
    /\ related normalized key = true
    /\ Forall (fun p => related normalized (fst p) = false) before.
Proof.
  induction db as [|[k v] db IH]; simpl; [discriminate|].
  fold (related normalized k).
  destruct (related normalized k) eqn:E.
  - intros [= ->]. exists [], k, db. repeat split; auto.
  - intros (before & key & after & -> & Hrel & Hall)%IH.
    exists ((k, v) :: before), key, after. repeat split; auto.
Qed.

Lemma fuzzy_match_none normalized db :
  fuzzy_match normalized db = None ->
  Forall (fun p => related normalized (fst p) = false) db.
Proof.
  induction db as [|[k v] db IH]; simpl; [constructor|].
  fold (related normalized k).
  destruct (related normalized k) eqn:E; [discriminate|].
  intros H. constructor; auto.
Qed.

Lemma dict_get_none {A} k (d : list (string * A)) :
  dict_get k d = None -> Forall (fun p => fst p <> k) d.
Proof.
  induction d as [|[k' v] d IH]; simpl; [constructor|].
  destruct (String.eqb_spec k k') as [->|Hne]; [discriminate|].
  intros H. constructor; auto.
Qed.

(** X1. What a lookup returns, for any table. A record found is either the
    record stored under the normalized name or, when the normalized name is
    no key, the record of the first entry in table order whose key contains
    the normalized name or is contained in it. The error dict is returned
    only when no key equals the normalized name and none is in that
    substring relation with it, and it carries the name as typed. *)
Theorem get_exercise_characterised
    (db : list (string * ExerciseRecord)) (name : string) :
  match get_exercise_in db name with
  | Found r =>
      dict_get (normalize name) db = Some r
      \/ (Forall (fun p => fst p <> normalize name) db
          /\ exists before key after,
               db = (before ++ (key, r) :: after)%list
               /\ related (normalize name) key = true
               /\ Forall (fun p => related (normalize name) (fst p) = false) before)
  | ErrorDict msg =>
      msg = not_found_message name
      /\ Forall (fun p => fst p <> normalize name
                          /\ related (normalize name) (fst p) = false) db
  end.
Proof.
  unfold get_exercise_in.
  destruct (dict_get (normalize name) db) as [r|] eqn:Ed; [now left|].
  apply dict_get_none in Ed.
  destruct (fuzzy_match (normalize name) db) as [r|] eqn:Ef.
  - right. split; [exact Ed|]. now apply fuzzy_match_first.
  - split; [reflexivity|]. apply fuzzy_match_none in Ef.
    rewrite Forall_forall in *. intros p Hp. split; auto.
Qed.

(** X2. The exercises for a muscle, for any spelling of the muscle in upper
    or lower case: a pair of name and type is returned exactly when it comes
    from a record of the table that lists the muscle, compared
    case-insensitively, among its primary muscles. *)
Theorem exercises_by_muscle_characterised (muscle : string) (hit : MuscleHit) :
  In hit (get_exercises_by_muscle muscle)
  <-> exists key r,
        In (key, r) exercises
        /\ hit = {| hit_name := name r; hit_type := type r |}
        /\ exists m, In m (primary_muscles r) /\ lower m = lower muscle.
Proof.
  unfold get_exercises_by_muscle. rewrite in_flat_map. split.
  - intros ([key r] & Hin & Hhit).
    destruct (existsb _ _) eqn:E; [|destruct Hhit].
    destruct Hhit as [<-|[]].
    apply existsb_exists in E as (lm & (m & <- & Hm)%in_map_iff & Heq).
    apply String.eqb_eq in Heq.
    exists key, r. split; [exact Hin|]. split; [reflexivity|]. eauto.
  - intros (key & r & Hin & -> & m & Hm & Heq).
    exists (key, r). split; [exact Hin|].
    assert (E : existsb (String.eqb (lower muscle)) (map lower (primary_muscles r)) = true).
    { apply existsb_exists. exists (lower m). split.
      - apply in_map_iff. eauto.
      - apply String.eqb_eq. now symmetry. }
    rewrite E. now left.
Qed.

End LibraryMore.

(** ** Progress tracker *)

Module TrackerMore.
Import PyStr Datetime ProgressTracker Statements MoreStatements TrackerProps.

(** X3. After a workout is logged, the file holds the whole log, and a
    tracker started from that file is the tracker as it stands: nothing of
    the log is lost or reordered by saving and loading. This holds from
    every state, also one whose file was missing or out of date. *)
Theorem log_then_reload (now : datetime) (exs : list ExerciseEntry)
    (notes : option string) (s : Tracker) :
  let s' := snd (log_workout now exs notes s) in
  workouts_file s' = Some (workouts s')
  /\ __init__ (workouts_file s') = s'
  /\ length (workouts s') = S (length (workouts s)).
Proof.
  intros s'. unfold s'. rewrite log_workout_run. simpl.
  split; [reflexivity|]. split; [reflexivity|].
  rewrite length_app. simpl. lia.
Qed.

Lemma concat_length_le {A} (ls : list (list A)) :
  Forall (fun l => (length l <= 1)%nat) ls -> (length (concat ls) <= length ls)%nat.
Proof.
  induction 1 as [|l ls Hl _ IH]; simpl; [lia|]. rewrite length_app. lia.
Qed.

(** X4. The answer to a logged workout: its number is the length of the log
    with the new entry, it counts the exercises given, and its insights are
    never empty and never more than one per exercise (one in all for an
    entry without exercises). *)
Theorem log_workout_answer (now : datetime) (exs : list ExerciseEntry)
    (notes : option string) (s : Tracker) :
  exists r,
    fst (log_workout now exs notes s) = Some r
    /\ status r = "logged"
    /\ workout_number r = Z.of_nat (length (workouts s)) + 1
    /\ exercises_logged r = Z.of_nat (length exs)
    /\ insights r <> []
    /\ (length (insights r) <= Nat.max 1 (length exs))%nat.
Proof.
  rewrite log_workout_run. simpl. eexists. split; [reflexivity|]. simpl.
  split; [reflexivity|]. split; [rewrite length_app; simpl; lia|].
  split; [reflexivity|].
  set (log := (workouts s ++ _)%list).
  set (per := map _ exs).
  assert (Hper : (length (concat per) <= length exs)%nat).
  { rewrite <- (length_map (fun ex => exercise_insights ex
                                        (data_points log (entry_name ex))) exs).
    apply concat_length_le. apply Forall_forall.
    intros l (ex & <- & _)%list_elem_of_In%in_map_iff.
    pose proof (exercise_insights_spec ex (data_points log (entry_name ex))) as H.
    destruct (previous_point _); [apply H|rewrite H; simpl; lia]. }
  destruct (concat per) as [|m ms]; simpl in *; split; try discriminate; lia.
Qed.

(** X5. The history of an exercise does not depend on the case of the name
    asked for: two names that agree once lowercased get the same plateau
    analysis and the same exercise report. *)
Theorem history_ignores_case (n1 n2 : string) (s : Tracker) :
  lower n1 = lower n2 ->
  _get_exercise_history n1 s = _get_exercise_history n2 s
  /\ detect_plateau n1 s = detect_plateau n2 s
  /\ _get_exercise_report n1 (workouts s) = _get_exercise_report n2 (workouts s).
Proof.
  intros Heq.
  assert (Hh : _get_exercise_history n1 s = _get_exercise_history n2 s).
  { unfold _get_exercise_history, mbind, T_bind. simpl. now rewrite Heq. }
  split; [exact Hh|]. split.
  - unfold detect_plateau, mbind, T_bind. now rewrite Hh.
  - unfold _get_exercise_report. now rewrite Heq.
Qed.

Lemma history_ignores_case_witness :
  detect_plateau "SQUAT" (__init__ (Some [session_on (evening 2024 3 1)
                                            [lift "Squat" 200 5]]))
  = detect_plateau "squat" (__init__ (Some [session_on (evening 2024 3 1)
                                              [lift "Squat" 200 5]])).
Proof.
  apply (history_ignores_case "SQUAT" "squat"). reflexivity.
Defined.

Lemma last_default_In (d : Z) (l : list Z) : l <> [] -> In (List.last l d) l.
Proof.
  induction l as [|x l IH]; [contradiction|]. intros _.
  destruct l as [|y l]; [now left|].
  right. apply IH. discriminate.
Qed.

(** X6. In every exercise report with data, the figures agree with each
    other: the weight gain is the current weight minus the starting weight,
    the trend is [improving] exactly when the gain is positive and [stable]
    otherwise, the maximal weight is at least the starting and the current
    weight, and [total_sessions] is the length of the history, at least 1. *)
Theorem exercise_report_consistent (exercise_name : string) (log : list Workout)
    (d : ExerciseData) :
  _get_exercise_report exercise_name log = ReportData d ->
  weight_gain d = current_weight d - starting_weight d
  /\ (trend d = "improving" <-> weight_gain d > 0)
  /\ (trend d = "improving" \/ trend d = "stable")
  /\ starting_weight d <= max_weight d
  /\ current_weight d <= max_weight d
  /\ total_sessions d = Z.of_nat (length (history d))
  /\ 1 <= total_sessions d.
Proof.
  unfold _get_exercise_report. rewrite report_entries_loop, filter_map_weights.
  destruct (report_entries log exercise_name) as [|e entries] eqn:Ee; [discriminate|].
  rewrite <- Ee. intros [= <-]. simpl.
  assert (Hlen : 1 <= Z.of_nat (length (report_entries log exercise_name)))
    by (rewrite Ee; simpl; lia).
  destruct (weight_series (report_entries log exercise_name)) as [|w ws] eqn:Es.
  - simpl. split; [reflexivity|]. split; [split; [discriminate|lia]|].
    split; [now right|]. repeat (split; [lia|]). exact Hlen.
  - destruct (py_max_is_max w ws) as [_ Hmax].
    pose proof (Hmax w (or_introl eq_refl)) as Hw.
    pose proof (Hmax _ (last_default_In 0 (w :: ws) ltac:(discriminate))) as Hl.
    destruct ws as [|w2 ws].
    + simpl in *. split; [lia|]. split; [split; [discriminate|lia]|].
      split; [now right|]. repeat (split; [lia|]). exact Hlen.
    + change (length (w :: w2 :: ws)) with (S (S (length ws))).
      change (2 <=? S (S (length ws)))%nat with true.
      cbv beta iota. change (hd 0 (w :: w2 :: ws)) with w.
      rewrite ?andb_true_l.
      split; [reflexivity|].
      destruct (Z.gtb_spec (List.last (w :: w2 :: ws) 0) w) as [Hgt|Hle].
      * split; [split; [lia|reflexivity]|].
        split; [now left|]. repeat (split; [lia|]). exact Hlen.
      * split; [split; [discriminate|lia]|].
        split; [now right|]. repeat (split; [lia|]). exact Hlen.
Qed.

Lemma exercise_report_consistent_witness :
  exists d,
    _get_exercise_report "squat"
      [session_on (evening 2024 3 1) [lift "Squat" 200 5];
       session_on (evening 2024 3 3) [lift "Squat" 0 5];
       session_on (evening 2024 3 5) [lift "Squat" 210 5]] = ReportData d
    /\ weight_gain d = current_weight d - starting_weight d
    /\ (trend d = "improving" <-> weight_gain d > 0).
Proof.
  eexists. split; [vm_compute; reflexivity|].
  match goal with
  | |- context [weight_gain ?d] =>
      destruct (exercise_report_consistent "squat"
                  [session_on (evening 2024 3 1) [lift "Squat" 200 5];
                   session_on (evening 2024 3 3) [lift "Squat" 0 5];
                   session_on (evening 2024 3 5) [lift "Squat" 210 5]] d)
        as (Hg & Ht & _)
  end.
  - vm_compute. reflexivity.
  - split; assumption.
Defined.

Lemma count_consecutive_bounds prev rest c :
  c <= count_consecutive prev rest c <= c + Z.of_nat (length rest).
Proof.
  revert prev c. induction rest as [|curr rest IH]; intros [py pw] c; simpl; [lia|].
  destruct curr as [cy cw].
  destruct ((py =? cy) && (pw - cw =? 1)).
  - specialize (IH (cy, cw) (c + 1)). lia.
  - destruct ((py - cy =? 1) && (pw =? 1) && (cw >=? 51)).
    + specialize (IH (cy, cw) (c + 1)). lia.
    + lia.
Qed.

Lemma insert_sorted_length {A} (leb : A -> A -> bool) x l :
  length (insert_sorted leb x l) = S (length l).
Proof.
  induction l as [|y l IH]; simpl; [reflexivity|].
  destruct (leb x y); simpl; [reflexivity|now rewrite IH].
Qed.

Lemma sorted_length {A} (leb : A -> A -> bool) l : length (sorted leb l) = length l.
Proof.
  unfold sorted. induction l as [|x l IH]; simpl; [reflexivity|].
  now rewrite insert_sorted_length, IH.
Qed.

Lemma week_set_length (key : Workout -> Z * Z) log acc :
  (length (fold_left (fun weeks w => set_add (key w) weeks) log acc)
   <= length acc + length log)%nat.
Proof.
  revert acc. induction log as [|w log IH]; intros acc; simpl; [lia|].
  specialize (IH (set_add (key w) acc)).
  assert (length (set_add (key w) acc) <= S (length acc))%nat.
  { unfold set_add. destruct (existsb _ _); [lia|]. rewrite length_app. simpl. lia. }
  lia.
Qed.

(** X7. The count of consecutive weeks always comes back, is 0 exactly for
    the empty log, and otherwise lies between 1 and the number of
    workouts. *)
Theorem consecutive_weeks_bounds (s : Tracker) :
  exists n,
    get_consecutive_weeks s = (Some n, s)
    /\ 0 <= n <= Z.of_nat (length (workouts s))
    /\ (n = 0 <-> workouts s = [])
    /\ (workouts s <> [] -> 1 <= n).
Proof.
  unfold get_consecutive_weeks, mbind, T_bind, self_workouts.
  destruct (workouts s) as [|w log] eqn:E.
  - exists 0. split; [reflexivity|]. simpl. repeat split; try lia; auto.
    intros H. now destruct H.
  - set (weeks := fold_left _ (w :: log) []).
    assert (Hlen : (length weeks <= S (length log))%nat)
      by exact (week_set_length (fun w => week_key (date w)) (w :: log) []).
    pose proof (sorted_length pair_geb weeks) as Hs.
    destruct (sorted pair_geb weeks) as [|first rest] eqn:Es.
    + exists 1. split; [reflexivity|]. simpl length.
      split; [lia|]. split; [split; [lia|discriminate]|lia].
    + exists (count_consecutive first rest 1). split; [reflexivity|].
      pose proof (count_consecutive_bounds first rest 1) as Hb.
      simpl in Hs. simpl length.
      split; [lia|]. split; [split; [lia|discriminate]|lia].
Qed.

Lemma consecutive_weeks_bounds_witness :
  exists n,
    get_consecutive_weeks (__init__ (Some [session_on (evening 2024 1 3) [];
                                          session_on (evening 2024 1 10) []]))
    = (Some n, __init__ (Some [session_on (evening 2024 1 3) [];
                               session_on (evening 2024 1 10) []]))
    /\ 1 <= n <= 2.
Proof.
  destruct (consecutive_weeks_bounds
              (__init__ (Some [session_on (evening 2024 1 3) [];
                               session_on (evening 2024 1 10) []])))
    as (n & Hrun & Hb & _ & Hpos).
  exists n. split; [exact Hrun|]. split; [apply Hpos; discriminate|].
  simpl in Hb. lia.
Defined.

(** *** Personal records *)

Lemma dict_get_set_eq {A} k (v : A) d : dict_get k (dict_set k v d) = Some v.
Proof.
  induction d as [|[k' v'] d IH]; simpl.
  - now rewrite String.eqb_refl.
  - destruct (String.eqb_spec k k') as [->|Hne]; simpl.
    + now rewrite String.eqb_refl.
    + destruct (String.eqb_spec k k'); [contradiction|exact IH].
Qed.

Lemma dict_get_set_ne {A} k k' (v : A) d :
  k <> k' -> dict_get k' (dict_set k v d) = dict_get k' d.
Proof.
  intros Hne. induction d as [|[k2 v2] d IH]; simpl.
  - destruct (String.eqb_spec k' k); [congruence|reflexivity].
  - destruct (String.eqb_spec k k2) as [->|Hne2]; simpl.
    + destruct (String.eqb_spec k' k2); [congruence|reflexivity].
    + destruct (String.eqb_spec k' k2); [reflexivity|exact IH].
Qed.

Lemma dict_set_keys {A} k (v : A) d :
  map fst (dict_set k v d)
  = (if existsb (String.eqb k) (map fst d) then map fst d
     else map fst d ++ [k])%list.
Proof.
  induction d as [|[k' v'] d IH]; simpl; [reflexivity|].
  destruct (String.eqb_spec k k') as [->|Hne]; simpl; [reflexivity|].
  rewrite IH. now destruct (existsb _ _).
Qed.

Lemma dict_set_NoDup {A} k (v : A) d :
  NoDup (map fst d) -> NoDup (map fst (dict_set k v d)).
Proof.
  intros Hnd. rewrite dict_set_keys.
  destruct (existsb (String.eqb k) (map fst d)) eqn:E; [exact Hnd|].
  apply NoDup_app. split; [exact Hnd|]. split; [|apply NoDup_singleton].
  intros x Hx ->%list_elem_of_singleton.
  assert (existsb (String.eqb k) (map fst d) = true); [|congruence].
  apply existsb_exists. exists k. split; [now apply list_elem_of_In|].
  apply String.eqb_refl.
Qed.

Lemma nested_loop_flat {B} (f : B -> ExerciseEntry * datetime -> B)
    (log : list Workout) (b : B) :
  fold_left
    (fun acc w =>
       fold_left (fun acc ex => f acc (ex, date w)) (default [] (exercises w)) acc)
    log b
  = fold_left f (logged log) b.
Proof.
  revert b. unfold logged. induction log as [|w log IH]; intros b; simpl; [reflexivity|].
  rewrite fold_left_app, <- IH. f_equal.
  generalize (default [] (exercises w)). intros exs. revert b.
  induction exs as [|ex exs IHe]; intros b; simpl; [reflexivity|]. apply IHe.
Qed.

Lemma records_flat (s : Tracker) :
  get_personal_records s
  = (Some (fold_left record_step (logged (workouts s)) []), s).
Proof.
  unfold get_personal_records, mbind, T_bind, self_workouts, mret, T_ret.
  f_equal. f_equal.
  exact (nested_loop_flat record_step (workouts s) []).
Qed.

Lemma record_step_spec (l : list (ExerciseEntry * datetime))
    (records : list (string * PersonalRecord)) (p : ExerciseEntry * datetime) :
  (forall n, is_record n l (dict_get n records)) ->
  forall n, is_record n (l ++ [p]) (dict_get n (record_step records p)).
Proof.
  intros Hinv n. destruct p as [ex d]. unfold record_step. simpl fst. simpl snd.
  destruct (String.eqb_spec (entry_name ex) n) as [Heq|Hne].
  - (* the new exercise bears the name *)
    subst n. specialize (Hinv (entry_name ex)).
    destruct (dict_get (entry_name ex) records) as [r|] eqn:Er.
    + destruct Hinv as (before & ex0 & d0 & after & -> & Hn0 & -> & Hb & Ha).
      simpl pr_weight.
      destruct (Z.gtb_spec (get_weight ex) (get_weight ex0)) as [Hgt|Hle].
      * rewrite dict_get_set_eq.
        exists (before ++ (ex0, d0) :: after)%list, ex, d, [].
        split; [reflexivity|]. split; [reflexivity|]. split; [reflexivity|].
        split; [|intros p []].
        intros p [Hp|[<-|Hp]]%in_app_or Hname; simpl.
        -- specialize (Hb p Hp Hname). lia.
        -- simpl. lia.
        -- specialize (Ha p Hp Hname). lia.
      * rewrite Er.
        exists before, ex0, d0, (after ++ [(ex, d)])%list.
        split; [now rewrite <- app_assoc|]. split; [exact Hn0|].
        split; [reflexivity|]. split; [exact Hb|].
        intros p [Hp|[<-|[]]]%in_app_or Hname; [now apply Ha|simpl; lia].
    + rewrite dict_get_set_eq.
      exists l, ex, d, []. split; [reflexivity|]. split; [reflexivity|].
      split; [reflexivity|]. split; [|intros p []].
      intros p Hp Hname. now destruct (Hinv p Hp).
  - (* another name *)
    assert (Hsame : dict_get n
                      (if match dict_get (entry_name ex) records with
                          | Some r => get_weight ex >? pr_weight r
                          | None => true
                          end
                       then dict_set (entry_name ex)
                              {| pr_weight := get_weight ex; pr_reps := get_reps ex;
                                 pr_date := d |} records
                       else records)
                    = dict_get n records).
    { destruct (match dict_get (entry_name ex) records with
                | Some r => get_weight ex >? pr_weight r
                | None => true
                end); [now apply dict_get_set_ne|reflexivity]. }
    rewrite Hsame. specialize (Hinv n).
    destruct (dict_get n records) as [r|].
    + destruct Hinv as (before & ex0 & d0 & after & -> & Hn0 & -> & Hb & Ha).
      exists before, ex0, d0, (after ++ [(ex, d)])%list.
      split; [now rewrite <- app_assoc|]. split; [exact Hn0|].
      split; [reflexivity|]. split; [exact Hb|].
      intros p [Hp|[<-|[]]]%in_app_or Hname; [now apply Ha|].
      simpl in Hname. contradiction.
    + intros p [Hp|[<-|[]]]%in_app_or; [now apply Hinv|exact Hne].
Qed.

Lemma record_step_NoDup records p :
  NoDup (map fst records) -> NoDup (map fst (record_step records p)).
Proof.
  intros H. unfold record_step.
  destruct (match dict_get _ records with Some r => _ | None => true end);
    [now apply dict_set_NoDup|exact H].
Qed.

(** X8. The personal records hold, for every name, the figures of the first
    logged exercise of exactly that name (names are compared as written)
    whose weight no other exercise of that name exceeds: weight, repetitions
    and date of that exercise, with the weight defaulting to 0. A name that
    was never logged has no record, and no name has two. The tracker is left
    as it is. *)
Theorem personal_records_spec (s : Tracker) :
  exists records,
    get_personal_records s = (Some records, s)
    /\ NoDup (map fst records)
    /\ forall n, is_record n (logged (workouts s)) (dict_get n records).
Proof.
  rewrite records_flat. eexists. split; [reflexivity|].
  generalize (logged (workouts s)). intros l.
  induction l as [|p l IH] using rev_ind.
  - simpl. split; [constructor|]. intros n p [].
  - rewrite fold_left_app. simpl. destruct IH as [Hnd Hrec]. split.
    + now apply record_step_NoDup.
    + now apply record_step_spec.
Qed.

(** *** Overall summary *)

Lemma count_up_get n m (counts : list (string * Z)) :
  dict_get n (count_up m counts)
  = if String.eqb n m then Some (default 0 (dict_get m counts) + 1)
    else dict_get n counts.
Proof.
  induction counts as [|[k c] counts IH]; simpl.
  - destruct (String.eqb n m); reflexivity.
  - destruct (String.eqb_spec m k) as [->|Hmk]; simpl.
    + destruct (String.eqb_spec n k); reflexivity.
    + rewrite IH. destruct (String.eqb_spec n k) as [->|Hnk].
      * destruct (String.eqb_spec k m); [congruence|reflexivity].
      * reflexivity.
Qed.

Lemma count_up_keys m (counts : list (string * Z)) :
  map fst (count_up m counts)
  = (if existsb (String.eqb m) (map fst counts) then map fst counts
     else map fst counts ++ [m])%list.
Proof.
  induction counts as [|[k c] counts IH]; simpl; [reflexivity|].
  destruct (String.eqb_spec m k) as [->|Hne]; simpl; [reflexivity|].
  rewrite IH. now destruct (existsb _ _).
Qed.

Lemma count_up_NoDup m (counts : list (string * Z)) :
  NoDup (map fst counts) -> NoDup (map fst (count_up m counts)).
Proof.
  intros Hnd. rewrite count_up_keys.
  destruct (existsb (String.eqb m) (map fst counts)) eqn:E; [exact Hnd|].
  apply NoDup_app. split; [exact Hnd|]. split; [|apply NoDup_singleton].
  intros x Hx ->%list_elem_of_singleton.
  assert (existsb (String.eqb m) (map fst counts) = true); [|congruence].
  apply existsb_exists. exists m. split; [now apply list_elem_of_In|].
  apply String.eqb_refl.
Qed.

Lemma count_names_spec (l : list (ExerciseEntry * datetime)) (n : string) :
  NoDup (map fst (count_names l))
  /\ dict_get n (count_names l)
     = (let k := Z.of_nat (length (List.filter
                                     (fun p => String.eqb (entry_name (fst p)) n) l)) in
        if k =? 0 then None else Some k).
Proof.
  unfold count_names. induction l as [|p l [Hnd IH]] using rev_ind.
  - split; [constructor|reflexivity].
  - rewrite fold_left_app. simpl. split; [now apply count_up_NoDup|].
    rewrite count_up_get, List.filter_app, length_app. simpl.
    rewrite (String.eqb_sym n).
    destruct (String.eqb_spec (entry_name (fst p)) n) as [Heq|Hne].
    + rewrite Heq, IH. cbv zeta. simpl length.
      generalize (length (List.filter
                            (fun p0 => String.eqb (entry_name (fst p0)) n) l)).
      intros k.
      destruct (Z.eqb_spec (Z.of_nat k) 0), (Z.eqb_spec (Z.of_nat (k + 1)) 0);
        try lia; simpl; f_equal; lia.
    + rewrite IH. simpl length. now rewrite Nat.add_0_r.
Qed.

Lemma dict_get_of_In {A} n (v : A) (d : list (string * A)) :
  NoDup (map fst d) -> In (n, v) d -> dict_get n d = Some v.
Proof.
  induction d as [|[k c] d IH]; simpl; [intros _ []|].
  intros Hnd%NoDup_cons [[= -> ->]|Hin].
  - now rewrite String.eqb_refl.
  - destruct Hnd as [Hk Hnd].
    destruct (String.eqb_spec n k) as [->|Hne]; [|auto].
    exfalso. apply Hk. apply list_elem_of_In, in_map_iff. now exists (k, v).
Qed.

Section InsertionSort.
Context {A : Type} (leb : A -> A -> bool).
Hypothesis leb_total : forall a b, leb a b = true \/ leb b a = true.
Hypothesis leb_trans : forall a b c, leb a b = true -> leb b c = true -> leb a c = true.

Lemma insert_sorted_perm x l : insert_sorted leb x l ≡ₚ x :: l.
Proof.
  induction l as [|y l IH]; simpl; [reflexivity|].
  destruct (leb x y); [reflexivity|]. rewrite IH. apply Permutation_swap.
Qed.

Lemma sorted_perm l : sorted leb l ≡ₚ l.
Proof.
  unfold sorted. induction l as [|x l IH]; simpl; [reflexivity|].
  now rewrite insert_sorted_perm, IH.
Qed.

Lemma insert_sorted_sorted x l :
  StronglySorted (fun a b => leb a b = true) l ->
  StronglySorted (fun a b => leb a b = true) (insert_sorted leb x l).
Proof.
  induction l as [|y l IH]; simpl; intros Hs.
  - constructor; constructor.
  - apply StronglySorted_inv in Hs as [Hl Hy].
    destruct (leb x y) eqn:E.
    + constructor; [now constructor|]. constructor; [exact E|].
      eapply List.Forall_impl; [|exact Hy]. intros z. now apply leb_trans.
    + constructor; [now apply IH|].
      assert (Hyx : leb y x = true) by (destruct (leb_total x y); congruence).
      apply List.Forall_forall. intros z Hz.
      apply (Permutation_in _ (insert_sorted_perm x l)) in Hz as [<-|Hz]; [exact Hyx|].
      rewrite List.Forall_forall in Hy. now apply Hy.
Qed.

Lemma sorted_sorted l : StronglySorted (fun a b => leb a b = true) (sorted leb l).
Proof.
  unfold sorted. induction l as [|x l IH]; simpl; [constructor|].
  now apply insert_sorted_sorted.
Qed.

Lemma sorted_take_drop n l a b :
  In a (take n (sorted leb l)) -> In b (drop n (sorted leb l)) -> leb a b = true.
Proof.
  pose proof (sorted_sorted l) as Hs. revert Hs.
  generalize (sorted leb l). intros s. revert n.
  induction s as [|x s IH]; intros [|n] Hs; simpl; try contradiction.
  apply StronglySorted_inv in Hs as [Hs Hx].
  intros [<-|Ha] Hb.
  - rewrite List.Forall_forall in Hx. apply Hx.
    apply list_elem_of_In, (subseteq_drop n s), list_elem_of_In. exact Hb.
  - eauto.
Qed.

Lemma take_sorted n l :
  StronglySorted (fun a b => leb a b = true) l ->
  StronglySorted (fun a b => leb a b = true) (take n l).
Proof.
  intros Hs. revert n. induction Hs as [|x l Hs IH Hx]; intros [|n]; simpl;
    try constructor; auto.
  apply List.Forall_forall. intros z Hz. rewrite List.Forall_forall in Hx.
  apply Hx. apply list_elem_of_In, (subseteq_take n l), list_elem_of_In. exact Hz.
Qed.
End InsertionSort.

Lemma summary_counts (ws : list Workout) :
  fold_left
    (fun counts workout =>
       fold_left (fun counts ex => count_up (entry_name ex) counts)
                 (default [] (exercises workout)) counts)
    ws []
  = count_names (logged ws).
Proof.
  exact (nested_loop_flat (fun counts p => count_up (entry_name (fst p)) counts) ws []).
Qed.

Lemma count_names_In (l : list (ExerciseEntry * datetime)) n c :
  In (n, c) (count_names l)
  <-> c = Z.of_nat (length (List.filter
                              (fun p => String.eqb (entry_name (fst p)) n) l))
      /\ 1 <= c.
Proof.
  destruct (count_names_spec l n) as [Hnd Hget]. cbv zeta in Hget. split.
  - intros Hin. apply (dict_get_of_In _ _ _ Hnd) in Hin. rewrite Hin in Hget.
    destruct (Z.eqb_spec (Z.of_nat (length (List.filter
                (fun p => String.eqb (entry_name (fst p)) n) l))) 0);
      [discriminate|].
    injection Hget as ->. lia.
  - intros [-> Hpos]. apply LibraryProps.dict_get_In. rewrite Hget.
    destruct (Z.eqb_spec (Z.of_nat (length (List.filter
                (fun p => String.eqb (entry_name (fst p)) n) l))) 0);
      [lia|reflexivity].
Qed.

(** X9. The overall summary of a non-empty list of workouts:
    [workouts_completed] is their number and [unique_exercises] the number of
    distinct exercise names, compared as written. [most_frequent] lists at
    most five names, each once and with the number of times it was logged,
    in descending order of that number, and no name left out was logged more
    often than a name listed. The empty list only gets the message that
    there are no workouts. *)
Theorem overall_summary_spec (ws : list Workout) :
  (ws = [] -> _get_overall_summary ws = SummaryMessage "No workouts in this period")
  /\ (ws <> [] ->
      exists d names,
        _get_overall_summary ws = SummaryOf d
        /\ workouts_completed d = Z.of_nat (length ws)
        /\ NoDup names
        /\ (forall n, In n names <-> 1 <= times_logged n ws)
        /\ unique_exercises d = Z.of_nat (length names)
        /\ length (most_frequent d) = Nat.min 5 (length names)
        /\ NoDup (map fst (most_frequent d))
        /\ StronglySorted (fun a b => snd b <= snd a) (most_frequent d)
        /\ (forall n c, In (n, c) (most_frequent d) ->
              c = times_logged n ws /\ 1 <= c)
        /\ (forall n c n', In (n, c) (most_frequent d) ->
              ~ In n' (map fst (most_frequent d)) -> times_logged n' ws <= c)).
Proof.
  split; [intros ->; reflexivity|].
  intros Hne. unfold _get_overall_summary.
  destruct ws as [|w0 ws0] eqn:Ews; [contradiction|]. rewrite <- Ews in *.
  clear Ews Hne w0 ws0.
  rewrite summary_counts.
  set (counts := count_names (logged ws)).
  set (leb := fun a b : string * Z => snd b <=? snd a).
  assert (Htotal : forall a b, leb a b = true \/ leb b a = true).
  { intros a b. unfold leb. destruct (Z.leb_spec (snd b) (snd a)); [now left|].
    right. apply Z.leb_le. lia. }
  assert (Htrans : forall a b c, leb a b = true -> leb b c = true -> leb a c = true).
  { unfold leb. intros a b c H1%Z.leb_le H2%Z.leb_le. apply Z.leb_le. lia. }
  destruct (count_names_spec (logged ws) EmptyString) as [Hnd _]. fold counts in Hnd.
  assert (Hperm : sorted leb counts ≡ₚ counts) by apply sorted_perm.
  assert (Hnds : NoDup (map fst (sorted leb counts))).
  { assert (Hp : map fst (sorted leb counts) ≡ₚ map fst counts)
      by (apply Permutation_map; exact Hperm).
    rewrite Hp. exact Hnd. }
  eexists _, (map fst counts). split; [reflexivity|]. simpl.
  split; [reflexivity|]. split; [exact Hnd|]. split.
  { intros n. unfold times_logged. rewrite in_map_iff. split.
    - intros ([n' c] & <- & Hin). simpl. apply count_names_In in Hin. lia.
    - intros Hpos. eexists (n, _). split; [reflexivity|].
      apply count_names_In. split; [reflexivity|exact Hpos]. }
  split; [now rewrite length_map|]. split.
  { rewrite length_take, sorted_length, length_map. reflexivity. }
  split.
  { eapply sublist_NoDup; [exact Hnds|].
    rewrite <- firstn_map. apply sublist_take. }
  split.
  { assert (Hs : StronglySorted (fun a b => leb a b = true) (take 5 (sorted leb counts)))
      by (apply take_sorted, sorted_sorted; assumption).
    clear -Hs. induction Hs as [|x l Hs IH Hx]; constructor; [exact IH|].
    eapply List.Forall_impl; [|exact Hx]. intros a Ha. now apply Z.leb_le. }
  assert (Hin5 : forall p, In p (take 5 (sorted leb counts)) -> In p counts).
  { intros p Hp. apply (Permutation_in _ Hperm).
    apply list_elem_of_In, (subseteq_take 5 (sorted leb counts)), list_elem_of_In.
    exact Hp. }
  split.
  { intros n c Hin%Hin5. now apply count_names_In in Hin. }
  intros n c n' Hin Hout.
  destruct (Z.le_gt_cases (times_logged n' ws) 0) as [Hz|Hpos].
  { apply Hin5, count_names_In in Hin. lia. }
  assert (Hn' : In (n', times_logged n' ws) (sorted leb counts)).
  { apply (Permutation_in _ (Permutation_sym Hperm)).
    apply count_names_In. split; [reflexivity|lia]. }
  rewrite <- (take_drop 5 (sorted leb counts)) in Hn'.
  apply in_app_or in Hn' as [Hn'|Hn'].
  { exfalso. apply Hout. apply in_map_iff. now exists (n', times_logged n' ws). }
  pose proof (sorted_take_drop leb Htotal Htrans 5 counts _ _ Hin Hn') as Hle.
  unfold leb in Hle. simpl in Hle. now apply Z.leb_le.
Qed.

Lemma overall_summary_spec_witness :
  exists d,
    _get_overall_summary
      [session_on (evening 2024 3 1) [lift "Squat" 200 5; lift "Bench" 100 5];
       session_on (evening 2024 3 3) [lift "Squat" 205 5]] = SummaryOf d
    /\ workouts_completed d = 2.
Proof.
  destruct (overall_summary_spec
              [session_on (evening 2024 3 1) [lift "Squat" 200 5; lift "Bench" 100 5];
               session_on (evening 2024 3 3) [lift "Squat" 205 5]]) as [_ H].
  destruct H as (d & names & Hd & Hw & _); [discriminate|].
  exists d. split; [exact Hd|exact Hw].
Defined.

Lemma filter_none {A} (p : A -> bool) (l : list A) :
  (forall y, In y l -> p y = false) -> List.filter p l = [].
Proof.
  induction l as [|a l IH]; intros H; [reflexivity|].
  cbn [List.filter]. rewrite (H a) by now left.
  apply IH. intros y Hy. apply H. now right.
Qed.

Lemma filter_unique {A} (f : A -> string) (l : list A) (x : A) :
  NoDup (map f l) -> In x l ->
  List.filter (fun y => String.eqb (f y) (f x)) l = [x].
Proof.
  induction l as [|a l IH]; intros Hnd Hin; [destruct Hin|].
  cbn [map] in Hnd. inversion Hnd as [|? ? Hnotin Hnd']; subst.
  cbn [List.filter]. destruct Hin as [->|Hin].
  - rewrite String.eqb_refl. f_equal. apply filter_none.
    intros y Hy. destruct (String.eqb_spec (f y) (f x)) as [E|_]; [|reflexivity].
    exfalso. apply Hnotin. rewrite <- E. apply list_elem_of_In. now apply in_map.
  - destruct (String.eqb_spec (f a) (f x)) as [E|_]; [|now apply IH].
    exfalso. apply Hnotin. rewrite E. apply list_elem_of_In. now apply in_map.
Qed.

(** X19. Insights for a workout in which no name occurs twice (names
    compared case-insensitively). Logging returns, and the insights are the
    contributions of the exercises in input order. An exercise whose name was
    never logged before contributes nothing. Otherwise, against the last data
    point of its name that was in the log before the call, it contributes the
    PR message exactly when its weight is strictly greater, the rep-PR message
    exactly when the weights are equal and its repetitions strictly greater,
    and nothing else. When nothing is contributed the result is the single
    encouragement message. *)
Theorem insights_distinct_names (now : datetime) (exs : list ExerciseEntry)
    (notes : option string) (s : Tracker) :
  NoDup (map (fun ex => lower (entry_name ex)) exs) ->
  exists r s' (per : list (list string)),
    log_workout now exs notes s = (Some r, s')
    /\ Forall2
         (fun ex msgs =>
            match last (data_points (workouts s) (entry_name ex)) with
            | None => msgs = []
            | Some prev =>
                let n := entry_name ex in
                let pw := get_weight (h_entry prev) in
                let pr := get_reps (h_entry prev) in
                (In (pr_message n pw (get_weight ex)) msgs <-> get_weight ex > pw)
                /\ (In (rep_pr_message n pr (get_reps ex)) msgs
                    <-> get_weight ex = pw /\ get_reps ex > pr)
                /\ (forall m, In m msgs ->
                      m = pr_message n pw (get_weight ex)
                      \/ m = rep_pr_message n pr (get_reps ex))
                /\ (length msgs <= 1)%nat
            end)
         exs per
    /\ insights r = match concat per with
                    | [] => ["Solid workout! Keep pushing."]
                    | msgs => msgs
                    end.
Proof.
  intros Hnd.
  set (log := (workouts s
               ++ [ {| date := now; exercises := Some exs; notes := notes |} ])%list).
  eexists _, _, (map (fun ex => exercise_insights ex
                                  (data_points log (entry_name ex))) exs).
  split; [apply log_workout_run|]. split; [|reflexivity].
  assert (H : forall l, (forall ex, In ex l -> In ex exs) ->
    Forall2
      (fun ex msgs =>
         match last (data_points (workouts s) (entry_name ex)) with
         | None => msgs = []
         | Some prev =>
             let n := entry_name ex in
             let pw := get_weight (h_entry prev) in
             let pr := get_reps (h_entry prev) in
             (In (pr_message n pw (get_weight ex)) msgs <-> get_weight ex > pw)
             /\ (In (rep_pr_message n pr (get_reps ex)) msgs
                 <-> get_weight ex = pw /\ get_reps ex > pr)
             /\ (forall m, In m msgs ->
                   m = pr_message n pw (get_weight ex)
                   \/ m = rep_pr_message n pr (get_reps ex))
             /\ (length msgs <= 1)%nat
         end)
      l (map (fun ex => exercise_insights ex (data_points log (entry_name ex))) l)).
  { induction l as [|ex l IH]; intros Hsub; [constructor|].
    cbn [map]. constructor; [|apply IH; intros y Hy; apply Hsub; now right].
    pose proof (exercise_insights_spec ex (data_points log (entry_name ex))) as Hs.
    unfold log in Hs. rewrite previous_is_last_logged in Hs; [exact Hs|].
    apply (filter_unique (fun ex => lower (entry_name ex)) exs ex Hnd).
    apply Hsub. now left. }
  apply H. auto.
Qed.

Lemma insights_distinct_names_witness :
  exists r s' (per : list (list string)),
    log_workout (evening 2024 3 6) [lift "Squat" 185 8; lift "Bench" 100 5] None
                (__init__ (Some [session_on (evening 2024 3 4)
                                   [lift "squat" 180 8; lift "Bench" 100 5]]))
    = (Some r, s')
    /\ Forall2
         (fun ex msgs =>
            match last (data_points
                          (workouts (__init__ (Some [session_on (evening 2024 3 4)
                                       [lift "squat" 180 8; lift "Bench" 100 5]])))
                          (entry_name ex)) with
            | None => msgs = []
            | Some prev =>
                let n := entry_name ex in
                let pw := get_weight (h_entry prev) in
                let pr := get_reps (h_entry prev) in
                (In (pr_message n pw (get_weight ex)) msgs <-> get_weight ex > pw)
                /\ (In (rep_pr_message n pr (get_reps ex)) msgs
                    <-> get_weight ex = pw /\ get_reps ex > pr)
                /\ (forall m, In m msgs ->
                      m = pr_message n pw (get_weight ex)
                      \/ m = rep_pr_message n pr (get_reps ex))
                /\ (length msgs <= 1)%nat
            end)
         [lift "Squat" 185 8; lift "Bench" 100 5] per
    /\ insights r = match concat per with
                    | [] => ["Solid workout! Keep pushing."]
                    | msgs => msgs
                    end.
Proof.
  apply (insights_distinct_names (evening 2024 3 6)
           [lift "Squat" 185 8; lift "Bench" 100 5] None
           (__init__ (Some [session_on (evening 2024 3 4)
                              [lift "squat" 180 8; lift "Bench" 100 5]]))).
  apply (bool_decide_unpack _). vm_compute. exact I.
Defined.

End TrackerMore.

(** ** Orchestrator *)

Module AgentProps.
Import PyStr Datetime WorkoutGenerator Statements MoreStatements GeneratorProps.
Import PersonalTrainerAgent.

(** X10. An assessment always returns. The profile in memory and the profile
    file are then the new profile, whatever was there before; generator,
    store, plan file and tracker are untouched. The recommended split is
    [full_body] for 2 or 3 days a week, [upper_lower] for 4,
    [upper_lower_ppl] for 5, [ppl] for 6 and [full_body] for every other
    number, and it is always the name of a template of the generator. *)
Theorem assess_user_spec (now1 now2 : datetime)
    (goal experience_level equipment : string)
    (days_per_week session_duration : Z) (limitations : option (list string))
    (self : Agent) :
  exists r self',
    assess_user now1 now2 goal experience_level equipment days_per_week
                session_duration limitations self = Some (r, self')
    /\ user_profile self' = Some (a_profile r)
    /\ profile_file self' = Some (a_profile r)
    /\ recommended_split (a_profile r) = Some (a_recommended_split r)
    /\ PersonalTrainerAgent.goal (a_profile r) = goal
    /\ PersonalTrainerAgent.experience_level (a_profile r) = experience_level
    /\ PersonalTrainerAgent.equipment (a_profile r) = equipment
    /\ PersonalTrainerAgent.limitations (a_profile r)
       = Some (default [] limitations)
    /\ (workout_generator self', store self', plan_file self', progress_tracker self')
       = (workout_generator self, store self, plan_file self, progress_tracker self)
    /\ a_recommended_split r
       = (if (days_per_week =? 4) then "upper_lower"
          else if (days_per_week =? 5) then "upper_lower_ppl"
          else if (days_per_week =? 6) then "ppl"
          else "full_body")
    /\ exists template,
         dict_get (a_recommended_split r) (splits the_generator) = Some template.
Proof.
  eexists _, _. split; [reflexivity|].
  cbn [a_profile a_recommended_split user_profile profile_file recommended_split
       PersonalTrainerAgent.goal PersonalTrainerAgent.experience_level
       PersonalTrainerAgent.equipment PersonalTrainerAgent.limitations
       _save_user_profile workout_generator store plan_file progress_tracker
       int_dict_get split_recommendations].
  repeat (split; [reflexivity|]).
  split; [destruct limitations as [[|]|]; reflexivity|].
  split; [reflexivity|].
  split.
  - destruct (Z.eqb_spec days_per_week 2) as [->|]; [reflexivity|].
    destruct (Z.eqb_spec days_per_week 3) as [->|]; [reflexivity|].
    destruct (Z.eqb_spec days_per_week 4) as [->|]; [reflexivity|].
    destruct (Z.eqb_spec days_per_week 5) as [->|]; [reflexivity|].
    destruct (Z.eqb_spec days_per_week 6) as [->|]; reflexivity.
  - destruct (Z.eqb_spec days_per_week 2) as [->|]; [eexists; vm_compute; reflexivity|].
    destruct (Z.eqb_spec days_per_week 3) as [->|]; [eexists; vm_compute; reflexivity|].
    destruct (Z.eqb_spec days_per_week 4) as [->|]; [eexists; vm_compute; reflexivity|].
    destruct (Z.eqb_spec days_per_week 5) as [->|]; [eexists; vm_compute; reflexivity|].
    destruct (Z.eqb_spec days_per_week 6) as [->|]; eexists; vm_compute; reflexivity.
Qed.

Lemma map_proj {A B} (f : B -> A) (g : A -> B) (l : list A) :
  (forall x, f (g x) = x) -> map f (map g l) = l.
Proof.
  intros H. induction l as [|x l IH]; simpl; [reflexivity|]. now rewrite H, IH.
Qed.

Lemma plan_to_json_run (h : heap) (sl : loc) (svals : list session_value)
    (total : Z) (nums : list Z) (s g e : string) :
  value_of_sessions sl h = Some (svals, h) ->
  plan_to_json
    {| split_type := s; WorkoutGenerator.goal := g;
       WorkoutGenerator.experience_level := e;
       weeks := map (fun week_num =>
                       {| week_number := week_num; sessions := sl;
                          notes := _get_week_notes week_num total |}) nums |} h
  = Some ({| j_split_type := s; j_goal := g; j_experience_level := e;
             j_weeks := map (fun week_num =>
                               {| j_week_number := week_num; j_sessions := svals;
                                  j_notes := _get_week_notes week_num total |})
                            nums |}, h).
Proof.
  intros Hv. unfold plan_to_json. simpl.
  erewrite bind_Some; [reflexivity|].
  induction nums as [|n nums IH]; [reflexivity|].
  simpl. erewrite bind_Some.
  2:{ erewrite bind_Some by exact Hv. reflexivity. }
  erewrite bind_Some by exact IH. reflexivity.
Qed.

Lemma weeks_written (h : heap) (sl : loc) (svals : list session_value)
    (note : Z -> string) (nums : list Z) :
  eval (value_of_sessions sl) h = Some svals ->
  Forall2 (fun week w =>
             j_week_number w = week_number week
             /\ j_notes w = WorkoutGenerator.notes week
             /\ eval (value_of_sessions (sessions week)) h = Some (j_sessions w))
          (map (fun week_num => {| week_number := week_num; sessions := sl;
                                   notes := note week_num |}) nums)
          (map (fun week_num => {| j_week_number := week_num; j_sessions := svals;
                                   j_notes := note week_num |}) nums).
Proof.
  intros Hv. induction nums as [|n nums IH]; [constructor|].
  cbn [map]. constructor; [|exact IH].
  cbn [j_week_number j_notes j_sessions week_number WorkoutGenerator.notes sessions].
  auto.
Qed.

(** X11. Plan generation through the orchestrator. Without a profile it
    answers with the error dict and changes nothing. With a profile, on a
    well-formed store, it always returns the plan that the generator makes on
    the agent's store: for the override split when one is given as a
    non-empty string, else for the recommended split of the profile; with the
    goal, experience level, equipment and limitations of the profile and the
    number of weeks asked for. The profile in memory and its file stay as
    they are. The plan file holds the returned plan: its split, goal and
    level, and week by week the number and the note of the plan's week and,
    by value, the sessions that the week refers to in the store after the
    call; these are the same for all weeks. *)
Theorem generate_workout_plan_spec (weeks : Z) (split_type : option string)
    (self : Agent) :
  (user_profile self = None ->
   generate_workout_plan weeks split_type self
   = Some (PlanError "Please complete assessment first", self))
  /\ (forall profile,
        user_profile self = Some profile ->
        workout_generator self = the_generator ->
        wf_store the_generator (store self) = true ->
        exists plan self' json svals,
          generate_workout_plan weeks split_type self = Some (PlanOk plan, self')
          /\ generate_plan the_generator (requested_split split_type profile)
               (PersonalTrainerAgent.experience_level profile)
               (PersonalTrainerAgent.goal profile)
               (PersonalTrainerAgent.equipment profile) weeks
               (Some (default [] (PersonalTrainerAgent.limitations profile)))
               (store self)
             = Some (plan, store self')
          /\ WorkoutGenerator.split_type plan = requested_split split_type profile
          /\ WorkoutGenerator.goal plan = PersonalTrainerAgent.goal profile
          /\ WorkoutGenerator.experience_level plan
             = PersonalTrainerAgent.experience_level profile
          /\ map week_number (WorkoutGenerator.weeks plan) = seqZ 1 weeks
          /\ user_profile self' = Some profile
          /\ profile_file self' = profile_file self
          /\ progress_tracker self' = progress_tracker self
          /\ workout_generator self' = the_generator
          /\ wf_store the_generator (store self') = true
          /\ plan_file self' = Some json
          /\ j_split_type json = WorkoutGenerator.split_type plan
          /\ j_goal json = WorkoutGenerator.goal plan
          /\ j_experience_level json = WorkoutGenerator.experience_level plan
          /\ Forall2 (fun week w =>
                        j_week_number w = week_number week
                        /\ j_notes w = WorkoutGenerator.notes week
                        /\ eval (value_of_sessions (sessions week)) (store self')
                           = Some (j_sessions w))
                     (WorkoutGenerator.weeks plan) (j_weeks json)
          /\ Forall (fun w => j_sessions w = svals) (j_weeks json)).
Proof.
  split.
  - intros Hnone. unfold generate_workout_plan. now rewrite Hnone.
  - intros profile Hp Hg Hwf. unfold generate_workout_plan. rewrite Hp, Hg.
    fold (requested_split split_type profile).
    destruct (generate_plan_run (store self) (requested_split split_type profile)
                (PersonalTrainerAgent.experience_level profile)
                (PersonalTrainerAgent.goal profile)
                (PersonalTrainerAgent.equipment profile) weeks
                (Some (default [] (PersonalTrainerAgent.limitations profile))) Hwf)
      as (fb & h' & t & ss & _ & Hrun & Hev & _ & _ & Hss & Hdone).
    rewrite Hrun.
    destruct (value_of_sessions_done _ _ _ _ Hss Hdone) as (svals & Hv & _).
    rewrite (plan_to_json_run h' (t_sessions t) svals weeks (seqZ 1 weeks) _ _ _ Hv).
    assert (Heval : eval (value_of_sessions (t_sessions t)) h' = Some svals)
      by (unfold eval; now rewrite Hv).
    eexists _, _, _, svals. split; [reflexivity|].
    cbn [WorkoutGenerator.split_type WorkoutGenerator.goal
         WorkoutGenerator.experience_level WorkoutGenerator.weeks
         user_profile profile_file progress_tracker workout_generator store
         plan_file j_split_type j_goal j_experience_level j_weeks].
    split; [reflexivity|].
    split; [reflexivity|]. split; [reflexivity|]. split; [reflexivity|].
    split; [now apply map_proj|].
    split; [reflexivity|]. split; [reflexivity|]. split; [reflexivity|].
    split; [reflexivity|].
    split; [exact (evolves_wf_store _ _ _ Hev Hwf)|].
    split; [reflexivity|]. split; [reflexivity|]. split; [reflexivity|].
    split; [reflexivity|].
    split; [exact (weeks_written h' (t_sessions t) svals _ (seqZ 1 weeks) Heval)|].
    apply Forall_forall. intros w (n & <- & _)%list_elem_of_In%in_map_iff.
    reflexivity.
Qed.

Lemma generate_workout_plan_spec_witness :
  generate_workout_plan 4 None fresh_agent
  = Some (PlanError "Please complete assessment first", fresh_agent)
  /\ exists plan self' json,
       generate_workout_plan 2 None assessed_agent = Some (PlanOk plan, self')
       /\ WorkoutGenerator.split_type plan = "upper_lower"
       /\ map week_number (WorkoutGenerator.weeks plan) = [1; 2]
       /\ plan_file self' = Some json
       /\ Forall2 (fun week w =>
                     j_week_number w = week_number week
                     /\ j_notes w = WorkoutGenerator.notes week
                     /\ eval (value_of_sessions (sessions week)) (store self')
                        = Some (j_sessions w))
                  (WorkoutGenerator.weeks plan) (j_weeks json).
Proof.
  split.
  - apply (generate_workout_plan_spec 4 None fresh_agent). vm_compute. reflexivity.
  - destruct (generate_workout_plan_spec 2 None assessed_agent) as [_ Hsome].
    edestruct Hsome
      as (plan & self' & json & svals & Hrun & _ & Hsplit & _ & _ & Hweeks & _ & _ & _
          & _ & _ & Hfile & _ & _ & _ & Hwritten & _).
    + vm_compute. reflexivity.
    + vm_compute. reflexivity.
    + vm_compute. reflexivity.
    + exists plan, self', json. split; [exact Hrun|].
      split; [exact Hsplit|]. split; [exact Hweeks|].
      split; [exact Hfile|exact Hwritten].
Defined.

End AgentProps.

(** ** Plan generator *)

Module GeneratorMore.
Import PyStr WorkoutGenerator Statements MoreStatements GeneratorProps.

(** *** How a call changes the store *)

Lemma same_kind_refl e : same_kind e e.
Proof. unfold same_kind. auto. Qed.

Lemma same_kind_trans e1 e2 e3 : same_kind e1 e2 -> same_kind e2 e3 -> same_kind e1 e3.
Proof.
  intros (T1 & M1 & N1) (T2 & M2 & N2). unfold same_kind.
  split; [congruence|]. split; [congruence|].
  destruct N2 as [N2|N2]; [|now right].
  destruct N1 as [N1|N1]; [left; congruence|right; now rewrite N2].
Qed.

#[local] Instance slots_only_preorder : PreOrder slots_only.
Proof.
  split.
  - intros h. split; [auto|]. intros l e H. exists e. split; [exact H|apply same_kind_refl].
  - intros h1 h2 h3 [O1 E1] [O2 E2]. split.
    + intros l o H Hk. auto.
    + intros l e H. destruct (E1 l e H) as (e' & H' & K1).
      destruct (E2 l e' H') as (e'' & H'' & K2).
      exists e''. split; [exact H''|]. eapply same_kind_trans; eassumption.
Qed.

#[local] Instance renamed_preorder subs : PreOrder (renamed subs).
Proof.
  split.
  - intros h. split; [auto|]. intros l e H. exists e. repeat split; auto.
  - intros h1 h2 h3 [O1 E1] [O2 E2]. split.
    + intros l o H Hk. auto.
    + intros l e H.
      destruct (E1 l e H) as (e' & H' & T1 & M1 & S1 & R1 & Q1 & N1).
      destruct (E2 l e' H') as (e'' & H'' & T2 & M2 & S2 & R2 & Q2 & N2).
      exists e''. split; [exact H''|].
      repeat (split; [congruence|]).
      destruct N2 as [N2|N2]; [|now right].
      destruct N1 as [N1|N1]; [left; congruence|right; now rewrite N2].
Qed.

#[local] Instance plan_step_preorder : PreOrder plan_step.
Proof.
  split.
  - intros h. split; [auto|]. split; [auto|]. split.
    + intros l e H. exists e. split; [exact H|apply same_kind_refl].
    + intros l s es Hs Hes. exists s, (5 + length es)%nat.
      split; [exact Hs|]. split; [reflexivity|]. split; [lia|].
      rewrite take_ge by lia. exact Hes.
  - intros h1 h2 h3 (L1 & T1 & E1 & S1) (L2 & T2 & E2 & S2).
    split; [auto|]. split; [auto|]. split.
    + intros l e H. destruct (E1 l e H) as (e' & H' & K1).
      destruct (E2 l e' H') as (e'' & H'' & K2).
      exists e''. split; [exact H''|]. eapply same_kind_trans; eassumption.
    + intros l s es Hs Hes.
      destruct (S1 l s es Hs Hes) as (s' & k & Hs' & Hn' & Hk & Hes').
      destruct (S2 l s' _ Hs' Hes') as (s'' & k' & Hs'' & Hn'' & Hk' & Hes'').
      exists s'', (Nat.min k' k). split; [exact Hs''|]. split; [congruence|].
      split; [lia|]. now rewrite <- take_take.
Qed.

Lemma slots_only_plan_step h h' : slots_only h h' -> plan_step h h'.
Proof.
  intros [O E]. split; [|split; [|split]].
  - intros l xs H. apply O; [exact H|discriminate].
  - intros l t H. apply O; [exact H|discriminate].
  - exact E.
  - intros l s es Hs Hes. exists s, (5 + length es)%nat.
    split; [apply O; [exact Hs|discriminate]|]. split; [reflexivity|].
    split; [lia|]. rewrite take_ge by lia. apply O; [exact Hes|discriminate].
Qed.

Lemma plan_step_evolves h h' : plan_step h h' -> evolves h h'.
Proof.
  intros (L & T & E & S).
  assert (HE : forall l, is_exercise h l = true -> is_exercise h' l = true).
  { intros l (e & H)%is_exercise_spec. apply is_exercise_spec.
    destruct (E l e H) as (e' & H' & _). eauto. }
  split; [exact L|]. split; [exact T|]. split; [exact HE|].
  intros l (s & Hs & (es & Hes & Hall)%wf_exercises_spec)%wf_session_spec.
  destruct (S l s es Hs Hes) as (s' & k & Hs' & _ & _ & Hes').
  apply wf_session_spec. exists s'. split; [exact Hs'|].
  apply wf_exercises_spec. exists (take k es). split; [exact Hes'|].
  apply take_Forall. eapply Forall_impl; [exact Hall|]. auto.
Qed.

Lemma rescheme_slots_only sc h h' : rescheme sc h h' -> slots_only h h'.
Proof.
  intros HR. split.
  - intros l o H Hk. eapply rescheme_other; eauto.
  - intros l e H. destruct (HR l) as [Hsame|(e0 & H0 & H')].
    + exists e. split; [congruence|apply same_kind_refl].
    + rewrite H in H0. injection H0 as <-.
      exists (rescheme_slot sc e). split; [exact H'|].
      unfold same_kind, rescheme_slot.
      destruct (String.eqb (ex_type e) "compound"); simpl; auto.
Qed.

Lemma rescheme_names sc h h' l e :
  rescheme sc h h' -> h !! l = Some (OExercise e) ->
  exists e', h' !! l = Some (OExercise e') /\ ex_name e' = ex_name e.
Proof.
  intros HR H. destruct (HR l) as [Hsame|(e0 & H0 & H')].
  - exists e. split; [congruence|reflexivity].
  - rewrite H in H0. injection H0 as <-.
    exists (rescheme_slot sc e). split; [exact H'|].
    unfold rescheme_slot. destruct (String.eqb (ex_type e) "compound"); reflexivity.
Qed.

Lemma renamed_slots_only subs h h' :
  Forall (fun p => In (snd p) replacement_names) subs ->
  renamed subs h h' -> slots_only h h'.
Proof.
  intros Hvals [O E]. split; [exact O|].
  intros l e H. destruct (E l e H) as (e' & H' & T & M & _ & _ & _ & N).
  exists e'. split; [exact H'|]. split; [exact T|]. split; [exact M|].
  destruct N as [N|N]; [now left|]. right.
  apply in_map_iff in N as (p & <- & Hp).
  rewrite Forall_forall in Hvals. apply Hvals. now apply list_elem_of_In.
Qed.

Lemma alloc_plan_step h o : plan_step h (h ++ [o])%list.
Proof.
  split; [|split; [|split]].
  - intros l xs H. now apply lookup_app_l_Some.
  - intros l t H. now apply lookup_app_l_Some.
  - intros l e H. exists e. split; [now apply lookup_app_l_Some|apply same_kind_refl].
  - intros l s es Hs Hes. exists s, (5 + length es)%nat.
    split; [now apply lookup_app_l_Some|]. split; [reflexivity|].
    split; [lia|]. rewrite take_ge by lia. now apply lookup_app_l_Some.
Qed.

(** [session['exercises'] = session['exercises'][:5]], once the new list is
    in the store at [l']. *)
Lemma truncate_plan_step h sl s es l' :
  h !! sl = Some (OSession s) ->
  h !! s_exercises s = Some (OList es) ->
  h !! l' = Some (OList (take 5 es)) ->
  plan_step h (<[sl := OSession {| s_name := s_name s; s_exercises := l' |}]> h).
Proof.
  intros Hs Hes Hl'.
  assert (Hne : forall l o, h !! l = Some o -> (forall x, o <> OSession x) ->
                (<[sl := OSession {| s_name := s_name s; s_exercises := l' |}]> h) !! l
                = Some o).
  { intros l o Hl Hkind. rewrite list_lookup_insert_ne; [exact Hl|].
    intros ->. rewrite Hs in Hl. injection Hl as <-. now apply (Hkind s). }
  split; [|split; [|split]].
  - intros l xs H. apply Hne; [exact H|discriminate].
  - intros l t H. apply Hne; [exact H|discriminate].
  - intros l e H. exists e. split; [apply Hne; [exact H|discriminate]|apply same_kind_refl].
  - intros l s0 es0 Hs0 Hes0. destruct (decide (sl = l)) as [<-|Hd].
    + rewrite Hs in Hs0. injection Hs0 as <-. rewrite Hes in Hes0. injection Hes0 as <-.
      exists {| s_name := s_name s; s_exercises := l' |}, 5%nat.
      split; [apply list_lookup_insert_eq; eauto using lookup_lt_Some|].
      split; [reflexivity|]. split; [lia|].
      simpl. apply Hne; [exact Hl'|discriminate].
    + exists s0, (5 + length es0)%nat. split; [now rewrite list_lookup_insert_ne|].
      split; [reflexivity|]. split; [lia|].
      rewrite take_ge by lia. apply Hne; [exact Hes0|discriminate].
Qed.

Lemma plan_step_short h h' l : session_short l h -> plan_step h h' -> session_short l h'.
Proof.
  intros (s & es & Hs & Hes & Hlen) (_ & _ & _ & S).
  destruct (S l s es Hs Hes) as (s' & k & Hs' & _ & _ & Hes').
  exists s', (take k es). split; [exact Hs'|]. split; [exact Hes'|].
  rewrite length_take. lia.
Qed.

Lemma renamed_evolves subs h h' : renamed subs h h' -> evolves h h'.
Proof.
  intros [O E]. apply frame_evolves.
  - intros l xs H. apply O; [exact H|discriminate].
  - intros l t H. apply O; [exact H|discriminate].
  - intros l s H. apply O; [exact H|discriminate].
  - intros l (e & H)%is_exercise_spec. apply is_exercise_spec.
    destruct (E l e H) as (e' & H' & _). eauto.
Qed.

Lemma renamed_slot_done subs h h' l :
  (exists x, h !! l = Some (OExercise x) /\ name_done subs (ex_name x)) ->
  renamed subs h h' ->
  exists x, h' !! l = Some (OExercise x) /\ name_done subs (ex_name x).
Proof.
  intros (x & H & Hd) [_ E].
  destruct (E l x H) as (x' & H' & _ & _ & _ & _ & _ & N).
  exists x'. split; [exact H'|].
  destruct N as [N|N]; [now rewrite N|now right].
Qed.

Lemma renamed_session_renamed subs h h' l :
  session_renamed subs l h -> renamed subs h h' -> session_renamed subs l h'.
Proof.
  intros (s & es & Hs & Hes & Hall) HR. pose proof HR as [O _].
  exists s, es. split; [apply O; [exact Hs|discriminate]|].
  split; [apply O; [exact Hes|discriminate]|].
  eapply Forall_impl; [exact Hall|]. intros e He. simpl in *.
  eapply renamed_slot_done; eassumption.
Qed.

Lemma dict_get_value (n v : string) subs :
  dict_get n subs = Some v -> In v (map snd subs).
Proof.
  intros H%LibraryProps.dict_get_In. apply in_map_iff. now exists (n, v).
Qed.

(** The renaming loop, for any table: it returns, it only renames slots,
    and afterwards every slot of the template has a name the table has
    dealt with. *)
Lemma substitute_names_renamed subs template h :
  wf_template h template = true ->
  exists h' t ss,
    substitute_names subs template h = Some (tt, h')
    /\ renamed subs h h'
    /\ h' !! template = Some (OTemplate t)
    /\ h' !! t_sessions t = Some (OList ss)
    /\ Forall (fun sl => session_renamed subs sl h') ss.
Proof.
  intros (t & Ht & (ss & Hss & Hall)%wf_sessions_spec)%wf_template_spec.
  unfold substitute_names.
  set (rename := fun exercise : loc =>
         e ← read_exercise exercise;
         match dict_get (ex_name e) subs with
         | Some n => write exercise (OExercise (set_name n e))
         | None => mret tt
         end).
  set (inner := fun session : loc =>
         s ← read_session session;
         es ← read_list (s_exercises s);
         for_each es rename).
  assert (Hrename : forall l h1, is_exercise h1 l = true ->
            exists h2, rename l h1 = Some (tt, h2) /\ renamed subs h1 h2
                       /\ exists x, h2 !! l = Some (OExercise x)
                                    /\ name_done subs (ex_name x)).
  { intros l h1 (e & He)%is_exercise_spec. unfold rename.
    erewrite bind_Some by (apply read_exercise_Some; exact He).
    destruct (dict_get (ex_name e) subs) as [n|] eqn:En.
    - exists (<[l := OExercise (set_name n e)]> h1).
      split; [eapply write_Some; exact He|]. split.
      + split.
        * intros l' o Hl' Hk. rewrite list_lookup_insert_ne; [exact Hl'|].
          intros ->. rewrite He in Hl'. injection Hl' as <-. now apply (Hk e).
        * intros l' e0 Hl'. destruct (decide (l = l')) as [<-|Hd].
          -- rewrite He in Hl'. injection Hl' as <-.
             exists (set_name n e).
             split; [apply list_lookup_insert_eq; eauto using lookup_lt_Some|].
             simpl. repeat (split; [reflexivity|]). right.
             eapply dict_get_value. exact En.
          -- exists e0. split; [now rewrite list_lookup_insert_ne|].
             repeat (split; [reflexivity|]). now left.
      + exists (set_name n e).
        split; [apply list_lookup_insert_eq; eauto using lookup_lt_Some|].
        right. simpl. eapply dict_get_value. exact En.
    - exists h1. split; [reflexivity|]. split; [reflexivity|].
      exists e. split; [exact He|now left]. }
  assert (Hinner : forall sl h1, wf_session h1 sl = true ->
            exists h2, inner sl h1 = Some (tt, h2) /\ renamed subs h1 h2
                       /\ session_renamed subs sl h2).
  { intros sl h1 (s & Hs & (es & Hes & Hex)%wf_exercises_spec)%wf_session_spec.
    destruct (for_each_ok (renamed subs) (fun l h => is_exercise h l = true)
                (fun l h => exists x, h !! l = Some (OExercise x)
                                      /\ name_done subs (ex_name x))
                rename) with (xs := es) (h := h1)
      as (h2 & Hloop & HR & Hdone); auto.
    { intros x ha hb Hx Hab.
      destruct (renamed_evolves _ _ _ Hab) as (_ & _ & HE & _). auto. }
    { intros x ha hb Hx Hab. eapply renamed_slot_done; eassumption. }
    exists h2. split; [|split; [exact HR|]].
    - unfold inner.
      erewrite bind_Some by (apply read_session_Some; exact Hs).
      erewrite bind_Some by (apply read_list_Some; exact Hes).
      exact Hloop.
    - destruct HR as [O _]. exists s, es.
      split; [apply O; [exact Hs|discriminate]|].
      split; [apply O; [exact Hes|discriminate]|exact Hdone]. }
  destruct (for_each_ok (renamed subs) (fun sl h => wf_session h sl = true)
              (fun sl h => session_renamed subs sl h) inner) with (xs := ss) (h := h)
    as (h' & Hloop & HR & Hdone); auto.
  { intros x ha hb Hx Hab.
    destruct (renamed_evolves _ _ _ Hab) as (_ & _ & _ & HS). auto. }
  { intros x ha hb Hx Hab. eapply renamed_session_renamed; eassumption. }
  exists h', t, ss. split; [|split; [exact HR|]].
  - erewrite bind_Some by (apply read_template_Some; exact Ht).
    erewrite bind_Some by (apply read_list_Some; exact Hss).
    exact Hloop.
  - destruct HR as [O _].
    split; [apply O; [exact Ht|discriminate]|].
    split; [apply O; [exact Hss|discriminate]|exact Hdone].
Qed.

Lemma table_values (tables : list (string * list (string * string))) k subs :
  dict_get k tables = Some subs ->
  (forall t, In t tables -> In t (substitutions ++ limitation_subs)) ->
  Forall (fun p => In (snd p) replacement_names) subs.
Proof.
  intros Hk%LibraryProps.dict_get_In Hsub. apply Forall_forall.
  intros p Hp%list_elem_of_In. unfold replacement_names.
  apply in_flat_map. exists (k, subs). split; [now apply Hsub|].
  simpl. apply in_map_iff. now exists p.
Qed.

Lemma adjust_for_experience_step template level h :
  wf_template h template = true ->
  exists h' t ss,
    _adjust_for_experience template level h = Some (template, h')
    /\ plan_step h h'
    /\ (String.eqb level "beginner" = false -> h' = h)
    /\ h' !! template = Some (OTemplate t)
    /\ h' !! t_sessions t = Some (OList ss)
    /\ (String.eqb level "beginner" = true ->
        Forall (fun sl => session_short sl h') ss).
Proof.
  intros (t & Ht & (ss & Hss & Hall)%wf_sessions_spec)%wf_template_spec.
  unfold _adjust_for_experience.
  destruct (String.eqb level "beginner").
  2:{ exists h, t, ss. split; [reflexivity|]. split; [reflexivity|].
      split; [reflexivity|]. split; [exact Ht|]. split; [exact Hss|discriminate]. }
  destruct (for_each_ok plan_step (fun sl h => wf_session h sl = true)
              (fun sl h => session_short sl h)
              (fun session =>
                 s ← read_session session;
                 es ← read_list (s_exercises s);
                 l ← alloc (OList (take 5 es));
                 write session (OSession {| s_name := s_name s; s_exercises := l |}))
              ) with (xs := ss) (h := h) as (h' & Hloop & Hstep & Hshort).
  - intros x h1 h2 Hx Hab.
    destruct (plan_step_evolves _ _ Hab) as (_ & _ & _ & HS). auto.
  - intros x h1 h2 Hx Hab. eapply plan_step_short; eassumption.
  - intros sl h1 (s & Hs & (es & Hes & Hex)%wf_exercises_spec)%wf_session_spec.
    set (h2 := (h1 ++ [OList (take 5 es)])%list).
    assert (Hs2 : h2 !! sl = Some (OSession s)) by now apply lookup_app_l_Some.
    assert (Hes2 : h2 !! s_exercises s = Some (OList es)) by now apply lookup_app_l_Some.
    assert (Hnew : h2 !! length h1 = Some (OList (take 5 es)))
      by (apply list_lookup_middle; reflexivity).
    exists (<[sl := OSession {| s_name := s_name s; s_exercises := length h1 |}]> h2).
    split; [|split].
    + erewrite bind_Some by (apply read_session_Some; exact Hs).
      erewrite bind_Some by (apply read_list_Some; exact Hes).
      erewrite bind_Some by reflexivity.
      eapply write_Some. exact Hs2.
    + etransitivity; [apply alloc_plan_step|].
      now apply (truncate_plan_step h2 sl s es).
    + exists {| s_name := s_name s; s_exercises := length h1 |}, (take 5 es).
      split; [apply list_lookup_insert_eq; eauto using lookup_lt_Some|].
      split; [|rewrite length_take; lia].
      simpl. rewrite list_lookup_insert_ne; [exact Hnew|].
      intros ->. rewrite Hs2 in Hnew. discriminate.
  - exact Hall.
  - pose proof Hstep as (L & T & _).
    exists h', t, ss. split; [|split; [exact Hstep|]].
    + erewrite bind_Some.
      2:{ erewrite bind_Some by (apply read_template_Some; exact Ht).
          erewrite bind_Some by (apply read_list_Some; exact Hss).
          exact Hloop. }
      reflexivity.
    + split; [discriminate|]. split; [now apply T|]. split; [now apply L|].
      intros _. exact Hshort.
Qed.

Lemma adjust_for_limitations_step template limitations h :
  wf_template h template = true ->
  exists h', _adjust_for_limitations template limitations h = Some (template, h')
             /\ slots_only h h'
             /\ (limitations = [] -> h' = h).
Proof.
  intros Hwf. unfold _adjust_for_limitations.
  destruct (for_each_ok slots_only (fun _ h => wf_template h template = true)
              (fun _ _ => True)
              (fun limitation : string =>
                 match dict_get limitation limitation_subs with
                 | Some subs => substitute_names subs template
                 | None => mret tt
                 end)) with (xs := limitations) (h := h)
    as (h' & Hloop & Hstep & _).
  - intros x ha hb Hx Hab.
    eapply evolves_wf_template; [|exact Hx].
    now apply plan_step_evolves, slots_only_plan_step.
  - auto.
  - intros limitation h1 Hwf1.
    destruct (dict_get limitation limitation_subs) as [subs|] eqn:E.
    + destruct (substitute_names_renamed subs template h1 Hwf1)
        as (h2 & _ & _ & Hs & HR & _).
      exists h2. split; [exact Hs|]. split; [|exact I].
      eapply renamed_slots_only; [|exact HR].
      eapply table_values; [exact E|]. intros t Ht. apply in_or_app. now right.
    + exists h1. split; [reflexivity|]. split; [reflexivity|exact I].
  - apply Forall_forall. auto.
  - exists h'. split; [|split; [exact Hstep|]].
    + erewrite bind_Some by exact Hloop. reflexivity.
    + intros ->. simpl in Hloop. now injection Hloop as <-.
Qed.

(** *** Reading values out of the store *)

Lemma bind_inv {A B} (m : M A) (k : A -> M B) h r :
  (m ≫= k) h = Some r -> exists a h1, m h = Some (a, h1) /\ k a h1 = Some r.
Proof.
  unfold mbind, M_bind. destruct (m h) as [[a h1]|]; [eauto|discriminate].
Qed.

Lemma read_inv l h o h' : read l h = Some (o, h') -> h' = h /\ h !! l = Some o.
Proof.
  unfold read. destruct (h !! l) as [o'|]; [|discriminate].
  intros [= <- <-]. auto.
Qed.

Lemma read_exercise_inv l h e h' :
  read_exercise l h = Some (e, h') -> h' = h /\ h !! l = Some (OExercise e).
Proof.
  intros (o & h1 & (-> & Ho)%read_inv & H)%bind_inv.
  destruct o; try discriminate. injection H as <- <-. auto.
Qed.

Lemma read_session_inv l h s h' :
  read_session l h = Some (s, h') -> h' = h /\ h !! l = Some (OSession s).
Proof.
  intros (o & h1 & (-> & Ho)%read_inv & H)%bind_inv.
  destruct o; try discriminate. injection H as <- <-. auto.
Qed.

Lemma read_template_inv l h t h' :
  read_template l h = Some (t, h') -> h' = h /\ h !! l = Some (OTemplate t).
Proof.
  intros (o & h1 & (-> & Ho)%read_inv & H)%bind_inv.
  destruct o; try discriminate. injection H as <- <-. auto.
Qed.

Lemma read_list_inv l h xs h' :
  read_list l h = Some (xs, h') -> h' = h /\ h !! l = Some (OList xs).
Proof.
  intros (o & h1 & (-> & Ho)%read_inv & H)%bind_inv.
  destruct o; try discriminate. injection H as <- <-. auto.
Qed.

(** A list comprehension of reads: it returns the values [ys] and leaves
    the store as it is exactly when every element reads to its value. *)
Lemma map_M_reads {A B} (f : A -> M B) (reads : heap -> A -> B -> Prop) :
  (forall x h y h', f x h = Some (y, h') <-> h' = h /\ reads h x y) ->
  forall xs h ys h',
    map_M f xs h = Some (ys, h') <-> h' = h /\ Forall2 (reads h) xs ys.
Proof.
  intros Hf. induction xs as [|x xs IH]; intros h ys h'; simpl.
  - split.
    + intros [= <- <-]. split; [reflexivity|constructor].
    + intros [-> H]. inversion H; subst. reflexivity.
  - split.
    + intros (y & h1 & [-> Hy]%Hf & (ys' & h2 & [-> Hys]%IH & H)%bind_inv)%bind_inv.
      injection H as <- <-. split; [reflexivity|now constructor].
    + intros [-> H]. inversion H as [|? y ? ys' Hy Hys]; subst.
      erewrite bind_Some by (apply Hf; split; [reflexivity|exact Hy]).
      erewrite bind_Some by (apply IH; split; [reflexivity|exact Hys]).
      reflexivity.
Qed.

Lemma read_exercise_spec l h e h' :
  read_exercise l h = Some (e, h') <-> h' = h /\ h !! l = Some (OExercise e).
Proof.
  split; [apply read_exercise_inv|]. intros [-> H]. now apply read_exercise_Some.
Qed.

Lemma value_of_session_spec l h sv h' :
  value_of_session l h = Some (sv, h') <-> h' = h /\ session_reads h l sv.
Proof.
  unfold value_of_session. split.
  - intros (s & h1 & [-> Hs]%read_session_inv
            & (es & h2 & [-> Hes]%read_list_inv
               & (vs & h3 & [-> Hvs]%(map_M_reads _ _ read_exercise_spec) & H)%bind_inv
              )%bind_inv)%bind_inv.
    injection H as <- <-. split; [reflexivity|]. exists s, es. auto.
  - intros [-> (s & es & Hs & Hes & Hn & Hvs)]. destruct sv as [n vs]. simpl in *.
    erewrite bind_Some by (apply read_session_Some; exact Hs).
    erewrite bind_Some by (apply read_list_Some; exact Hes).
    erewrite bind_Some
      by (apply (map_M_reads _ _ read_exercise_spec); split; [reflexivity|exact Hvs]).
    now subst.
Qed.

Lemma value_of_sessions_spec sl h vs h' :
  value_of_sessions sl h = Some (vs, h') <-> h' = h /\ sessions_read h sl vs.
Proof.
  unfold value_of_sessions. split.
  - intros (ss & h1 & [-> Hss]%read_list_inv
            & [-> H]%(map_M_reads _ _ value_of_session_spec))%bind_inv.
    split; [reflexivity|]. now exists ss.
  - intros [-> (ss & Hss & H)].
    erewrite bind_Some by (apply read_list_Some; exact Hss).
    apply (map_M_reads _ _ value_of_session_spec). auto.
Qed.

Lemma eval_sessions sl h vs :
  eval (value_of_sessions sl) h = Some vs <-> sessions_read h sl vs.
Proof.
  unfold eval. split.
  - destruct (value_of_sessions sl h) as [[vs' h']|] eqn:E; [|discriminate].
    intros [= <-]. now apply value_of_sessions_spec in E as [_ H].
  - intros H. assert (E : value_of_sessions sl h = Some (vs, h))
      by (apply value_of_sessions_spec; auto).
    now rewrite E.
Qed.

Lemma eval_template tl h v :
  eval (value_of_template tl) h = Some v <->
  exists t, h !! tl = Some (OTemplate t)
            /\ fst v = (t_name t, t_days_per_week t)
            /\ sessions_read h (t_sessions t) (snd v).
Proof.
  unfold eval, value_of_template. split.
  - destruct ((read_template tl ≫= _) h) as [[v' h']|] eqn:E; [|discriminate].
    intros [= <-].
    apply bind_inv in E as (t & h1 & [-> Ht]%read_template_inv
                            & (vs & h2 & [-> Hvs]%value_of_sessions_spec & H)%bind_inv).
    injection H as <- <-. exists t. auto.
  - intros (t & Ht & Hn & Hvs). destruct v as [nd vs]. simpl in *. subst nd.
    erewrite bind_Some by (apply read_template_Some; exact Ht).
    erewrite bind_Some by (apply value_of_sessions_spec; split; [reflexivity|exact Hvs]).
    reflexivity.
Qed.

(** A well-formed template has a value. *)
Lemma wf_sessions_read h sl :
  wf_sessions h sl = true -> exists vs, sessions_read h sl vs.
Proof.
  intros (ss & Hss & Hall)%wf_sessions_spec.
  assert (H : exists vs, Forall2 (session_reads h) ss vs).
  { clear Hss.
    induction Hall as [|l ss (s & Hs & (es & Hes & Hex)%wf_exercises_spec)%wf_session_spec
                          _ (vs & IH)].
    - exists []. constructor.
    - assert (Hx : exists xs, Forall2 (fun e x => h !! e = Some (OExercise x)) es xs).
      { clear Hes. induction Hex as [|e es (x & Hx)%is_exercise_spec _ (xs & IHx)].
        - exists []. constructor.
        - exists (x :: xs). now constructor. }
      destruct Hx as (xs & Hxs).
      exists ((s_name s, xs) :: vs). constructor; [|exact IH].
      exists s, es. auto. }
  destruct H as (vs & H). exists vs, ss. auto.
Qed.

(** *** Values across a step *)

Lemma slots_transfer (K : Exercise -> Exercise -> Prop) (h h' : heap)
    (es : list loc) (xs : list Exercise) :
  (forall l e, h !! l = Some (OExercise e) ->
     exists e', h' !! l = Some (OExercise e') /\ K e e') ->
  Forall2 (fun e x => h !! e = Some (OExercise x)) es xs ->
  exists xs', Forall2 (fun e x => h' !! e = Some (OExercise x)) es xs'
              /\ Forall2 K xs xs'.
Proof.
  intros HK. induction 1 as [|e x es xs Hx _ (xs' & IH1 & IH2)].
  - exists []. split; constructor.
  - destruct (HK e x Hx) as (x' & Hx' & Kx).
    exists (x' :: xs'). split; now constructor.
Qed.

(** Steps that write slots only: every session keeps its name and the
    number of its slots, and its slots are related by [K]. *)
Lemma slots_transfer_sessions (K : Exercise -> Exercise -> Prop) (h h' : heap)
    (sl : loc) (vs : list session_value) :
  (forall l o, h !! l = Some o -> (forall e, o <> OExercise e) -> h' !! l = Some o) ->
  (forall l e, h !! l = Some (OExercise e) ->
     exists e', h' !! l = Some (OExercise e') /\ K e e') ->
  sessions_read h sl vs ->
  exists vs', sessions_read h' sl vs'
              /\ Forall2 (fun sv sv' : session_value =>
                            fst sv' = fst sv /\ Forall2 K (snd sv) (snd sv')) vs vs'.
Proof.
  intros HO HK (ss & Hss & Hall).
  assert (H : exists vs', Forall2 (session_reads h') ss vs'
              /\ Forall2 (fun sv sv' : session_value =>
                            fst sv' = fst sv /\ Forall2 K (snd sv) (snd sv')) vs vs').
  { clear Hss. induction Hall as [|l sv ss vs (s & es & Hs & Hes & Hn & Hxs) _
                                    (vs' & IH1 & IH2)].
    - exists []. split; constructor.
    - destruct (slots_transfer K h h' es (snd sv) HK Hxs) as (xs' & Hxs' & HKs).
      exists ((fst sv, xs') :: vs'). split; constructor; auto.
      exists s, es. split; [apply HO; [exact Hs|discriminate]|].
      split; [apply HO; [exact Hes|discriminate]|]. auto. }
  destruct H as (vs' & H1 & H2). exists vs'. split; [|exact H2].
  exists ss. split; [apply HO; [exact Hss|discriminate]|exact H1].
Qed.

Lemma plan_step_sessions h h' sl vs :
  plan_step h h' -> sessions_read h sl vs ->
  exists vs', sessions_read h' sl vs' /\ Forall2 session_kept vs vs'.
Proof.
  intros (L & _ & E & S) (ss & Hss & Hall).
  assert (H : exists vs', Forall2 (session_reads h') ss vs'
                          /\ Forall2 session_kept vs vs').
  { clear Hss. induction Hall as [|l sv ss vs (s & es & Hs & Hes & Hn & Hxs) _
                                    (vs' & IH1 & IH2)].
    - exists []. split; constructor.
    - destruct (S l s es Hs Hes) as (s' & k & Hs' & Hn' & Hk & Hes').
      destruct (slots_transfer same_kind h h' (take k es) (take k (snd sv)) E)
        as (xs' & Hxs' & HKs); [now apply Forall2_take|].
      exists ((fst sv, xs') :: vs'). split; constructor; auto.
      + exists s', (take k es). simpl. repeat split; auto. congruence.
      + split; [reflexivity|]. exists k. auto. }
  destruct H as (vs' & H1 & H2). exists vs'. split; [|exact H2].
  exists ss. auto.
Qed.

Lemma same_slots_kept (vs vs' : list session_value) :
  Forall2 (fun sv sv' : session_value =>
             fst sv' = fst sv /\ Forall2 same_kind (snd sv) (snd sv')) vs vs' ->
  Forall2 session_kept vs vs'
  /\ map (fun s : session_value => length (snd s)) vs'
     = map (fun s : session_value => length (snd s)) vs.
Proof.
  induction 1 as [|sv sv' vs vs' [Hn HK] _ [IH1 IH2]]; [split; constructor|].
  split.
  - constructor; [|exact IH1]. split; [exact Hn|].
    exists (5 + length (snd sv))%nat. split; [lia|]. now rewrite take_ge by lia.
  - simpl. f_equal; [|exact IH2]. symmetry. eapply Forall2_length. exact HK.
Qed.

(** *** The calls of [generate_plan], in sequence *)

Lemma generate_plan_compose h h1 h2 h3 h4 fb t
    (split_type experience_level goal equipment : string)
    (weeks : Z) (limitations : option (list string)) :
  dict_get "full_body" (splits the_generator) = Some fb ->
  let template := default fb (dict_get split_type (splits the_generator)) in
  _adjust_for_experience template experience_level h = Some (template, h1) ->
  _adjust_for_equipment template equipment h1 = Some (template, h2) ->
  _adjust_for_limitations template (default [] limitations) h2 = Some (template, h3) ->
  _apply_rep_scheme template (scheme_for goal) h3 = Some (template, h4) ->
  h4 !! template = Some (OTemplate t) ->
  generate_plan the_generator split_type experience_level goal equipment
                weeks limitations h
  = Some ({| split_type := split_type; goal := goal;
             experience_level := experience_level;
             weeks := map (fun week_num =>
                             {| week_number := week_num;
                                sessions := t_sessions t;
                                notes := _get_week_notes week_num weeks |})
                          (seqZ 1 weeks) |}, h4).
Proof.
  intros Hfb template E1 E2 E3 E4 Ht. unfold generate_plan.
  assert (Hmb : exists fallback,
            dict_get "muscle_building" (rep_schemes the_generator) = Some fallback
            /\ default fallback (dict_get goal (rep_schemes the_generator))
               = scheme_for goal)
    by (eexists; split; vm_compute; reflexivity).
  destruct Hmb as (fallback & Hmb & Hsc).
  erewrite bind_Some by (apply dict_index_Some; exact Hfb).
  fold template.
  erewrite bind_Some by exact E1.
  erewrite bind_Some by exact E2.
  erewrite bind_Some by exact E3.
  erewrite bind_Some by (apply dict_index_Some; exact Hmb).
  rewrite Hsc.
  erewrite bind_Some by exact E4.
  erewrite bind_Some by (apply weeks_loop; exact Ht).
  reflexivity.
Qed.

(** The four adjustments on a well-formed store: each returns; the first may
    cut sessions, the others write slots only. *)
Lemma generate_plan_steps h (split_type experience_level goal equipment : string)
    (limitations : option (list string)) :
  wf_store the_generator h = true ->
  exists fb h1 h2 h3 h4 t ss,
    let template := default fb (dict_get split_type (splits the_generator)) in
    dict_get "full_body" (splits the_generator) = Some fb
    /\ _adjust_for_experience template experience_level h = Some (template, h1)
    /\ _adjust_for_equipment template equipment h1 = Some (template, h2)
    /\ _adjust_for_limitations template (default [] limitations) h2
       = Some (template, h3)
    /\ _apply_rep_scheme template (scheme_for goal) h3 = Some (template, h4)
    /\ (wf_template h template = true /\ wf_template h1 template = true
        /\ wf_template h2 template = true /\ wf_template h3 template = true)
    /\ (h !! template = Some (OTemplate t) /\ h4 !! template = Some (OTemplate t))
    /\ (h !! t_sessions t = Some (OList ss) /\ h1 !! t_sessions t = Some (OList ss)
        /\ h2 !! t_sessions t = Some (OList ss) /\ h3 !! t_sessions t = Some (OList ss)
        /\ h4 !! t_sessions t = Some (OList ss))
    /\ plan_step h h1
    /\ (String.eqb experience_level "beginner" = false -> h1 = h)
    /\ (String.eqb experience_level "beginner" = true ->
        Forall (fun sl => session_short sl h1) ss)
    /\ slots_only h1 h2
    /\ slots_only h2 h3
    /\ rescheme (scheme_for goal) h3 h4
    /\ Forall (fun sl => session_done (scheme_for goal) sl h4) ss.
Proof.
  intros Hwf.
  assert (Hfb : exists fb, dict_get "full_body" (splits the_generator) = Some fb)
    by (eexists; vm_compute; reflexivity).
  destruct Hfb as (fb & Hfb).
  set (template := default fb (dict_get split_type (splits the_generator))).
  pose proof (chosen_template_wf h split_type _ Hwf Hfb) as Hwf0.
  fold template in Hwf0.
  destruct (adjust_for_experience_step template experience_level h Hwf0)
    as (h1 & t & ss & E1 & Hs1 & Hsame & Ht1 & Hss1 & Hshort).
  pose proof (plan_step_evolves _ _ Hs1) as Hev1.
  pose proof (evolves_wf_template _ _ _ Hev1 Hwf0) as Hwf1.
  assert (S2 : exists h2, _adjust_for_equipment template equipment h1
                          = Some (template, h2) /\ slots_only h1 h2).
  { unfold _adjust_for_equipment.
    destruct (dict_get equipment substitutions) as [subs|] eqn:E.
    - destruct (substitute_names_renamed subs template h1 Hwf1)
        as (h2 & _ & _ & Hs & HR & _).
      exists h2. split; [erewrite bind_Some by exact Hs; reflexivity|].
      eapply renamed_slots_only; [|exact HR].
      eapply table_values; [exact E|]. intros x Hx. apply in_or_app. now left.
    - exists h1. split; reflexivity. }
  destruct S2 as (h2 & E2 & Hs2).
  pose proof (plan_step_evolves _ _ (slots_only_plan_step _ _ Hs2)) as Hev2.
  pose proof (evolves_wf_template _ _ _ Hev2 Hwf1) as Hwf2.
  destruct (adjust_for_limitations_step template (default [] limitations) h2 Hwf2)
    as (h3 & E3 & Hs3 & _).
  pose proof (plan_step_evolves _ _ (slots_only_plan_step _ _ Hs3)) as Hev3.
  pose proof (evolves_wf_template _ _ _ Hev3 Hwf2) as Hwf3.
  destruct (apply_rep_scheme_ok template (scheme_for goal) h3 Hwf3)
    as (h4 & t4 & ss4 & E4 & HR & Ht4 & Hss4 & Hdone).
  pose proof (rescheme_evolves _ _ _ HR) as Hev4.
  pose proof Hwf0 as (t0 & Ht0 & (ss0 & Hss0 & _)%wf_sessions_spec)%wf_template_spec.
  assert (t = t0).
  { destruct Hev1 as (_ & HT & _). pose proof (HT _ _ Ht0) as H'.
    rewrite Ht1 in H'. now injection H'. }
  subst t0.
  assert (ss = ss0).
  { destruct Hev1 as (HL & _). pose proof (HL _ _ Hss0) as H'.
    rewrite Hss1 in H'. now injection H'. }
  subst ss0.
  destruct Hev2 as (HL2 & HT2 & _). destruct Hev3 as (HL3 & HT3 & _).
  destruct Hev4 as (HL4 & HT4 & _).
  assert (t4 = t).
  { pose proof (HT4 _ _ (HT3 _ _ (HT2 _ _ Ht1))) as H'.
    rewrite Ht4 in H'. now injection H'. }
  subst t4.
  assert (ss4 = ss).
  { pose proof (HL4 _ _ (HL3 _ _ (HL2 _ _ Hss1))) as H'.
    rewrite Hss4 in H'. now injection H'. }
  subst ss4.
  exists fb, h1, h2, h3, h4, t, ss. cbv zeta. fold template.
  repeat match goal with |- _ /\ _ => split end; auto.
Qed.

Lemma stored_template_spec (self : Generator) split h v :
  stored_template self split h = Some v <->
  exists tl, dict_get split (splits self) = Some tl
             /\ eval (value_of_template tl) h = Some v.
Proof.
  unfold stored_template. destruct (dict_get split (splits self)) as [tl|].
  - split; [eauto|]. now intros (tl' & [= <-] & H).
  - split; [discriminate|]. now intros (tl' & [=] & _).
Qed.

Lemma effective_split_template fb split_type :
  dict_get "full_body" (splits the_generator) = Some fb ->
  dict_get (effective_split split_type) (splits the_generator)
  = Some (default fb (dict_get split_type (splits the_generator))).
Proof.
  intros Hfb. unfold effective_split.
  destruct (dict_get split_type (splits the_generator)) as [tl|] eqn:E;
    [exact E|exact Hfb].
Qed.

Lemma take_cap {A} (k : nat) (xs : list A) :
  (5 <= k)%nat -> (length (take k xs) <= 5)%nat -> take k xs = take 5 xs.
Proof.
  intros Hk Hlen. rewrite length_take in Hlen.
  destruct (le_lt_dec (length xs) 5) as [Hle|Hlt].
  - now rewrite !take_ge by lia.
  - assert (k = 5%nat) by lia. now subst.
Qed.

Lemma short_values h ss (vs : list session_value) :
  Forall2 (session_reads h) ss vs ->
  Forall (fun sl => session_short sl h) ss ->
  Forall (fun sv : session_value => (length (snd sv) <= 5)%nat) vs.
Proof.
  induction 1 as [|l sv ss vs (s & es & Hs & Hes & _ & Hxs) _ IH];
    intros Hall; [constructor|].
  inversion Hall as [|? ? (s' & es' & Hs' & Hes' & Hlen) Hrest]; subst.
  constructor; [|auto].
  rewrite Hs in Hs'. injection Hs' as <-. rewrite Hes in Hes'. injection Hes' as <-.
  apply Forall2_length in Hxs. lia.
Qed.

Lemma kept_capped (vs vs' : list session_value) :
  Forall2 session_kept vs vs' ->
  Forall (fun sv : session_value => (length (snd sv) <= 5)%nat) vs' ->
  Forall2 (fun sv sv' : session_value =>
             fst sv' = fst sv /\ Forall2 same_kind (take 5 (snd sv)) (snd sv'))
          vs vs'.
Proof.
  induction 1 as [|sv sv' vs vs' (Hn & k & Hk & HK) _ IH]; intros Hall; [constructor|].
  inversion Hall as [|? ? Hlen Hrest]; subst.
  constructor; [|auto]. split; [exact Hn|].
  rewrite <- (take_cap k) ; [exact HK|exact Hk|].
  apply Forall2_length in HK. lia.
Qed.

(** X12. A plan for a beginner, from any well-formed store: every session
    of every week is, slot for slot, the first five slots (all of them when
    there are fewer) of the session the stored template of the split had
    before the call, under the same session name, each slot with its type and
    muscle and with its name or a replacement name. *)
Theorem beginner_sessions_capped (h : heap)
    (split_type goal equipment : string)
    (weeks : Z) (limitations : option (list string)) :
  wf_store the_generator h = true ->
  exists plan h' v,
    generate_plan the_generator split_type "beginner" goal equipment
                  weeks limitations h = Some (plan, h')
    /\ stored_template the_generator (effective_split split_type) h = Some v
    /\ forall week, In week (WorkoutGenerator.weeks plan) ->
         exists svals,
           eval (value_of_sessions (sessions week)) h' = Some svals
           /\ Forall2 (fun sv sv' : session_value =>
                         fst sv' = fst sv
                         /\ Forall2 same_kind (take 5 (snd sv)) (snd sv'))
                      (snd v) svals.
Proof.
  intros Hwf.
  destruct (generate_plan_steps h split_type "beginner" goal equipment limitations Hwf)
    as (fb & h1 & h2 & h3 & h4 & t & ss & Hfb & E1 & E2 & E3 & E4
        & (Hwf0 & _) & (Ht & Ht4) & (Hss & _ & _ & _ & Hss4)
        & Hs1 & _ & Hshort & Hs2 & Hs3 & HR & _).
  specialize (Hshort eq_refl).
  pose proof (rescheme_slots_only _ _ _ HR) as Hs4.
  assert (Hlate : plan_step h1 h4).
  { apply slots_only_plan_step.
    etransitivity; [exact Hs2|]. etransitivity; [exact Hs3|exact Hs4]. }
  assert (Hstep : plan_step h h4) by (etransitivity; eassumption).
  apply wf_template_spec in Hwf0 as (t0 & Ht0 & Hwfs).
  rewrite Ht in Ht0. injection Ht0 as <-.
  destruct (wf_sessions_read _ _ Hwfs) as (vs & Hread).
  destruct (plan_step_sessions _ _ _ _ Hstep Hread) as (vs' & Hread' & Hkept).
  eexists _, h4, (t_name t, t_days_per_week t, vs).
  split; [exact (generate_plan_compose _ _ _ _ _ _ _ _ _ _ _ weeks _
                   Hfb E1 E2 E3 E4 Ht4)|].
  split.
  - apply stored_template_spec. eexists.
    split; [exact (effective_split_template _ _ Hfb)|].
    apply eval_template. exists t. auto.
  - simpl. intros week (n & <- & _)%in_map_iff. simpl.
    exists vs'. split; [now apply eval_sessions|].
    apply kept_capped; [exact Hkept|].
    destruct Hread' as (ss' & Hss' & Hall').
    rewrite Hss4 in Hss'. injection Hss' as <-.
    eapply short_values; [exact Hall'|].
    eapply Forall_impl; [exact Hshort|].
    intros sl Hsl. eapply plan_step_short; [exact Hsl|exact Hlate].
Qed.

Lemma beginner_sessions_capped_witness :
  exists plan h' v,
    generate_plan the_generator "upper_lower" "beginner" "fat_loss" "full_gym"
                  4 None initial_heap = Some (plan, h')
    /\ stored_template the_generator (effective_split "upper_lower") initial_heap
       = Some v
    /\ forall week, In week (WorkoutGenerator.weeks plan) ->
         exists svals,
           eval (value_of_sessions (sessions week)) h' = Some svals
           /\ Forall2 (fun sv sv' : session_value =>
                         fst sv' = fst sv
                         /\ Forall2 same_kind (take 5 (snd sv)) (snd sv'))
                      (snd v) svals.
Proof.
  apply (beginner_sessions_capped initial_heap "upper_lower" "fat_loss" "full_gym"
           4 None).
  vm_compute. reflexivity.
Defined.

(** X13. What a call of [generate_plan] does to the stored templates, of
    every split and from any well-formed store: each still has a value after
    the call, with the same name and days per week and the same session
    names in the same order; every session holds the first slots it held
    before (five at least, or all), each with its type and muscle unchanged
    and a name that is the old one or a replacement of the equipment and
    limitation tables. For a level other than [beginner], no session loses a
    slot. *)
Theorem stored_templates_kept (h : heap)
    (split_type experience_level goal equipment : string)
    (weeks : Z) (limitations : option (list string)) :
  wf_store the_generator h = true ->
  exists plan h',
    generate_plan the_generator split_type experience_level goal equipment
                  weeks limitations h = Some (plan, h')
    /\ forall split v,
         stored_template the_generator split h = Some v ->
         exists v',
           stored_template the_generator split h' = Some v'
           /\ template_kept v v'
           /\ (String.eqb experience_level "beginner" = false ->
               session_sizes v' = session_sizes v).
Proof.
  intros Hwf.
  destruct (generate_plan_steps h split_type experience_level goal equipment
              limitations Hwf)
    as (fb & h1 & h2 & h3 & h4 & t & ss & Hfb & E1 & E2 & E3 & E4
        & _ & (_ & Ht4) & _ & Hs1 & Hsame & _ & Hs2 & Hs3 & HR & _).
  pose proof (rescheme_slots_only _ _ _ HR) as Hs4.
  assert (Hlate : slots_only h1 h4).
  { etransitivity; [exact Hs2|]. etransitivity; [exact Hs3|exact Hs4]. }
  eexists _, h4.
  split; [exact (generate_plan_compose _ _ _ _ _ _ _ _ _ _ _ weeks _
                   Hfb E1 E2 E3 E4 Ht4)|].
  intros split v (tl & Htl & (t0 & Ht0 & Hn & Hread)%eval_template)%stored_template_spec.
  setoid_rewrite stored_template_spec.
  destruct (String.eqb experience_level "beginner").
  - assert (Hstep : plan_step h h4).
    { etransitivity; [exact Hs1|]. now apply slots_only_plan_step. }
    destruct (plan_step_sessions _ _ _ _ Hstep Hread) as (vs' & Hread' & Hkept).
    exists (fst v, vs'). split; [|split; [split; [reflexivity|exact Hkept]|discriminate]].
    exists tl. split; [exact Htl|].
    apply eval_template. exists t0. destruct Hstep as (_ & T & _). auto.
  - rewrite (Hsame eq_refl) in Hlate. destruct Hlate as [O E].
    destruct (slots_transfer_sessions same_kind _ _ _ _ O E Hread)
      as (vs' & Hread' & Hsl).
    apply same_slots_kept in Hsl as [Hkept Hsizes].
    exists (fst v, vs'). split; [|split; [split; [reflexivity|exact Hkept]|]].
    + exists tl. split; [exact Htl|]. apply eval_template. exists t0.
      split; [apply O; [exact Ht0|discriminate]|auto].
    + intros _. exact Hsizes.
Qed.

Lemma stored_templates_kept_witness :
  exists plan h',
    generate_plan the_generator "ppl" "advanced" "strength" "bodyweight"
                  6 (Some ["shoulder"]) initial_heap = Some (plan, h')
    /\ forall split v,
         stored_template the_generator split initial_heap = Some v ->
         exists v',
           stored_template the_generator split h' = Some v'
           /\ template_kept v v'
           /\ (String.eqb "advanced" "beginner" = false ->
               session_sizes v' = session_sizes v).
Proof.
  apply (stored_templates_kept initial_heap "ppl" "advanced" "strength" "bodyweight"
           6 (Some ["shoulder"])).
  vm_compute. reflexivity.
Defined.

Lemma follows_rescheme_id sc x : follows_scheme sc x -> rescheme_slot sc x = x.
Proof.
  destruct x as [n ty mu s r rs]. unfold follows_scheme, rescheme_slot, set_scheme.
  simpl. intros (-> & -> & ->).
  destruct (String.eqb ty "compound"); reflexivity.
Qed.

Lemma rescheme_session_reads sc h h' l sv :
  rescheme sc h h' -> session_reads h l sv -> session_done sc l h' ->
  session_reads h' l (reschemed sc sv).
Proof.
  intros HR (s & es & Hs & Hes & Hn & Hxs) (s' & es' & Hs' & Hes' & Hdone).
  pose proof (rescheme_other _ _ _ _ _ HR Hs) as Hs2.
  rewrite Hs2 in Hs' by discriminate. injection Hs' as <-.
  pose proof (rescheme_other _ _ _ _ _ HR Hes) as Hes2.
  rewrite Hes2 in Hes' by discriminate. injection Hes' as <-.
  exists s, es. split; [apply Hs2; discriminate|].
  split; [apply Hes2; discriminate|]. split; [exact Hn|].
  unfold reschemed. simpl. clear Hes Hes2.
  induction Hxs as [|e x es xs Hx _ IH]; [constructor|].
  inversion Hdone as [|? ? (y & Hy & Hf) Hrest]; subst.
  simpl. constructor; [|auto].
  destruct (HR e) as [Hsame|(e0 & H0 & H')].
  - rewrite Hsame, Hx in Hy. injection Hy as <-.
    rewrite (follows_rescheme_id _ _ Hf). congruence.
  - rewrite Hx in H0. injection H0 as <-. exact H'.
Qed.

Lemma adjust_for_limitations_unknown template limitations h :
  Forall (fun lim => dict_get lim limitation_subs = None) limitations ->
  _adjust_for_limitations template limitations h = Some (template, h).
Proof.
  intros Hall. unfold _adjust_for_limitations.
  erewrite bind_Some; [reflexivity|].
  induction Hall as [|lim lims Hlim _ IH]; [reflexivity|].
  cbn [for_each]. rewrite Hlim. erewrite bind_Some by reflexivity. exact IH.
Qed.

Lemma adjust_for_equipment_unknown template equipment h :
  dict_get equipment substitutions = None ->
  _adjust_for_equipment template equipment h = Some (template, h).
Proof. intros H. unfold _adjust_for_equipment. now rewrite H. Qed.

Lemma some_store {A} (a b : A) (h h' : heap) : Some (a, h) = Some (b, h') -> h = h'.
Proof. now intros [= _ ->]. Qed.

(** X14. A plan that needs no adjustment (a level other than [beginner],
    an equipment without substitution table such as [full_gym], and no known
    limitation) is the stored template with the scheme of the goal: every
    week holds the sessions that the stored template of the split had before
    the call, each slot with its sets, reps and rest set as
    [_apply_rep_scheme] sets them and nothing else changed. *)
Theorem plain_plan_is_template (h : heap)
    (split_type experience_level goal equipment : string)
    (weeks : Z) (limitations : option (list string)) :
  wf_store the_generator h = true ->
  String.eqb experience_level "beginner" = false ->
  dict_get equipment substitutions = None ->
  Forall (fun lim => dict_get lim limitation_subs = None) (default [] limitations) ->
  exists plan h' v,
    generate_plan the_generator split_type experience_level goal equipment
                  weeks limitations h = Some (plan, h')
    /\ stored_template the_generator (effective_split split_type) h = Some v
    /\ forall week, In week (WorkoutGenerator.weeks plan) ->
         eval (value_of_sessions (sessions week)) h'
         = Some (map (reschemed (scheme_for goal)) (snd v)).
Proof.
  intros Hwf Hlvl Heq Hlim.
  destruct (generate_plan_steps h split_type experience_level goal equipment
              limitations Hwf)
    as (fb & h1 & h2 & h3 & h4 & t & ss & Hfb & E1 & E2 & E3 & E4
        & (Hwf0 & _) & (Ht & Ht4) & (Hss & _ & _ & _ & Hss4)
        & _ & Hsame & _ & _ & _ & HR & Hdone).
  pose proof (generate_plan_compose _ _ _ _ _ _ _ _ _ _ _ weeks _
                Hfb E1 E2 E3 E4 Ht4) as Hrun.
  rewrite (Hsame Hlvl) in *. clear Hsame.
  rewrite (adjust_for_equipment_unknown _ _ h Heq) in E2.
  apply some_store in E2 as <-.
  rewrite (adjust_for_limitations_unknown _ _ h Hlim) in E3.
  apply some_store in E3 as <-.
  apply wf_template_spec in Hwf0 as (t0 & Ht0 & Hwfs).
  rewrite Ht in Ht0. injection Ht0 as <-.
  destruct (wf_sessions_read _ _ Hwfs) as (vs & Hread).
  eexists _, h4, (t_name t, t_days_per_week t, vs).
  split; [exact Hrun|]. split.
  - apply stored_template_spec. eexists.
    split; [exact (effective_split_template _ _ Hfb)|].
    apply eval_template. exists t. auto.
  - simpl. intros week (n & <- & _)%in_map_iff. simpl.
    apply eval_sessions. exists ss. split; [exact Hss4|].
    destruct Hread as (ss' & Hss' & Hall).
    rewrite Hss in Hss'. injection Hss' as <-.
    clear Hss Hss4 Hrun. induction Hall as [|l sv ss vs Hsv _ IH]; [constructor|].
    inversion Hdone as [|? ? Hd Hrest]; subst.
    simpl. constructor; [|auto].
    eapply rescheme_session_reads; eassumption.
Qed.

Lemma plain_plan_is_template_witness :
  exists plan h' v,
    generate_plan the_generator "upper_lower_ppl" "advanced" "endurance" "full_gym"
                  3 (Some ["wrist"]) initial_heap = Some (plan, h')
    /\ stored_template the_generator (effective_split "upper_lower_ppl") initial_heap
       = Some v
    /\ forall week, In week (WorkoutGenerator.weeks plan) ->
         eval (value_of_sessions (sessions week)) h'
         = Some (map (reschemed (scheme_for "endurance")) (snd v)).
Proof.
  apply (plain_plan_is_template initial_heap "upper_lower_ppl" "advanced" "endurance"
           "full_gym" 3 (Some ["wrist"])).
  - vm_compute. reflexivity.
  - vm_compute. reflexivity.
  - vm_compute. reflexivity.
  - repeat constructor.
Defined.

Lemma bind_relabel {A B} (m : M A) (k k' : A -> M B) (f : B * heap -> B * heap)
    (h : heap) :
  (forall a h1, k a h1 = fmap (M := option) f (k' a h1)) ->
  (m ≫= k) h = fmap (M := option) f ((m ≫= k') h).
Proof.
  intros H. unfold mbind, M_bind. destruct (m h) as [[a h1]|]; [apply H|reflexivity].
Qed.

(** X15. The two silent fall-backs of [generate_plan], on any store: a
    split that the generator does not have is planned as [full_body], and a
    goal that has no scheme is planned as [muscle_building]; the plan and the
    store are those of the call with the effective split and goal, only the
    plan's own [split_type] and [goal] keep what was asked for. *)
Theorem unknown_split_and_goal (h : heap)
    (split_type experience_level goal equipment : string)
    (weeks : Z) (limitations : option (list string)) :
  generate_plan the_generator split_type experience_level goal equipment
                weeks limitations h
  = relabel split_type goal
      <$> generate_plan the_generator (effective_split split_type) experience_level
                        (effective_goal goal) equipment weeks limitations h.
Proof.
  assert (Hfb : exists fb, dict_get "full_body" (splits the_generator) = Some fb)
    by (eexists; vm_compute; reflexivity).
  destruct Hfb as (fb & Hfb).
  assert (Hmb : exists mb, dict_get "muscle_building" (rep_schemes the_generator)
                           = Some mb)
    by (eexists; vm_compute; reflexivity).
  destruct Hmb as (mb & Hmb).
  assert (Hsplit : default fb (dict_get (effective_split split_type)
                                        (splits the_generator))
                   = default fb (dict_get split_type (splits the_generator))).
  { unfold effective_split.
    destruct (dict_get split_type (splits the_generator)) as [tl|] eqn:E;
      [now rewrite E|now rewrite Hfb]. }
  assert (Hgoal : default mb (dict_get (effective_goal goal)
                                       (rep_schemes the_generator))
                  = default mb (dict_get goal (rep_schemes the_generator))).
  { unfold effective_goal.
    destruct (dict_get goal (rep_schemes the_generator)) as [sc|] eqn:E;
      [now rewrite E|now rewrite Hmb]. }
  unfold generate_plan. cbv zeta.
  rewrite !(bind_Some (dict_index "full_body" (splits the_generator)) _ h fb h)
    by (apply dict_index_Some; exact Hfb).
  rewrite Hsplit.
  apply bind_relabel. intros template1 h1.
  apply bind_relabel. intros template2 h2.
  apply bind_relabel. intros template3 h3.
  rewrite !(bind_Some (dict_index "muscle_building" (rep_schemes the_generator))
                      _ h3 mb h3)
    by (apply dict_index_Some; exact Hmb).
  rewrite Hgoal.
  apply bind_relabel. intros template4 h4.
  apply bind_relabel. intros ws h5.
  reflexivity.
Qed.

Lemma map_week_number (sl : loc) (note : Z -> string) (nums : list Z) :
  map week_number
      (map (fun week_num => {| week_number := week_num; sessions := sl;
                               notes := note week_num |}) nums)
  = nums.
Proof.
  induction nums as [|n ns IH]; [reflexivity|].
  cbn [map week_number]. f_equal. exact IH.
Qed.

(** X16. The shape of a plan, from any well-formed store: it bears the
    split, goal and level that were asked for; its weeks are numbered 1 to
    [weeks] in order, none at all when [weeks] is zero or negative; each week
    has the note of its number; and all weeks hold one and the same list of
    sessions. *)
Theorem plan_weeks_spec (h : heap)
    (split_type experience_level goal equipment : string)
    (weeks : Z) (limitations : option (list string)) :
  wf_store the_generator h = true ->
  exists plan h',
    generate_plan the_generator split_type experience_level goal equipment
                  weeks limitations h = Some (plan, h')
    /\ WorkoutGenerator.split_type plan = split_type
    /\ WorkoutGenerator.goal plan = goal
    /\ WorkoutGenerator.experience_level plan = experience_level
    /\ map week_number (WorkoutGenerator.weeks plan) = seqZ 1 weeks
    /\ (weeks <= 0 -> WorkoutGenerator.weeks plan = [])
    /\ Forall (fun week => notes week = _get_week_notes (week_number week) weeks)
              (WorkoutGenerator.weeks plan)
    /\ forall week1 week2,
         In week1 (WorkoutGenerator.weeks plan) ->
         In week2 (WorkoutGenerator.weeks plan) ->
         sessions week1 = sessions week2.
Proof.
  intros Hwf.
  destruct (generate_plan_run h split_type experience_level goal equipment
              weeks limitations Hwf)
    as (fb & h' & t & ss & _ & Hrun & _).
  eexists _, h'. split; [exact Hrun|]. clear Hrun Hwf. cbn [WorkoutGenerator.weeks
    WorkoutGenerator.split_type WorkoutGenerator.goal WorkoutGenerator.experience_level].
  split; [reflexivity|]. split; [reflexivity|]. split; [reflexivity|].
  split; [|split; [|split]].
  - apply map_week_number.
  - intros Hle. unfold seqZ. replace (Z.to_nat weeks) with 0%nat by lia. reflexivity.
  - apply Forall_forall. intros week (n & <- & _)%list_elem_of_In%in_map_iff.
    reflexivity.
  - intros week1 week2 (n1 & <- & _)%in_map_iff (n2 & <- & _)%in_map_iff.
    reflexivity.
Qed.

Lemma plan_weeks_spec_witness :
  exists plan h',
    generate_plan the_generator "full_body" "intermediate" "muscle_building"
                  "home_gym" 12 None initial_heap = Some (plan, h')
    /\ WorkoutGenerator.split_type plan = "full_body"
    /\ WorkoutGenerator.goal plan = "muscle_building"
    /\ WorkoutGenerator.experience_level plan = "intermediate"
    /\ map week_number (WorkoutGenerator.weeks plan) = seqZ 1 12
    /\ (12 <= 0 -> WorkoutGenerator.weeks plan = [])
    /\ Forall (fun week => notes week = _get_week_notes (week_number week) 12)
              (WorkoutGenerator.weeks plan)
    /\ forall week1 week2,
         In week1 (WorkoutGenerator.weeks plan) ->
         In week2 (WorkoutGenerator.weeks plan) ->
         sessions week1 = sessions week2.
Proof.
  apply (plan_weeks_spec initial_heap "full_body" "intermediate" "muscle_building"
           "home_gym" 12 None).
  vm_compute. reflexivity.
Defined.

(** *** Names that the tables replace *)

#[local] Instance keeps_preorder F : PreOrder (keeps F).
Proof.
  split.
  - intros h. split; [auto|]. intros l e H. exists e. auto.
  - intros h1 h2 h3 [O1 E1] [O2 E2]. split.
    + intros l o H Hk. auto.
    + intros l e H. destruct (E1 l e H) as (e' & H' & K1).
      destruct (E2 l e' H') as (e'' & H'' & K2).
      exists e''. split; [exact H''|]. auto.
Qed.

Lemma keeps_evolves F h h' : keeps F h h' -> evolves h h'.
Proof.
  intros [O E]. apply frame_evolves.
  - intros l xs H. apply O; [exact H|discriminate].
  - intros l t H. apply O; [exact H|discriminate].
  - intros l s H. apply O; [exact H|discriminate].
  - intros l (e & H)%is_exercise_spec. apply is_exercise_spec.
    destruct (E l e H) as (e' & H' & _). eauto.
Qed.

Lemma compatible_spec subs' subs v :
  compatible subs' subs = true -> In v (map snd subs') -> dict_get v subs = None.
Proof.
  unfold compatible. rewrite forallb_forall.
  intros Hall (p & <- & Hp)%in_map_iff. specialize (Hall p Hp).
  destruct (dict_get (snd p) subs); [discriminate|reflexivity].
Qed.

Lemma renamed_keeps F subs' h h' :
  Forall (fun subs => compatible subs' subs = true) F ->
  renamed subs' h h' -> keeps F h h'.
Proof.
  intros Hc [O E]. split; [exact O|].
  intros l e H. destruct (E l e H) as (e' & H' & _ & _ & _ & _ & _ & N).
  exists e'. split; [exact H'|]. intros subs Hin Hnr. unfold not_replaced in *.
  destruct N as [N|N]; [now rewrite N|].
  rewrite Forall_forall in Hc. eapply compatible_spec; [|exact N].
  apply Hc. now apply list_elem_of_In.
Qed.

Lemma rescheme_keeps F sc h h' : rescheme sc h h' -> keeps F h h'.
Proof.
  intros HR. split.
  - intros l o H Hk. eapply rescheme_other; eauto.
  - intros l e H. destruct (rescheme_names _ _ _ _ _ HR H) as (e' & H' & Hn).
    exists e'. split; [exact H'|]. intros subs _. unfold not_replaced. now rewrite Hn.
Qed.

Lemma keeps_session_all F subs h h' l :
  In subs F -> session_all (not_replaced subs) l h -> keeps F h h' ->
  session_all (not_replaced subs) l h'.
Proof.
  intros Hin (s & es & Hs & Hes & Hall) [O E].
  exists s, es. split; [apply O; [exact Hs|discriminate]|].
  split; [apply O; [exact Hes|discriminate]|].
  eapply Forall_impl; [exact Hall|]. intros e (x & Hx & Hnr).
  destruct (E e x Hx) as (x' & Hx' & K). exists x'. split; [exact Hx'|auto].
Qed.

Lemma renamed_session_clear subs h l :
  values_not_keys subs = true -> session_renamed subs l h ->
  session_all (not_replaced subs) l h.
Proof.
  intros Hv (s & es & Hs & Hes & Hall). exists s, es.
  split; [exact Hs|]. split; [exact Hes|].
  eapply Forall_impl; [exact Hall|]. intros e (x & Hx & [Hd|Hd]).
  - exists x. auto.
  - exists x. split; [exact Hx|]. eapply compatible_spec; [exact Hv|exact Hd].
Qed.

(** The limitations loop, seen from a family [F] of tables that no known
    limitation of the list writes a replaced name of: it returns, and
    afterwards the template is clear of every name replaced by a table that
    belongs to a limitation of the list and to [F]. *)
Lemma adjust_for_limitations_keeps F template limitations h t ss :
  wf_template h template = true ->
  h !! template = Some (OTemplate t) ->
  h !! t_sessions t = Some (OList ss) ->
  (forall lim subs', In lim limitations ->
     dict_get lim limitation_subs = Some subs' ->
     Forall (fun subs => compatible subs' subs = true) F) ->
  exists h',
    _adjust_for_limitations template limitations h = Some (template, h')
    /\ keeps F h h'
    /\ forall lim subs, In lim limitations ->
         dict_get lim limitation_subs = Some subs ->
         In subs F -> values_not_keys subs = true ->
         Forall (fun sl => session_all (not_replaced subs) sl h') ss.
Proof.
  intros Hwf Ht Hss Hcompat. unfold _adjust_for_limitations.
  destruct (for_each_ok (keeps F)
              (fun lim h1 =>
                 wf_template h1 template = true
                 /\ h1 !! template = Some (OTemplate t)
                 /\ h1 !! t_sessions t = Some (OList ss)
                 /\ forall subs', dict_get lim limitation_subs = Some subs' ->
                      Forall (fun subs => compatible subs' subs = true) F)
              (fun lim h1 =>
                 forall subs, dict_get lim limitation_subs = Some subs ->
                   In subs F -> values_not_keys subs = true ->
                   Forall (fun sl => session_all (not_replaced subs) sl h1) ss)
              (fun limitation : string =>
                 match dict_get limitation limitation_subs with
                 | Some subs => substitute_names subs template
                 | None => mret tt
                 end)) with (xs := limitations) (h := h)
    as (h' & Hloop & Hstep & Hdone).
  - intros lim ha hb (Hw & Hta & Hssa & Hc) Hab. pose proof Hab as [O _].
    split; [eapply evolves_wf_template; [eapply keeps_evolves; exact Hab|exact Hw]|].
    split; [apply O; [exact Hta|discriminate]|].
    split; [apply O; [exact Hssa|discriminate]|exact Hc].
  - intros lim ha hb HQ Hab subs Hs Hin Hv.
    eapply Forall_impl; [exact (HQ subs Hs Hin Hv)|].
    intros sl Hsl. exact (keeps_session_all F subs ha hb sl Hin Hsl Hab).
  - intros lim h1 (Hw & Ht1 & Hss1 & Hc).
    destruct (dict_get lim limitation_subs) as [subs'|] eqn:E.
    + destruct (substitute_names_renamed subs' template h1 Hw)
        as (h2 & t2 & ss2 & Hs & HR & Ht2 & Hss2 & Hren).
      exists h2. split; [exact Hs|].
      split; [eapply renamed_keeps; [exact (Hc subs' eq_refl)|exact HR]|].
      intros subs [= <-] Hin Hv.
      pose proof HR as [O _].
      pose proof (O _ _ Ht1 ltac:(discriminate)) as Ht2'.
      rewrite Ht2 in Ht2'. injection Ht2' as ->.
      pose proof (O _ _ Hss1 ltac:(discriminate)) as Hss2'.
      rewrite Hss2 in Hss2'. injection Hss2' as ->.
      eapply Forall_impl; [exact Hren|].
      intros sl Hsl. now apply renamed_session_clear.
    + exists h1. split; [reflexivity|]. split; [reflexivity|]. discriminate.
  - apply Forall_forall. intros lim Hlim%list_elem_of_In.
    split; [exact Hwf|]. split; [exact Ht|]. split; [exact Hss|].
    intros subs'. now apply Hcompat.
  - exists h'. split; [erewrite bind_Some by exact Hloop; reflexivity|].
    split; [exact Hstep|].
    intros lim subs Hlim. rewrite Forall_forall in Hdone.
    apply Hdone. now apply list_elem_of_In.
Qed.

Lemma sessions_all_read (φ : Exercise -> Prop) h sl ss vs :
  h !! sl = Some (OList ss) ->
  Forall (fun l => session_all φ l h) ss ->
  sessions_read h sl vs ->
  forall sv e, In sv vs -> In e (snd sv) -> φ e.
Proof.
  intros Hss Hall (ss' & Hss' & Hread).
  rewrite Hss in Hss'. injection Hss' as <-. clear Hss. revert Hall.
  induction Hread as [|l sv ss vs (s & es & Hs & Hes & _ & Hxs) _ IH];
    intros Hall sv0 e Hsv He; [destruct Hsv|].
  inversion Hall as [|? ? (s' & es' & Hs' & Hes' & Hφ) Hrest]; subst.
  destruct Hsv as [<-|Hsv]; [|eapply IH; eauto].
  rewrite Hs in Hs'. injection Hs' as <-. rewrite Hes in Hes'. injection Hes' as <-.
  clear IH Hall Hrest Hes Hs. revert Hφ He.
  induction Hxs as [|l' x es xs Hx _ IHx]; intros Hφ He; [destruct He|].
  inversion Hφ as [|? ? (x' & Hx' & Hfx) Hφ']; subst.
  destruct He as [<-|He]; [|auto].
  rewrite Hx in Hx'. now injection Hx' as <-.
Qed.

(** The tables, checked once: no equipment table and no limitation table
    writes a name that it replaces itself; no limitation table writes a name
    that a limitation table replaces; and the table of [lower_back] is the
    only limitation table to write a name ([Leg Press]) that an equipment
    table replaces. *)
Lemma equipment_values_not_keys equipment subs :
  dict_get equipment substitutions = Some subs -> values_not_keys subs = true.
Proof.
  intros H%LibraryProps.dict_get_In.
  assert (Hall : forallb (fun p : string * list (string * string) =>
                            values_not_keys (snd p)) substitutions = true)
    by (vm_compute; reflexivity).
  rewrite forallb_forall in Hall. exact (Hall _ H).
Qed.

Lemma limitation_tables_compatible lim subs lim' subs' :
  In (lim, subs) limitation_subs ->
  dict_get lim' limitation_subs = Some subs' ->
  compatible subs' subs = true.
Proof.
  intros H H'%LibraryProps.dict_get_In.
  assert (Hall : forallb (fun p : string * list (string * string) =>
                   forallb (fun q : string * list (string * string) =>
                              compatible (snd q) (snd p)) limitation_subs)
                   limitation_subs = true)
    by (vm_compute; reflexivity).
  rewrite forallb_forall in Hall. specialize (Hall _ H).
  rewrite forallb_forall in Hall. exact (Hall _ H').
Qed.

Lemma limitation_equipment_compatible lim subs' equipment subs :
  lim <> "lower_back" ->
  dict_get lim limitation_subs = Some subs' ->
  dict_get equipment substitutions = Some subs ->
  compatible subs' subs = true.
Proof.
  intros Hne H'%LibraryProps.dict_get_In H%LibraryProps.dict_get_In.
  assert (Hall : forallb (fun q : string * list (string * string) =>
                   String.eqb (fst q) "lower_back"
                   || forallb (fun p : string * list (string * string) =>
                                 compatible (snd q) (snd p)) substitutions)
                   limitation_subs = true)
    by (vm_compute; reflexivity).
  rewrite forallb_forall in Hall. specialize (Hall _ H'). cbn [fst snd] in Hall.
  apply orb_true_iff in Hall as [Heq%String.eqb_eq|Hall]; [contradiction|].
  rewrite forallb_forall in Hall. exact (Hall _ H).
Qed.

(** What the sessions of the template are clear of before the rep scheme
    is applied, the weeks of the plan are clear of, when the property does
    not depend on sets, reps and rest. *)
Lemma plan_clear (φ : Exercise -> Prop) h3 h4 sc t ss (ws : list Week) :
  rescheme sc h3 h4 ->
  (forall l e, h3 !! l = Some (OExercise e) -> φ e ->
     forall e', h4 !! l = Some (OExercise e') -> φ e') ->
  h4 !! t_sessions t = Some (OList ss) ->
  Forall (fun sl => session_all φ sl h3) ss ->
  Forall (fun week => sessions week = t_sessions t) ws ->
  forall week, In week ws ->
    exists svals,
      eval (value_of_sessions (sessions week)) h4 = Some svals
      /\ forall sv e, In sv svals -> In e (snd sv) -> φ e.
Proof.
  intros HR Hφ Hss4 Hall Hweeks week Hweek.
  rewrite Forall_forall in Hweeks.
  rewrite (Hweeks week) by now apply list_elem_of_In.
  assert (Hall4 : Forall (fun sl => session_all φ sl h4) ss).
  { eapply Forall_impl; [exact Hall|].
    intros sl (s & es & Hs & Hes & Hx). exists s, es.
    split; [eapply rescheme_other; eauto; discriminate|].
    split; [eapply rescheme_other; eauto; discriminate|].
    eapply Forall_impl; [exact Hx|]. intros e (x & Hxe & Hfx).
    destruct (rescheme_names _ _ _ _ _ HR Hxe) as (x' & Hx' & _).
    exists x'. split; [exact Hx'|]. eapply Hφ; eauto. }
  assert (Hwfs : wf_sessions h4 (t_sessions t) = true).
  { apply wf_sessions_spec. exists ss. split; [exact Hss4|].
    eapply Forall_impl; [exact Hall4|].
    intros sl (s & es & Hs & Hes & Hx). apply wf_session_spec.
    exists s. split; [exact Hs|]. apply wf_exercises_spec. exists es.
    split; [exact Hes|]. eapply Forall_impl; [exact Hx|].
    intros e (x & Hxe & _). apply is_exercise_spec. eauto. }
  destruct (wf_sessions_read _ _ Hwfs) as (vs & Hread).
  exists vs. split; [now apply eval_sessions|].
  eapply sessions_all_read; eassumption.
Qed.

Lemma adjust_for_equipment_known template equipment subs h h' :
  dict_get equipment substitutions = Some subs ->
  substitute_names subs template h = Some (tt, h') ->
  _adjust_for_equipment template equipment h = Some (template, h').
Proof.
  intros H Hs. unfold _adjust_for_equipment. rewrite H.
  erewrite bind_Some by exact Hs. reflexivity.
Qed.

Lemma wf_session_all h l :
  wf_session h l = true -> session_all (not_replaced []) l h.
Proof.
  intros (s & Hs & (es & Hes & Hex)%wf_exercises_spec)%wf_session_spec.
  exists s, es. split; [exact Hs|]. split; [exact Hes|].
  eapply Forall_impl; [exact Hex|].
  intros e (x & Hx)%is_exercise_spec. exists x. split; [exact Hx|reflexivity].
Qed.

Lemma rescheme_not_replaced sc subs h h' l e e' :
  rescheme sc h h' ->
  h !! l = Some (OExercise e) -> not_replaced subs e ->
  h' !! l = Some (OExercise e') -> not_replaced subs e'.
Proof.
  intros HR H Hnr H'. destruct (rescheme_names _ _ _ _ _ HR H) as (e'' & H'' & Hn).
  rewrite H' in H''. injection H'' as <-. unfold not_replaced in *. now rewrite Hn.
Qed.

Lemma plan_weeks_share (sl : loc) (note : Z -> string) (nums : list Z) :
  Forall (fun week => sessions week = sl)
         (map (fun week_num => {| week_number := week_num; sessions := sl;
                                  notes := note week_num |}) nums).
Proof.
  apply Forall_forall. intros week (n & <- & _)%list_elem_of_In%in_map_iff.
  reflexivity.
Qed.

(** X17. The equipment is honoured unless the lower back is spared: from
    any well-formed store, when [lower_back] is not among the limitations, no
    slot of any session of any week of the plan bears a name that the
    substitution table of the equipment replaces (for [bodyweight] no Bench
    Press, Squat, Deadlift and so on; for [home_gym] no Leg Press, Lat
    Pulldown, Cable Row and so on). The table of [lower_back] turns Squat
    into Leg Press after the equipment was dealt with. *)
Theorem equipment_honoured (h : heap)
    (split_type experience_level goal equipment : string)
    (weeks : Z) (limitations : option (list string)) :
  wf_store the_generator h = true ->
  ~ In "lower_back" (default [] limitations) ->
  exists plan h',
    generate_plan the_generator split_type experience_level goal equipment
                  weeks limitations h = Some (plan, h')
    /\ forall week, In week (WorkoutGenerator.weeks plan) ->
         exists svals,
           eval (value_of_sessions (sessions week)) h' = Some svals
           /\ forall sv e, In sv svals -> In e (snd sv) ->
                dict_get (ex_name e) (equipment_table equipment) = None.
Proof.
  intros Hwf Hlb.
  destruct (generate_plan_steps h split_type experience_level goal equipment
              limitations Hwf)
    as (fb & h1 & h2 & h3 & h4 & t & ss & Hfb & E1 & E2 & E3 & E4
        & (_ & Hwf1 & Hwf2 & Hwf3) & (Ht & Ht4) & (_ & Hss1 & Hss2 & Hss3 & Hss4)
        & Hs1 & _ & _ & Hs2 & Hs3 & HR & _).
  eexists _, h4.
  split; [exact (generate_plan_compose _ _ _ _ _ _ _ _ _ _ _ weeks _
                   Hfb E1 E2 E3 E4 Ht4)|].
  cbn [WorkoutGenerator.weeks].
  apply (plan_clear (not_replaced (equipment_table equipment)) h3 h4
           (scheme_for goal) t ss); [exact HR| |exact Hss4| |apply plan_weeks_share].
  { intros l e He Hnr e' He'. eapply rescheme_not_replaced; eassumption. }
  assert (Ht1 : h1 !! default fb (dict_get split_type (splits the_generator))
                = Some (OTemplate t)).
  { destruct Hs1 as (_ & T & _). auto. }
  unfold equipment_table.
  destruct (dict_get equipment substitutions) as [subs|] eqn:Heq; cbn [default].
  - destruct (substitute_names_renamed subs _ h1 Hwf1)
      as (h2' & t2 & ss2 & Hrun & HRen & Ht2 & Hss2' & Hren).
    rewrite (adjust_for_equipment_known _ _ _ _ _ Heq Hrun) in E2.
    apply some_store in E2 as ->.
    pose proof HRen as [O _].
    pose proof (O _ _ Ht1 ltac:(discriminate)) as Ht2'.
    rewrite Ht2 in Ht2'. injection Ht2' as ->.
    rewrite Hss2 in Hss2'. injection Hss2' as <-.
    destruct (adjust_for_limitations_keeps [subs] _ (default [] limitations) h2 t ss
                Hwf2 Ht2 Hss2) as (h3' & Hrun3 & Hkeeps & _).
    { intros lim subs' Hlim Hsubs'. constructor; [|constructor].
      eapply limitation_equipment_compatible; [|exact Hsubs'|exact Heq].
      intros ->. contradiction. }
    rewrite Hrun3 in E3. apply some_store in E3 as ->.
    eapply Forall_impl; [exact Hren|].
    intros sl Hsl. eapply (keeps_session_all [subs]); [now left| |exact Hkeeps].
    apply renamed_session_clear; [|exact Hsl].
    eapply equipment_values_not_keys. exact Heq.
  - apply wf_template_spec in Hwf3 as (t3 & Ht3 & (ss3 & Hss3' & Hall)%wf_sessions_spec).
    assert (t3 = t).
    { pose proof (rescheme_other _ _ _ _ _ HR Ht3 ltac:(discriminate)) as H'.
      rewrite Ht4 in H'. now injection H'. }
    subst t3. rewrite Hss3 in Hss3'. injection Hss3' as <-.
    eapply Forall_impl; [exact Hall|]. intros sl Hsl. now apply wf_session_all.
Qed.

Lemma equipment_honoured_witness :
  exists plan h',
    generate_plan the_generator "upper_lower" "intermediate" "fat_loss" "bodyweight"
                  8 (Some ["knee"; "shoulder"]) initial_heap = Some (plan, h')
    /\ forall week, In week (WorkoutGenerator.weeks plan) ->
         exists svals,
           eval (value_of_sessions (sessions week)) h' = Some svals
           /\ forall sv e, In sv svals -> In e (snd sv) ->
                dict_get (ex_name e) (equipment_table "bodyweight") = None.
Proof.
  apply (equipment_honoured initial_heap "upper_lower" "intermediate" "fat_loss"
           "bodyweight" 8 (Some ["knee"; "shoulder"])).
  - vm_compute. reflexivity.
  - simpl. intros [H|[H|[]]]; discriminate.
Defined.

(** X18. Every limitation is honoured, whatever else is asked for: from any
    well-formed store, for each limitation of the list, no slot of any
    session of any week of the plan bears a name that the substitution table
    of that limitation replaces (for [knee] no Squat, Lunges or Leg
    Extension), in whatever order the limitations are given and whatever
    the equipment. *)
Theorem limitations_honoured (h : heap)
    (split_type experience_level goal equipment : string)
    (weeks : Z) (limitations : option (list string)) (limitation : string) :
  wf_store the_generator h = true ->
  In limitation (default [] limitations) ->
  exists plan h',
    generate_plan the_generator split_type experience_level goal equipment
                  weeks limitations h = Some (plan, h')
    /\ forall week, In week (WorkoutGenerator.weeks plan) ->
         exists svals,
           eval (value_of_sessions (sessions week)) h' = Some svals
           /\ forall sv e, In sv svals -> In e (snd sv) ->
                dict_get (ex_name e) (limitation_table limitation) = None.
Proof.
  intros Hwf Hin.
  destruct (generate_plan_steps h split_type experience_level goal equipment
              limitations Hwf)
    as (fb & h1 & h2 & h3 & h4 & t & ss & Hfb & E1 & E2 & E3 & E4
        & (_ & Hwf1 & Hwf2 & Hwf3) & (Ht & Ht4) & (_ & Hss1 & Hss2 & Hss3 & Hss4)
        & Hs1 & _ & _ & Hs2 & Hs3 & HR & _).
  eexists _, h4.
  split; [exact (generate_plan_compose _ _ _ _ _ _ _ _ _ _ _ weeks _
                   Hfb E1 E2 E3 E4 Ht4)|].
  cbn [WorkoutGenerator.weeks].
  apply (plan_clear (not_replaced (limitation_table limitation)) h3 h4
           (scheme_for goal) t ss); [exact HR| |exact Hss4| |apply plan_weeks_share].
  { intros l e He Hnr e' He'. eapply rescheme_not_replaced; eassumption. }
  assert (Ht2 : h2 !! default fb (dict_get split_type (splits the_generator))
                = Some (OTemplate t)).
  { destruct Hs1 as (_ & T & _). destruct Hs2 as [O _].
    apply O; [auto|discriminate]. }
  destruct (adjust_for_limitations_keeps (map snd limitation_subs) _
              (default [] limitations) h2 t ss Hwf2 Ht2 Hss2)
    as (h3' & Hrun3 & Hkeeps & Hclear).
  { intros lim subs' Hlim Hsubs'. apply Forall_forall.
    intros subs ([k subs0] & <- & Hk)%list_elem_of_In%in_map_iff.
    eapply limitation_tables_compatible; [exact Hk|exact Hsubs']. }
  rewrite Hrun3 in E3. apply some_store in E3 as ->.
  unfold limitation_table.
  destruct (dict_get limitation limitation_subs) as [subs|] eqn:Hlim; cbn [default].
  - pose proof (LibraryProps.dict_get_In _ _ _ Hlim) as Hk.
    apply (Hclear limitation subs Hin Hlim).
    + apply in_map_iff. exists (limitation, subs). split; [reflexivity|exact Hk].
    + exact (limitation_tables_compatible _ _ _ _ Hk Hlim).
  - apply wf_template_spec in Hwf3 as (t3 & Ht3 & (ss3 & Hss3' & Hall)%wf_sessions_spec).
    assert (t3 = t).
    { pose proof (rescheme_other _ _ _ _ _ HR Ht3 ltac:(discriminate)) as H'.
      rewrite Ht4 in H'. now injection H'. }
    subst t3. rewrite Hss3 in Hss3'. injection Hss3' as <-.
    eapply Forall_impl; [exact Hall|]. intros sl Hsl. now apply wf_session_all.
Qed.

Lemma limitations_honoured_witness :
  exists plan h',
    generate_plan the_generator "full_body" "beginner" "strength" "home_gym"
                  4 (Some ["knee"; "lower_back"]) initial_heap = Some (plan, h')
    /\ forall week, In week (WorkoutGenerator.weeks plan) ->
         exists svals,
           eval (value_of_sessions (sessions week)) h' = Some svals
           /\ forall sv e, In sv svals -> In e (snd sv) ->
                dict_get (ex_name e) (limitation_table "knee") = None.
Proof.
  apply (limitations_honoured initial_heap "full_body" "beginner" "strength"
           "home_gym" 4 (Some ["knee"; "lower_back"]) "knee").
  - vm_compute. reflexivity.
  - simpl. now left.
Defined.

End GeneratorMore.
